(** * TimeHammer: NTP wire codec, request engine and attack engine

    A shallow embedding of the Go packages [ntpcore] (wire codec),
    [ntp] (upstream tracker), [attacks] (attack engine) and [server]
    (request engine), with the properties of the codec and of the response
    pipeline stated and settled against it.

    Conventions.  Go's fixed-width integers are modelled as [Z] with the
    conversions written out ([uint8], [uint32], [int8], [int64]); [[]byte]
    is [list Byte.byte]; Go strings are [string] (a sequence of bytes, so
    [String.length] is Go's [len]); [float64] is the IEEE-754 binary64
    specification [spec_float] of the standard library; a [map[string]int]
    is a [gmap string Z] whose missing keys read as Go's zero value.
    Logging and session recording only observe the packets and are left
    out. *)

From stdpp Require Import gmap strings.
From Stdlib Require Import ZArith Lia String Ascii List Bool.
From Stdlib Require Import Init.Byte Strings.Byte.
From Stdlib Require Import Floats.SpecFloat.
From Stdlib Require Import DecimalString.
Import ListNotations.

Local Open Scope string_scope.
Local Open Scope Z_scope.

(** ** Go's machine integers and errors *)

Definition uint8 (z : Z) : Z := z mod 256.
Definition uint32 (z : Z) : Z := z mod 4294967296.
Definition int8 (z : Z) : Z := (z + 128) mod 256 - 128.
Definition int64 (z : Z) : Z :=
  (z + 9223372036854775808) mod 18446744073709551616 - 9223372036854775808.

Definition is_uint8 (z : Z) : Prop := 0 <= z < 256.
Definition is_int8 (z : Z) : Prop := -128 <= z < 128.
Definition is_uint32 (z : Z) : Prop := 0 <= z < 4294967296.

(** A Go [error] value: [None] is [nil]. *)
Definition error := option string.

Inductive result (A : Type) : Type :=
| Ok (a : A)
| Err (msg : string).
Arguments Ok {A} a.
Arguments Err {A} msg.

(** [fmt.Sprintf("%d", z)] *)
Definition itoa (z : Z) : string := NilZero.string_of_int (Z.to_int z).

(** ** Bytes *)

Definition byteZ (b : Byte.byte) : Z := Z.of_N (Byte.to_N b).

(** [byte(z)]: the low eight bits of an integer. *)
Definition Zbyte (z : Z) : Byte.byte :=
  match Byte.of_N (Z.to_N (z mod 256)) with
  | Some b => b
  | None => Byte.x00
  end.

(** [data[lo:hi]] *)
Definition slice (data : list Byte.byte) (lo hi : nat) : list Byte.byte :=
  firstn (hi - lo) (skipn lo data).

(** [encoding/binary.BigEndian].  [Uint32] panics in Go on a slice shorter
    than four bytes; every caller below passes exactly four. *)
Module BigEndian.

Definition Uint32 (b : list Byte.byte) : Z :=
  match b with
  | b0 :: b1 :: b2 :: b3 :: _ =>
      Z.lor (Z.lor (Z.lor (byteZ b3) (Z.shiftl (byteZ b2) 8))
                   (Z.shiftl (byteZ b1) 16))
            (Z.shiftl (byteZ b0) 24)
  | _ => 0
  end.

Definition PutUint32 (v : Z) : list Byte.byte :=
  [Zbyte (Z.shiftr v 24); Zbyte (Z.shiftr v 16); Zbyte (Z.shiftr v 8); Zbyte v].

End BigEndian.

(** ** float64

    IEEE-754 binary64 as specified by [SpecFloat] (precision 53, [emax]
    1024), rounding to nearest even. *)

Module float64.

Definition prec : Z := 53.
Definition emax : Z := 1024.

(** [float64(z)] for an integer [z]. *)
Definition of_int (z : Z) : spec_float := binary_normalize prec emax z 0 false.

Definition add : spec_float -> spec_float -> spec_float := SFadd prec emax.
Definition mul : spec_float -> spec_float -> spec_float := SFmul prec emax.
Definition div : spec_float -> spec_float -> spec_float := SFdiv prec emax.
Definition neg : spec_float -> spec_float := SFopp.
(** [x > y] *)
Definition gtb (x y : spec_float) : bool := SFltb y x.

(** The integer part of a finite value (the fraction is discarded). *)
Definition trunc (f : spec_float) : option Z :=
  match f with
  | S754_zero _ => Some 0
  | S754_finite s m e =>
      let a := match e with
               | Zneg k => Z.shiftr (Zpos m) (Zpos k)
               | _ => Z.shiftl (Zpos m) e
               end in
      Some (if s then - a else a)
  | S754_infinity _ | S754_nan => None
  end.

Definition min_int64 : Z := -9223372036854775808.
Definition max_int64 : Z := 9223372036854775807.

(** [int64(f)].  Go leaves the result of an out-of-range conversion to
    the implementation; on amd64 it is the "integer indefinite" value
    [-2^63], also for infinities and NaN. *)
Definition to_int64 (f : spec_float) : Z :=
  match trunc f with
  | Some z => if (min_int64 <=? z) && (z <=? max_int64) then z else min_int64
  | None => min_int64
  end.

(** [uint32(f)]: on amd64, converted as an [int64] and cut to 32 bits. *)
Definition to_uint32 (f : spec_float) : Z := uint32 (to_int64 f).

End float64.

(** ** Package time (Go standard library)

    An instant is its Unix time: whole seconds since 1970-01-01T00:00:00Z
    and nanoseconds within the second, [0 <= nsec < 10^9].  A [Duration] is
    an [int64] count of nanoseconds. *)

Module time.

Record Time : Type := mkTime { unixSec : Z; nsec : Z }.

Definition wf_Time (t : Time) : Prop := 0 <= nsec t < 1000000000.

Definition Nanosecond : Z := 1.
Definition Millisecond : Z := 1000000.
Definition Second : Z := 1000000000.
Definition Minute : Z := 60000000000.

Definition minDuration : Z := float64.min_int64.
Definition maxDuration : Z := float64.max_int64.

(** [time.Unix(sec, nsec)]: [nsec] outside [0, 10^9) is carried into the
    seconds; [/] in Go truncates toward zero. *)
Definition Unix (sec ns : Z) : Time :=
  if (ns <? 0) || (1000000000 <=? ns) then
    let n := Z.quot ns 1000000000 in
    let sec := sec + n in
    let ns := ns - n * 1000000000 in
    if ns <? 0 then mkTime (sec - 1) (ns + 1000000000) else mkTime sec ns
  else mkTime sec ns.

(** [t.Add(d)] *)
Definition Add (t : Time) (d : Z) : Time :=
  let dsec := Z.quot d 1000000000 in
  let ns := nsec t + Z.rem d 1000000000 in
  if 1000000000 <=? ns then mkTime (unixSec t + dsec + 1) (ns - 1000000000)
  else if ns <? 0 then mkTime (unixSec t + dsec - 1) (ns + 1000000000)
  else mkTime (unixSec t + dsec) ns.

(** [t.Sub(u)]: saturates at the ends of the [Duration] range. *)
Definition Sub (t u : Time) : Z :=
  let d := (unixSec t - unixSec u) * 1000000000 + (nsec t - nsec u) in
  if d <? minDuration then minDuration
  else if maxDuration <? d then maxDuration
  else d.

(** [d.Seconds()] *)
Definition Seconds (d : Z) : spec_float :=
  float64.add (float64.of_int (Z.quot d Second))
              (float64.div (float64.of_int (Z.rem d Second))
                           (float64.of_int 1000000000)).

(** [d.Milliseconds()] *)
Definition Milliseconds (d : Z) : Z := Z.quot d 1000000.

(** Days from 1970-01-01 to the civil date [y]-[m]-[d] of the proleptic
    Gregorian calendar, for a month in 1..12. *)
Definition daysSinceEpoch (y m d : Z) : Z :=
  let y' := if m <=? 2 then y - 1 else y in
  let era := y' / 400 in
  let yoe := y' - era * 400 in
  let mp := (m + 9) mod 12 in
  let doy := (153 * mp + 2) / 5 + d - 1 in
  let doe := yoe * 365 + yoe / 4 - yoe / 100 + doy in
  era * 146097 + doe - 719468.

(** [time.Date(year, month, day, hour, min, sec, nsec, time.UTC)] for
    in-range arguments (Go also normalises out-of-range ones; the source
    passes literal months, days and clock times). *)
Definition Date (year month day hour min sec ns : Z) : Time :=
  mkTime (daysSinceEpoch year month day * 86400 + hour * 3600 + min * 60 + sec) ns.

(** The zero value [time.Time{}]: 0001-01-01T00:00:00Z. *)
Definition zero : Time := mkTime (-62135596800) 0.

End time.

(** ** Package ntpcore: packets *)

Module ntpcore.

Definition NTPEpochOffset : Z := 2208988800.
Definition NTPPacketSize : Z := 48.
Definition NTPPacketMinSize : Z := 48.

Definition LeapNoWarning : Z := 0.
Definition LeapLastMinute61 : Z := 1.
Definition LeapLastMinute59 : Z := 2.
Definition LeapAlarm : Z := 3.

Definition ModeReserved : Z := 0.
Definition ModeSymmetricActive : Z := 1.
Definition ModeSymmetricPassive : Z := 2.
Definition ModeClient : Z := 3.
Definition ModeServer : Z := 4.
Definition ModeBroadcast : Z := 5.
Definition ModeControl : Z := 6.
Definition ModePrivate : Z := 7.

Definition VersionNTPv3 : Z := 3.
Definition VersionNTPv4 : Z := 4.

Record NTPPacket : Type := mkPacket {
  LeapIndicator : Z;  (* uint8, 2 bits *)
  Version : Z;        (* uint8, 3 bits *)
  Mode : Z;           (* uint8, 3 bits *)
  Stratum : Z;        (* uint8 *)
  Poll : Z;           (* int8 *)
  Precision : Z;      (* int8 *)
  RootDelay : Z;      (* uint32 *)
  RootDisp : Z;
  ReferenceID : Z;
  RefTimeSec : Z;
  RefTimeFrac : Z;
  OrigTimeSec : Z;
  OrigTimeFrac : Z;
  RecvTimeSec : Z;
  RecvTimeFrac : Z;
  XmitTimeSec : Z;
  XmitTimeFrac : Z
}.

(** The values a Go [NTPPacket] can hold: every field within its type. *)
Record wf_packet (p : NTPPacket) : Prop := {
  wf_LeapIndicator : is_uint8 (LeapIndicator p);
  wf_Version : is_uint8 (Version p);
  wf_Mode : is_uint8 (Mode p);
  wf_Stratum : is_uint8 (Stratum p);
  wf_Poll : is_int8 (Poll p);
  wf_Precision : is_int8 (Precision p);
  wf_RootDelay : is_uint32 (RootDelay p);
  wf_RootDisp : is_uint32 (RootDisp p);
  wf_ReferenceID : is_uint32 (ReferenceID p);
  wf_RefTimeSec : is_uint32 (RefTimeSec p);
  wf_RefTimeFrac : is_uint32 (RefTimeFrac p);
  wf_OrigTimeSec : is_uint32 (OrigTimeSec p);
  wf_OrigTimeFrac : is_uint32 (OrigTimeFrac p);
  wf_RecvTimeSec : is_uint32 (RecvTimeSec p);
  wf_RecvTimeFrac : is_uint32 (RecvTimeFrac p);
  wf_XmitTimeSec : is_uint32 (XmitTimeSec p);
  wf_XmitTimeFrac : is_uint32 (XmitTimeFrac p)
}.

(** [NewPacket]: the fields not listed take Go's zero value. *)
Definition NewPacket : NTPPacket :=
  {| LeapIndicator := LeapNoWarning; Version := VersionNTPv4;
     Mode := ModeServer; Stratum := 2; Poll := 6; Precision := -20;
     RootDelay := 0; RootDisp := 0; ReferenceID := 0;
     RefTimeSec := 0; RefTimeFrac := 0; OrigTimeSec := 0; OrigTimeFrac := 0;
     RecvTimeSec := 0; RecvTimeFrac := 0; XmitTimeSec := 0; XmitTimeFrac := 0 |}.

Definition ParsePacket (data : list Byte.byte) : result NTPPacket :=
  if Z.of_nat (List.length data) <? NTPPacketMinSize then Err "packet too short"
  else
    let firstByte := byteZ (nth 0 data Byte.x00) in
    Ok {| LeapIndicator := Z.land (Z.shiftr firstByte 6) 3;
          Version := Z.land (Z.shiftr firstByte 3) 7;
          Mode := Z.land firstByte 7;
          Stratum := byteZ (nth 1 data Byte.x00);
          Poll := int8 (byteZ (nth 2 data Byte.x00));
          Precision := int8 (byteZ (nth 3 data Byte.x00));
          RootDelay := BigEndian.Uint32 (slice data 4 8);
          RootDisp := BigEndian.Uint32 (slice data 8 12);
          ReferenceID := BigEndian.Uint32 (slice data 12 16);
          RefTimeSec := BigEndian.Uint32 (slice data 16 20);
          RefTimeFrac := BigEndian.Uint32 (slice data 20 24);
          OrigTimeSec := BigEndian.Uint32 (slice data 24 28);
          OrigTimeFrac := BigEndian.Uint32 (slice data 28 32);
          RecvTimeSec := BigEndian.Uint32 (slice data 32 36);
          RecvTimeFrac := BigEndian.Uint32 (slice data 36 40);
          XmitTimeSec := BigEndian.Uint32 (slice data 40 44);
          XmitTimeFrac := BigEndian.Uint32 (slice data 44 48) |}.

(** [Bytes]: the shifts of the first byte are [uint8] shifts, so bits
    pushed past bit 7 are lost. *)
Definition Bytes (p : NTPPacket) : list Byte.byte :=
  Zbyte (Z.lor (Z.lor (uint8 (Z.shiftl (LeapIndicator p) 6))
                      (uint8 (Z.shiftl (Version p) 3)))
               (Mode p))
  :: Zbyte (Stratum p)
  :: Zbyte (Poll p)
  :: Zbyte (Precision p)
  :: BigEndian.PutUint32 (RootDelay p)
  ++ BigEndian.PutUint32 (RootDisp p)
  ++ BigEndian.PutUint32 (ReferenceID p)
  ++ BigEndian.PutUint32 (RefTimeSec p)
  ++ BigEndian.PutUint32 (RefTimeFrac p)
  ++ BigEndian.PutUint32 (OrigTimeSec p)
  ++ BigEndian.PutUint32 (OrigTimeFrac p)
  ++ BigEndian.PutUint32 (RecvTimeSec p)
  ++ BigEndian.PutUint32 (RecvTimeFrac p)
  ++ BigEndian.PutUint32 (XmitTimeSec p)
  ++ BigEndian.PutUint32 (XmitTimeFrac p).

Definition SetOriginTime (p : NTPPacket) (sec frac : Z) : NTPPacket :=
  {| LeapIndicator := LeapIndicator p; Version := Version p; Mode := Mode p;
     Stratum := Stratum p; Poll := Poll p; Precision := Precision p;
     RootDelay := RootDelay p; RootDisp := RootDisp p;
     ReferenceID := ReferenceID p;
     RefTimeSec := RefTimeSec p; RefTimeFrac := RefTimeFrac p;
     OrigTimeSec := sec; OrigTimeFrac := frac;
     RecvTimeSec := RecvTimeSec p; RecvTimeFrac := RecvTimeFrac p;
     XmitTimeSec := XmitTimeSec p; XmitTimeFrac := XmitTimeFrac p |}.

Definition IsValidClientRequest (p : NTPPacket) : bool :=
  (Mode p =? ModeClient) && ((Version p =? VersionNTPv3) || (Version p =? VersionNTPv4)).

(** *** Field updates: [p.F = v] *)

Definition set_LeapIndicator (p : NTPPacket) (v : Z) : NTPPacket :=
  mkPacket v (Version p) (Mode p) (Stratum p) (Poll p) (Precision p)
    (RootDelay p) (RootDisp p) (ReferenceID p) (RefTimeSec p) (RefTimeFrac p)
    (OrigTimeSec p) (OrigTimeFrac p) (RecvTimeSec p) (RecvTimeFrac p)
    (XmitTimeSec p) (XmitTimeFrac p).

Definition set_Version (p : NTPPacket) (v : Z) : NTPPacket :=
  mkPacket (LeapIndicator p) v (Mode p) (Stratum p) (Poll p) (Precision p)
    (RootDelay p) (RootDisp p) (ReferenceID p) (RefTimeSec p) (RefTimeFrac p)
    (OrigTimeSec p) (OrigTimeFrac p) (RecvTimeSec p) (RecvTimeFrac p)
    (XmitTimeSec p) (XmitTimeFrac p).

Definition set_Mode (p : NTPPacket) (v : Z) : NTPPacket :=
  mkPacket (LeapIndicator p) (Version p) v (Stratum p) (Poll p) (Precision p)
    (RootDelay p) (RootDisp p) (ReferenceID p) (RefTimeSec p) (RefTimeFrac p)
    (OrigTimeSec p) (OrigTimeFrac p) (RecvTimeSec p) (RecvTimeFrac p)
    (XmitTimeSec p) (XmitTimeFrac p).

Definition set_Stratum (p : NTPPacket) (v : Z) : NTPPacket :=
  mkPacket (LeapIndicator p) (Version p) (Mode p) v (Poll p) (Precision p)
    (RootDelay p) (RootDisp p) (ReferenceID p) (RefTimeSec p) (RefTimeFrac p)
    (OrigTimeSec p) (OrigTimeFrac p) (RecvTimeSec p) (RecvTimeFrac p)
    (XmitTimeSec p) (XmitTimeFrac p).

Definition set_Poll (p : NTPPacket) (v : Z) : NTPPacket :=
  mkPacket (LeapIndicator p) (Version p) (Mode p) (Stratum p) v (Precision p)
    (RootDelay p) (RootDisp p) (ReferenceID p) (RefTimeSec p) (RefTimeFrac p)
    (OrigTimeSec p) (OrigTimeFrac p) (RecvTimeSec p) (RecvTimeFrac p)
    (XmitTimeSec p) (XmitTimeFrac p).

Definition set_Precision (p : NTPPacket) (v : Z) : NTPPacket :=
  mkPacket (LeapIndicator p) (Version p) (Mode p) (Stratum p) (Poll p) v
    (RootDelay p) (RootDisp p) (ReferenceID p) (RefTimeSec p) (RefTimeFrac p)
    (OrigTimeSec p) (OrigTimeFrac p) (RecvTimeSec p) (RecvTimeFrac p)
    (XmitTimeSec p) (XmitTimeFrac p).

Definition set_RootDelay (p : NTPPacket) (v : Z) : NTPPacket :=
  mkPacket (LeapIndicator p) (Version p) (Mode p) (Stratum p) (Poll p) (Precision p)
    v (RootDisp p) (ReferenceID p) (RefTimeSec p) (RefTimeFrac p)
    (OrigTimeSec p) (OrigTimeFrac p) (RecvTimeSec p) (RecvTimeFrac p)
    (XmitTimeSec p) (XmitTimeFrac p).

Definition set_RootDisp (p : NTPPacket) (v : Z) : NTPPacket :=
  mkPacket (LeapIndicator p) (Version p) (Mode p) (Stratum p) (Poll p) (Precision p)
    (RootDelay p) v (ReferenceID p) (RefTimeSec p) (RefTimeFrac p)
    (OrigTimeSec p) (OrigTimeFrac p) (RecvTimeSec p) (RecvTimeFrac p)
    (XmitTimeSec p) (XmitTimeFrac p).

Definition set_ReferenceID (p : NTPPacket) (v : Z) : NTPPacket :=
  mkPacket (LeapIndicator p) (Version p) (Mode p) (Stratum p) (Poll p) (Precision p)
    (RootDelay p) (RootDisp p) v (RefTimeSec p) (RefTimeFrac p)
    (OrigTimeSec p) (OrigTimeFrac p) (RecvTimeSec p) (RecvTimeFrac p)
    (XmitTimeSec p) (XmitTimeFrac p).

Definition set_OrigTimeSec (p : NTPPacket) (v : Z) : NTPPacket :=
  mkPacket (LeapIndicator p) (Version p) (Mode p) (Stratum p) (Poll p) (Precision p)
    (RootDelay p) (RootDisp p) (ReferenceID p) (RefTimeSec p) (RefTimeFrac p)
    v (OrigTimeFrac p) (RecvTimeSec p) (RecvTimeFrac p)
    (XmitTimeSec p) (XmitTimeFrac p).

(** *** NTP timestamps *)

Record NTPTimestamp : Type := mkTimestamp { Seconds : Z; Fraction : Z }.

(** [TimeToNTPTimestamp]: [secs] is an [int64] cut to [uint32]; the
    fraction is computed in [float64] and converted to [uint32]. *)
Definition TimeToNTPTimestamp (t : time.Time) : NTPTimestamp :=
  let secs := int64 (time.unixSec t + NTPEpochOffset) in
  let nanos := time.nsec t in
  let frac :=
    float64.to_uint32
      (float64.mul
         (float64.div (float64.of_int nanos) (float64.of_int 1000000000))
         (float64.of_int 4294967296)) in
  {| Seconds := uint32 secs; Fraction := frac |}.

Definition NTPTimestampToTime (ts : NTPTimestamp) : time.Time :=
  let secs := int64 (Seconds ts - NTPEpochOffset) in
  let nanos :=
    float64.to_int64
      (float64.mul
         (float64.div (float64.of_int (Fraction ts)) (float64.of_int 4294967296))
         (float64.of_int 1000000000)) in
  time.Unix secs nanos.

Definition SetReferenceTime (p : NTPPacket) (t : time.Time) : NTPPacket :=
  let ts := TimeToNTPTimestamp t in
  mkPacket (LeapIndicator p) (Version p) (Mode p) (Stratum p) (Poll p) (Precision p)
    (RootDelay p) (RootDisp p) (ReferenceID p) (Seconds ts) (Fraction ts)
    (OrigTimeSec p) (OrigTimeFrac p) (RecvTimeSec p) (RecvTimeFrac p)
    (XmitTimeSec p) (XmitTimeFrac p).

Definition SetReceiveTime (p : NTPPacket) (t : time.Time) : NTPPacket :=
  let ts := TimeToNTPTimestamp t in
  mkPacket (LeapIndicator p) (Version p) (Mode p) (Stratum p) (Poll p) (Precision p)
    (RootDelay p) (RootDisp p) (ReferenceID p) (RefTimeSec p) (RefTimeFrac p)
    (OrigTimeSec p) (OrigTimeFrac p) (Seconds ts) (Fraction ts)
    (XmitTimeSec p) (XmitTimeFrac p).

Definition SetTransmitTime (p : NTPPacket) (t : time.Time) : NTPPacket :=
  let ts := TimeToNTPTimestamp t in
  mkPacket (LeapIndicator p) (Version p) (Mode p) (Stratum p) (Poll p) (Precision p)
    (RootDelay p) (RootDisp p) (ReferenceID p) (RefTimeSec p) (RefTimeFrac p)
    (OrigTimeSec p) (OrigTimeFrac p) (RecvTimeSec p) (RecvTimeFrac p)
    (Seconds ts) (Fraction ts).

Definition GetTransmitTime (p : NTPPacket) : time.Time :=
  NTPTimestampToTime {| Seconds := XmitTimeSec p; Fraction := XmitTimeFrac p |}.

(** *** Kiss-of-Death codes *)

(** [SetKissOfDeathCode]: the packet after the call and the error. *)
Definition SetKissOfDeathCode (p : NTPPacket) (code : string) : NTPPacket * error :=
  if negb (Z.of_nat (String.length code) =? 4)
  then (p, Some "kiss code must be exactly 4 characters")
  else
    let p := set_Stratum p 0 in
    let p := set_ReferenceID p (BigEndian.Uint32 (list_byte_of_string code)) in
    (p, None).

Definition GetKissOfDeathCode (p : NTPPacket) : string :=
  if negb (Stratum p =? 0) then ""
  else string_of_list_byte (BigEndian.PutUint32 (ReferenceID p)).

Definition GetModeString (p : NTPPacket) : string :=
  let m := Mode p in
  if m =? ModeReserved then "Reserved"
  else if m =? ModeSymmetricActive then "Symmetric Active"
  else if m =? ModeSymmetricPassive then "Symmetric Passive"
  else if m =? ModeClient then "Client"
  else if m =? ModeServer then "Server"
  else if m =? ModeBroadcast then "Broadcast"
  else if m =? ModeControl then "Control"
  else if m =? ModePrivate then "Private"
  else "Unknown".

(** [CalculateRootDelay]: milliseconds to the NTP short format. *)
Definition CalculateRootDelay (ms : spec_float) : Z :=
  let secs := float64.div ms (float64.of_int 1000) in
  float64.to_uint32 (float64.mul secs (float64.of_int 65536)).

Definition CalculateRootDispersion (ms : spec_float) : Z := CalculateRootDelay ms.

End ntpcore.

(** ** Package config: the security section *)

Module config.

Module TimeSpoofingConfig.
Record t : Type := mk {
  Enabled : bool;
  OffsetSecs : Z;        (* int64 *)
  CustomTime : string
}.
End TimeSpoofingConfig.

Module TimeDriftConfig.
Record t : Type := mk {
  Enabled : bool;
  DriftPerSec : spec_float;
  MaxDrift : spec_float;
  Direction : string
}.
End TimeDriftConfig.

Module KissOfDeathConfig.
Record t : Type := mk {
  Enabled : bool;
  Code : string;
  Interval : Z           (* int *)
}.
End KissOfDeathConfig.

Module StratumAttackConfig.
Record t : Type := mk {
  Enabled : bool;
  FakeStratum : Z        (* int; documented range 0-15 *)
}.
End StratumAttackConfig.

Module LeapSecondConfig.
Record t : Type := mk {
  Enabled : bool;
  LeapIndicator : Z      (* int *)
}.
End LeapSecondConfig.

Module RolloverConfig.
Record t : Type := mk {
  Enabled : bool;
  TargetYear : Z;        (* int *)
  Mode : string
}.
End RolloverConfig.

Module ClockStepConfig.
Record t : Type := mk {
  Enabled : bool;
  StepSecs : Z;          (* int64 *)
  Interval : Z           (* int *)
}.
End ClockStepConfig.

(** Modelled from the spec: the per-attack settings of the fuzzing attack
    ([Security.Fuzzing]), whose declaration is not among the sources; the
    attack engine reads its fields [Enabled] and [Mode]. *)
Module FuzzingConfig.
Record t : Type := mk {
  Enabled : bool;
  Mode : string
}.
End FuzzingConfig.

Record SecurityConfig : Type := mkSecurity {
  Enabled : bool;
  ActiveAttack : string;
  TimeSpoofing : TimeSpoofingConfig.t;
  TimeDrift : TimeDriftConfig.t;
  KissOfDeath : KissOfDeathConfig.t;
  StratumAttack : StratumAttackConfig.t;
  LeapSecond : LeapSecondConfig.t;
  Rollover : RolloverConfig.t;
  ClockStep : ClockStepConfig.t;
  Fuzzing : FuzzingConfig.t
}.

(** The part of [Config] that the engines read. *)
Record Config : Type := mkConfig { Security : SecurityConfig }.

(** *** Updates of the security section: [c.Security.F = v] *)

Definition set_Enabled (s : SecurityConfig) (v : bool) : SecurityConfig :=
  mkSecurity v (ActiveAttack s) (TimeSpoofing s) (TimeDrift s) (KissOfDeath s)
    (StratumAttack s) (LeapSecond s) (Rollover s) (ClockStep s) (Fuzzing s).

Definition set_ActiveAttack (s : SecurityConfig) (v : string) : SecurityConfig :=
  mkSecurity (Enabled s) v (TimeSpoofing s) (TimeDrift s) (KissOfDeath s)
    (StratumAttack s) (LeapSecond s) (Rollover s) (ClockStep s) (Fuzzing s).

Definition set_TimeSpoofing (s : SecurityConfig) (v : TimeSpoofingConfig.t) : SecurityConfig :=
  mkSecurity (Enabled s) (ActiveAttack s) v (TimeDrift s) (KissOfDeath s)
    (StratumAttack s) (LeapSecond s) (Rollover s) (ClockStep s) (Fuzzing s).

Definition set_TimeDrift (s : SecurityConfig) (v : TimeDriftConfig.t) : SecurityConfig :=
  mkSecurity (Enabled s) (ActiveAttack s) (TimeSpoofing s) v (KissOfDeath s)
    (StratumAttack s) (LeapSecond s) (Rollover s) (ClockStep s) (Fuzzing s).

Definition set_KissOfDeath (s : SecurityConfig) (v : KissOfDeathConfig.t) : SecurityConfig :=
  mkSecurity (Enabled s) (ActiveAttack s) (TimeSpoofing s) (TimeDrift s) v
    (StratumAttack s) (LeapSecond s) (Rollover s) (ClockStep s) (Fuzzing s).

Definition set_StratumAttack (s : SecurityConfig) (v : StratumAttackConfig.t) : SecurityConfig :=
  mkSecurity (Enabled s) (ActiveAttack s) (TimeSpoofing s) (TimeDrift s) (KissOfDeath s)
    v (LeapSecond s) (Rollover s) (ClockStep s) (Fuzzing s).

Definition set_LeapSecond (s : SecurityConfig) (v : LeapSecondConfig.t) : SecurityConfig :=
  mkSecurity (Enabled s) (ActiveAttack s) (TimeSpoofing s) (TimeDrift s) (KissOfDeath s)
    (StratumAttack s) v (Rollover s) (ClockStep s) (Fuzzing s).

Definition set_Rollover (s : SecurityConfig) (v : RolloverConfig.t) : SecurityConfig :=
  mkSecurity (Enabled s) (ActiveAttack s) (TimeSpoofing s) (TimeDrift s) (KissOfDeath s)
    (StratumAttack s) (LeapSecond s) v (ClockStep s) (Fuzzing s).

Definition set_ClockStep (s : SecurityConfig) (v : ClockStepConfig.t) : SecurityConfig :=
  mkSecurity (Enabled s) (ActiveAttack s) (TimeSpoofing s) (TimeDrift s) (KissOfDeath s)
    (StratumAttack s) (LeapSecond s) (Rollover s) v (Fuzzing s).

Definition set_Fuzzing (s : SecurityConfig) (v : FuzzingConfig.t) : SecurityConfig :=
  mkSecurity (Enabled s) (ActiveAttack s) (TimeSpoofing s) (TimeDrift s) (KissOfDeath s)
    (StratumAttack s) (LeapSecond s) (Rollover s) (ClockStep s) v.

(** *** Attack presets *)

(** A value of a preset's [map[string]interface{}], as decoded from YAML;
    a type assertion [v.(T)] succeeds on the constructor of [T] only. *)
Inductive Value : Type :=
| VInt (z : Z)
| VFloat (f : spec_float)
| VString (s : string)
| VBool (b : bool)
| VNil.

Record AttackPreset : Type := mkPreset {
  Name : string;
  Description : string;
  Attack : string;
  PresetConfig : gmap string Value     (* the field [Config] *)
}.

(** *** Upstream servers *)

Record UpstreamServer : Type := mkUpstreamServer {
  Address : string;
  Port : Z;
  Priority : Z;
  ServerEnabled : bool                 (* the field [Enabled] *)
}.

(** [GetActiveUpstreams], on the list [c.Upstream.Servers]. *)
Fixpoint GetActiveUpstreams (servers : list UpstreamServer) : list UpstreamServer :=
  match servers with
  | [] => []
  | s :: rest =>
      if ServerEnabled s then
        (if Port s =? 0 then mkUpstreamServer (Address s) 123 (Priority s) (ServerEnabled s)
         else s) :: GetActiveUpstreams rest
      else GetActiveUpstreams rest
  end.

End config.

(** ** Package ntp: the upstream tracker's snapshot and its readers *)

Module ntp.

Record SyncStatus : Type := mkSyncStatus {
  Synchronized : bool;
  ActiveServer : string;
  Stratum : Z;             (* int *)
  Offset : Z;              (* time.Duration *)
  RTT : Z;                 (* time.Duration *)
  LastSync : time.Time;
  LastError : string
}.

Record UpstreamClient : Type := mkUpstream {
  clockOffset : Z;
  lastSync : time.Time;
  syncStatus : SyncStatus
}.

Definition NewUpstreamClient : UpstreamClient :=
  {| clockOffset := 0; lastSync := time.zero;
     syncStatus := {| Synchronized := false; ActiveServer := ""; Stratum := 0;
                      Offset := 0; RTT := 0; LastSync := time.zero;
                      LastError := "" |} |}.

(** A [net.IP]: an IPv4 address (for which [To4] succeeds) or not. *)
Inductive IP : Type :=
| IPv4 (a b c d : Byte.byte)
| IPv6.

(** [GetCurrentTime]; [now] is the clock reading of the call. *)
Definition GetCurrentTime (c : UpstreamClient) (now : time.Time) : time.Time :=
  if negb (Synchronized (syncStatus c)) then now
  else
    let elapsed := time.Sub now (lastSync c) in
    time.Add (time.Add (lastSync c) elapsed) (clockOffset c).

Definition GetSyncStatus (c : UpstreamClient) : SyncStatus := syncStatus c.

(** [GetStratum]: the stratum to report (upstream stratum + 1). *)
Definition GetStratum (c : UpstreamClient) : Z :=
  if negb (Synchronized (syncStatus c)) then 16
  else
    let stratum := int64 (Stratum (syncStatus c) + 1) in
    let stratum := if stratum >? 15 then 15 else stratum in
    uint8 stratum.

Fixpoint firstIPv4 (ips : list IP) : Z :=
  match ips with
  | [] => 0
  | IPv4 a b c d :: _ =>
      Z.lor (Z.lor (Z.lor (Z.shiftl (byteZ a) 24) (Z.shiftl (byteZ b) 16))
                   (Z.shiftl (byteZ c) 8))
            (byteZ d)
  | IPv6 :: rest => firstIPv4 rest
  end.

(** [GetReferenceID]; [lookupIP] is the resolver ([None] for an error). *)
Definition GetReferenceID (c : UpstreamClient)
    (lookupIP : string -> option (list IP)) : Z :=
  if negb (Synchronized (syncStatus c)) || String.eqb (ActiveServer (syncStatus c)) ""
  then 0
  else
    match lookupIP (ActiveServer (syncStatus c)) with
    | None => 0
    | Some ips => firstIPv4 ips
    end.

(** *** The synchronisation cycle *)

(** A response of the NTP client library: the fields the tracker reads,
    and the result of its [Validate] method ([None] for a valid one). *)
Module Response.
Record t : Type := mk {
  ClockOffset : Z;         (* time.Duration *)
  RTT : Z;                 (* time.Duration *)
  Stratum : Z;             (* uint8 *)
  Validate : error
}.
End Response.

(** The outcome of one [ntp.QueryWithOptions] call. *)
Inductive Attempt : Type :=
| QueryError (err : string)
| Answer (r : Response.t).

(** The loop of [queryServer], from attempt [i] with [fuel] attempts
    left; [attempts] gives the outcome of each call in turn. *)
Fixpoint queryLoop (attempts : nat -> Attempt) (fuel i : nat) (lastErr : error)
    : option Response.t * error :=
  match fuel with
  | O => (None, lastErr)
  | S fuel' =>
      match attempts i with
      | QueryError err => queryLoop attempts fuel' (S i) (Some err)
      | Answer r =>
          match Response.Validate r with
          | Some err => queryLoop attempts fuel' (S i) (Some err)
          | None => (Some r, None)
          end
      end
  end.

(** [queryServer]: the response (Go's [nil] is [None]) and the error. *)
Definition queryServer (retries : Z) (attempts : nat -> Attempt)
    : option Response.t * error :=
  queryLoop attempts (Z.to_nat retries) 0 None.

Definition markFailed (c : UpstreamClient) (msg : string) : UpstreamClient :=
  let st := syncStatus c in
  mkUpstream (clockOffset c) (lastSync c)
    (mkSyncStatus false (ActiveServer st) (Stratum st) (Offset st) (RTT st)
                  (LastSync st) msg).

(** The loop of [syncNow] over the active servers, the first of which has
    index [idx]; [net idx] gives the outcomes of the queries to server
    [idx].  A query that returns neither a response nor an error (zero
    retries) makes the source read a field of a nil response: the panic is
    [None]. *)
Fixpoint syncLoop (c : UpstreamClient) (retries : Z) (net : nat -> nat -> Attempt)
    (now_sync now_status : time.Time) (servers : list config.UpstreamServer) (idx : nat)
    : option UpstreamClient :=
  match servers with
  | [] => Some (markFailed c "All upstream servers failed")
  | server :: rest =>
      match queryServer retries (net idx) with
      | (_, Some _) => syncLoop c retries net now_sync now_status rest (S idx)
      | (Some response, None) =>
          Some (mkUpstream (Response.ClockOffset response) now_sync
                  (mkSyncStatus true (config.Address server)
                     (Response.Stratum response) (Response.ClockOffset response)
                     (Response.RTT response) now_status ""))
      | (None, None) => None
      end
  end.

(** [syncNow], on the configured servers and retry count. *)
Definition syncNow (c : UpstreamClient) (configured : list config.UpstreamServer)
    (retries : Z) (net : nat -> nat -> Attempt) (now_sync now_status : time.Time)
    : option UpstreamClient :=
  match config.GetActiveUpstreams configured with
  | [] => Some (markFailed c "No upstream servers configured")
  | servers => syncLoop c retries net now_sync now_status servers 0
  end.

End ntp.

(** ** Package attacks: the attack engine *)

Module attacks.

Import ntpcore.

Definition AttackNone : string := "".
Definition AttackTimeSpoofing : string := "time_spoofing".
Definition AttackTimeDrift : string := "time_drift".
Definition AttackKissOfDeath : string := "kiss_of_death".
Definition AttackStratumLie : string := "stratum_attack".
Definition AttackLeapSecond : string := "leap_second".
Definition AttackRollover : string := "rollover".
Definition AttackClockStep : string := "clock_step".
Definition AttackFuzzing : string := "fuzzing".

Record DriftState : Type := mkDrift {
  StartTime : time.Time;
  CurrentDrift : Z;        (* time.Duration *)
  LastUpdate : time.Time
}.

Record AttackEngine : Type := mkEngine {
  cfg : config.Config;
  driftState : DriftState;
  requestCount : gmap string Z   (* map[string]int *)
}.

(** What one call of the engine takes from outside the program: the
    result of [time.Parse(time.RFC3339, _)] ([None] for an error), the
    clock readings of [applyTimeDrift] and the successive raw draws of
    the package-level random generator. *)
Record Env : Type := mkEnv {
  parseRFC3339 : string -> option time.Time;
  now_since : time.Time;
  now_update : time.Time;
  draws : list Z
}.

(** [rand.Intn(n)]: a value in [0, n); the remaining draws. *)
Definition Intn (n : Z) (ds : list Z) : Z * list Z :=
  match ds with
  | [] => (0, [])
  | r :: rest => (r mod n, rest)
  end.

Definition NewAttackEngine (c : config.Config) (now : time.Time) : AttackEngine :=
  {| cfg := c; driftState := mkDrift now 0 time.zero; requestCount := ∅ |}.

Definition IsEnabled (e : AttackEngine) : bool :=
  config.Enabled (config.Security (cfg e)).

Definition GetActiveAttack (e : AttackEngine) : string :=
  config.ActiveAttack (config.Security (cfg e)).

(** The three timestamp writes shared by the time attacks. *)
Definition setTimes (packet : NTPPacket) (fakeTime : time.Time) : NTPPacket :=
  let packet := SetReceiveTime packet fakeTime in
  let packet := SetTransmitTime packet fakeTime in
  SetReferenceTime packet (time.Add fakeTime (- time.Second)).

Definition applyTimeSpoofing (env : Env) (e : AttackEngine) (packet : NTPPacket)
    (realTime : time.Time) : NTPPacket * string :=
  let c := config.TimeSpoofing (config.Security (cfg e)) in
  if negb (config.TimeSpoofingConfig.Enabled c) then (packet, "")
  else
    let byOffset :=
      time.Add realTime (int64 (config.TimeSpoofingConfig.OffsetSecs c * time.Second)) in
    let fakeTime :=
      if negb (String.eqb (config.TimeSpoofingConfig.CustomTime c) "") then
        match parseRFC3339 env (config.TimeSpoofingConfig.CustomTime c) with
        | Some parsed => parsed
        | None => byOffset
        end
      else byOffset in
    (setTimes packet fakeTime, "Time Spoofing").

Definition applyTimeDrift (env : Env) (e : AttackEngine) (packet : NTPPacket)
    (realTime : time.Time) : AttackEngine * NTPPacket * string :=
  let c := config.TimeDrift (config.Security (cfg e)) in
  if negb (config.TimeDriftConfig.Enabled c) then (e, packet, "")
  else
    let elapsed := time.Seconds (time.Sub (now_since env) (StartTime (driftState e))) in
    let driftAmount := float64.mul elapsed (config.TimeDriftConfig.DriftPerSec c) in
    let driftAmount :=
      if float64.gtb driftAmount (config.TimeDriftConfig.MaxDrift c)
      then config.TimeDriftConfig.MaxDrift c else driftAmount in
    let driftDuration :=
      float64.to_int64 (float64.mul driftAmount (float64.of_int time.Second)) in
    let driftDuration :=
      if String.eqb (config.TimeDriftConfig.Direction c) "backward"
      then int64 (- driftDuration) else driftDuration in
    let e := {| cfg := cfg e;
                driftState := mkDrift (StartTime (driftState e)) driftDuration (now_update env);
                requestCount := requestCount e |} in
    let fakeTime := time.Add realTime driftDuration in
    (e, setTimes packet fakeTime, "Time Drift").

Definition applyKissOfDeath (e : AttackEngine) (packet : NTPPacket)
    (clientAddr : string) (count : Z) : NTPPacket * string :=
  let c := config.KissOfDeath (config.Security (cfg e)) in
  if negb (config.KissOfDeathConfig.Enabled c) then (packet, "")
  else if (config.KissOfDeathConfig.Interval c >? 0)
          && negb (Z.rem count (config.KissOfDeathConfig.Interval c) =? 0)
  then (packet, "")
  else
    let packet := set_Stratum packet 0 in
    let packet := set_LeapIndicator packet LeapAlarm in
    let packet :=
      match SetKissOfDeathCode packet (config.KissOfDeathConfig.Code c) with
      | (packet, Some _) => fst (SetKissOfDeathCode packet "DENY")
      | (packet, None) => packet
      end in
    (packet, "Kiss-of-Death (" ++ config.KissOfDeathConfig.Code c ++ ")")%string.

Definition applyStratumLie (e : AttackEngine) (packet : NTPPacket) : NTPPacket * string :=
  let c := config.StratumAttack (config.Security (cfg e)) in
  if negb (config.StratumAttackConfig.Enabled c) then (packet, "")
  else
    let packet := set_Stratum packet (uint8 (config.StratumAttackConfig.FakeStratum c)) in
    let packet :=
      if config.StratumAttackConfig.FakeStratum c =? 1
      then set_ReferenceID packet
             (BigEndian.Uint32 [Byte.x47; Byte.x50; Byte.x53; Byte.x00])
      else packet in
    (packet,
     "Stratum Lie (" ++ itoa (config.StratumAttackConfig.FakeStratum c) ++ ")")%string.

(** The map literal [leapDesc]; a missing key reads as the empty string. *)
Definition leapDesc (k : Z) : string :=
  if k =? 1 then "+1 second"
  else if k =? 2 then "-1 second"
  else if k =? 3 then "alarm/unsynchronized"
  else "".

Definition applyLeapSecond (e : AttackEngine) (packet : NTPPacket) : NTPPacket * string :=
  let c := config.LeapSecond (config.Security (cfg e)) in
  if negb (config.LeapSecondConfig.Enabled c) then (packet, "")
  else
    let packet := set_LeapIndicator packet (uint8 (config.LeapSecondConfig.LeapIndicator c)) in
    (packet,
     "Leap Second (" ++ leapDesc (config.LeapSecondConfig.LeapIndicator c) ++ ")")%string.

Definition applyRollover (e : AttackEngine) (packet : NTPPacket) : NTPPacket * string :=
  let c := config.Rollover (config.Security (cfg e)) in
  if negb (config.RolloverConfig.Enabled c) then (packet, "")
  else
    let '(rolloverTime, description) :=
      if String.eqb (config.RolloverConfig.Mode c) "y2k38" then
        (time.Date 2038 1 19 3 14 7 0, "Y2K38 (Unix 32-bit overflow)")
      else if String.eqb (config.RolloverConfig.Mode c) "ntp_era" then
        (time.Date 2036 2 7 6 28 16 0, "NTP Era 1 rollover")
      else if String.eqb (config.RolloverConfig.Mode c) "custom" then
        (time.Date (config.RolloverConfig.TargetYear c) 1 1 0 0 0 0,
         ("Custom year " ++ itoa (config.RolloverConfig.TargetYear c))%string)
      else
        (time.Date 2038 1 19 3 14 7 0, "Y2K38") in
    (setTimes packet rolloverTime, ("Rollover (" ++ description ++ ")")%string).

Definition applyClockStep (e : AttackEngine) (packet : NTPPacket)
    (realTime : time.Time) (count : Z) : NTPPacket * string :=
  let c := config.ClockStep (config.Security (cfg e)) in
  if negb (config.ClockStepConfig.Enabled c) then (packet, "")
  else if (config.ClockStepConfig.Interval c >? 0)
          && negb (Z.rem count (config.ClockStepConfig.Interval c) =? 0)
  then (packet, "")
  else
    let stepDuration := int64 (config.ClockStepConfig.StepSecs c * time.Second) in
    let steppedTime := time.Add realTime stepDuration in
    (setTimes packet steppedTime,
     "Clock Step (+" ++ itoa (config.ClockStepConfig.StepSecs c) ++ "s)")%string.

Definition applyFuzzing (env : Env) (e : AttackEngine) (packet : NTPPacket)
    : NTPPacket * string :=
  if negb (config.FuzzingConfig.Enabled (config.Fuzzing (config.Security (cfg e))))
  then (packet, "")
  else
    let '(mutationType, ds) := Intn 10 (draws env) in
    if mutationType =? 0 then
      let '(v, ds) := Intn 8 ds in
      let v := uint8 v in
      let v := if (v =? 3) || (v =? 4) then uint8 (fst (Intn 8 ds)) else v in
      (set_Version packet v, ("Fuzz: Version " ++ itoa v)%string)
    else if mutationType =? 1 then
      let m := uint8 (fst (Intn 8 ds)) in
      let m := if m =? 4 then 0 else m in
      (set_Mode packet m, ("Fuzz: Mode " ++ itoa m)%string)
    else if mutationType =? 2 then
      let s := uint8 (fst (Intn 20 ds)) in
      let s := if s =? 0 then 16 else if s >? 16 then 0 else s in
      (set_Stratum packet s, ("Fuzz: Stratum " ++ itoa s)%string)
    else if mutationType =? 3 then
      (set_LeapIndicator packet 3, "Fuzz: LI Alarm")
    else if mutationType =? 4 then
      let packet := SetReceiveTime packet time.zero in
      let packet := SetTransmitTime packet time.zero in
      let packet := SetReferenceTime packet time.zero in
      (packet, "Fuzz: Zero Timestamps")
    else if mutationType =? 5 then
      (mkPacket (LeapIndicator packet) (Version packet) (Mode packet)
         (Stratum packet) (Poll packet) (Precision packet) (RootDelay packet)
         (RootDisp packet) (ReferenceID packet) (RefTimeSec packet)
         (RefTimeFrac packet) (OrigTimeSec packet) (OrigTimeFrac packet)
         4294967295 4294967295 4294967295 4294967295,
       "Fuzz: Max Timestamps")
    else if mutationType =? 6 then
      (set_RootDisp (set_RootDelay packet 4294901760) 4294901760,
       "Fuzz: Large Root Delay")
    else if mutationType =? 7 then
      (set_ReferenceID packet 1094795585, "Fuzz: RefID AAAA")
    else if mutationType =? 8 then
      (set_OrigTimeSec packet (uint32 (OrigTimeSec packet + 1)),
       "Fuzz: Origin Mismatch")
    else if mutationType =? 9 then
      (set_Precision (set_Poll packet (-100)) 100, "Fuzz: Invalid Poll/Prec")
    else (packet, "Generic Fuzzing").

(** [ProcessPacket]: the engine after the call, the packet and the name
    of the attack applied (empty for none). *)
Definition ProcessPacket (env : Env) (e : AttackEngine) (packet : NTPPacket)
    (clientAddr : string) (realTime : time.Time)
    : AttackEngine * NTPPacket * string :=
  if negb (config.Enabled (config.Security (cfg e))) then (e, packet, "")
  else
    let count := int64 (default 0 (requestCount e !! clientAddr) + 1) in
    let e := {| cfg := cfg e; driftState := driftState e;
                requestCount := <[clientAddr := count]> (requestCount e) |} in
    let attack := config.ActiveAttack (config.Security (cfg e)) in
    if String.eqb attack AttackTimeSpoofing then
      let '(p, name) := applyTimeSpoofing env e packet realTime in (e, p, name)
    else if String.eqb attack AttackTimeDrift then
      applyTimeDrift env e packet realTime
    else if String.eqb attack AttackKissOfDeath then
      let '(p, name) := applyKissOfDeath e packet clientAddr count in (e, p, name)
    else if String.eqb attack AttackStratumLie then
      let '(p, name) := applyStratumLie e packet in (e, p, name)
    else if String.eqb attack AttackLeapSecond then
      let '(p, name) := applyLeapSecond e packet in (e, p, name)
    else if String.eqb attack AttackRollover then
      let '(p, name) := applyRollover e packet in (e, p, name)
    else if String.eqb attack AttackClockStep then
      let '(p, name) := applyClockStep e packet realTime count in (e, p, name)
    else if String.eqb attack AttackFuzzing then
      let '(p, name) := applyFuzzing env e packet in (e, p, name)
    else (e, packet, "").

Definition ResetDriftState (e : AttackEngine) (now : time.Time) : AttackEngine :=
  {| cfg := cfg e; driftState := mkDrift now 0 time.zero;
     requestCount := requestCount e |}.

Definition ResetRequestCounts (e : AttackEngine) : AttackEngine :=
  {| cfg := cfg e; driftState := driftState e; requestCount := ∅ |}.

(** [GetDriftStatus]; [now] is the clock reading of the call. *)
Definition GetDriftStatus (e : AttackEngine) (now : time.Time) : Z * Z :=
  (CurrentDrift (driftState e), time.Sub now (StartTime (driftState e))).

Definition with_security (e : AttackEngine) (sec : config.SecurityConfig) : AttackEngine :=
  {| cfg := config.mkConfig sec; driftState := driftState e;
     requestCount := requestCount e |}.

(** [ApplyPreset]; [now] is the clock reading of the drift reset. *)
Definition ApplyPreset (e : AttackEngine) (preset : config.AttackPreset)
    (now : time.Time) : AttackEngine * error :=
  let sec := config.Security (cfg e) in
  let sec := config.set_Enabled sec true in
  let sec := config.set_ActiveAttack sec (config.Attack preset) in
  let conf := config.PresetConfig preset in
  let attack := config.Attack preset in
  if String.eqb attack "time_spoofing" then
    let c := config.TimeSpoofing sec in
    let c := match conf !! "offset_secs" with
             | Some (config.VInt offset) =>
                 config.TimeSpoofingConfig.mk true offset
                   (config.TimeSpoofingConfig.CustomTime c)
             | _ => c
             end in
    let c := match conf !! "offset_secs" with
             | Some (config.VFloat offset) =>
                 config.TimeSpoofingConfig.mk true (float64.to_int64 offset)
                   (config.TimeSpoofingConfig.CustomTime c)
             | _ => c
             end in
    (with_security e (config.set_TimeSpoofing sec c), None)
  else if String.eqb attack "time_drift" then
    let c := config.TimeDrift sec in
    let drift := match conf !! "drift_per_sec" with
                 | Some (config.VFloat d) => d
                 | _ => config.TimeDriftConfig.DriftPerSec c
                 end in
    let maxd := match conf !! "max_drift" with
                | Some (config.VFloat m) => m
                | _ => config.TimeDriftConfig.MaxDrift c
                end in
    let maxd := match conf !! "max_drift" with
                | Some (config.VInt m) => float64.of_int m
                | _ => maxd
                end in
    let dir := match conf !! "direction" with
               | Some (config.VString d) => d
               | _ => config.TimeDriftConfig.Direction c
               end in
    ({| cfg := config.mkConfig
                 (config.set_TimeDrift sec (config.TimeDriftConfig.mk true drift maxd dir));
        driftState := mkDrift now 0 time.zero;
        requestCount := requestCount e |}, None)
  else if String.eqb attack "kiss_of_death" then
    let c := config.KissOfDeath sec in
    let code := match conf !! "code" with
                | Some (config.VString s) => s
                | _ => config.KissOfDeathConfig.Code c
                end in
    let interval := match conf !! "interval" with
                    | Some (config.VInt i) => i
                    | _ => config.KissOfDeathConfig.Interval c
                    end in
    (with_security e
       (config.set_KissOfDeath sec (config.KissOfDeathConfig.mk true code interval)), None)
  else if String.eqb attack "rollover" then
    let c := config.Rollover sec in
    let year := match conf !! "target_year" with
                | Some (config.VInt y) => y
                | _ => config.RolloverConfig.TargetYear c
                end in
    let mode := match conf !! "mode" with
                | Some (config.VString m) => m
                | _ => config.RolloverConfig.Mode c
                end in
    (with_security e
       (config.set_Rollover sec (config.RolloverConfig.mk true year mode)), None)
  else if String.eqb attack "clock_step" then
    let c := config.ClockStep sec in
    let step := match conf !! "step_secs" with
                | Some (config.VInt st) => st
                | _ => config.ClockStepConfig.StepSecs c
                end in
    let interval := match conf !! "interval" with
                    | Some (config.VInt i) => i
                    | _ => config.ClockStepConfig.Interval c
                    end in
    (with_security e
       (config.set_ClockStep sec (config.ClockStepConfig.mk true step interval)), None)
  else if String.eqb attack "fuzzing" then
    let c := config.Fuzzing sec in
    let mode := match conf !! "mode" with
                | Some (config.VString m) => m
                | _ => config.FuzzingConfig.Mode c
                end in
    (with_security e (config.set_Fuzzing sec (config.FuzzingConfig.mk true mode)), None)
  else (with_security e sec, None).

Definition DisableAllAttacks (e : AttackEngine) : AttackEngine :=
  let s := config.Security (cfg e) in
  with_security e
    (config.mkSecurity false ""
       (config.TimeSpoofingConfig.mk false
          (config.TimeSpoofingConfig.OffsetSecs (config.TimeSpoofing s))
          (config.TimeSpoofingConfig.CustomTime (config.TimeSpoofing s)))
       (config.TimeDriftConfig.mk false
          (config.TimeDriftConfig.DriftPerSec (config.TimeDrift s))
          (config.TimeDriftConfig.MaxDrift (config.TimeDrift s))
          (config.TimeDriftConfig.Direction (config.TimeDrift s)))
       (config.KissOfDeathConfig.mk false
          (config.KissOfDeathConfig.Code (config.KissOfDeath s))
          (config.KissOfDeathConfig.Interval (config.KissOfDeath s)))
       (config.StratumAttackConfig.mk false
          (config.StratumAttackConfig.FakeStratum (config.StratumAttack s)))
       (config.LeapSecondConfig.mk false
          (config.LeapSecondConfig.LeapIndicator (config.LeapSecond s)))
       (config.RolloverConfig.mk false
          (config.RolloverConfig.TargetYear (config.Rollover s))
          (config.RolloverConfig.Mode (config.Rollover s)))
       (config.ClockStepConfig.mk false
          (config.ClockStepConfig.StepSecs (config.ClockStep s))
          (config.ClockStepConfig.Interval (config.ClockStep s)))
       (config.FuzzingConfig.mk false
          (config.FuzzingConfig.Mode (config.Fuzzing s)))).

End attacks.

(** ** Package server: the request engine *)

Module server.

Import ntpcore.

Definition uint64 (z : Z) : Z := z mod 18446744073709551616.

Record ServerStats : Type := mkStats {
  TotalRequests : Z;       (* uint64 *)
  TotalResponses : Z;
  ActiveClients : gmap string time.Time;
  ErrorCount : Z;
  AttacksExecuted : Z
}.

Record Server : Type := mkServer {
  upstream : ntp.UpstreamClient;
  attackEngine : attacks.AttackEngine;
  stats : ServerStats
}.

(** What the handling of one datagram takes from outside the program:
    the clock readings in program order, the resolver, the environment
    of the attack engine and whether the socket write succeeds. *)
Record Env : Type := mkEnv {
  now_seen : time.Time;
  now_upstream : time.Time;
  now_receive : time.Time;
  now_transmit : time.Time;
  lookupIP : string -> option (list ntp.IP);
  attackEnv : attacks.Env;
  write_ok : bool
}.

Definition identifyClient (packet : NTPPacket) : string :=
  if Version packet =? 3 then
    if Poll packet =? 6 then "Windows W32Time (possible)" else "NTPv3 Client"
  else if Version packet =? 4 then
    if Poll packet =? 6 then "ntpd/chrony (likely)"
    else if Poll packet =? 7 then "systemd-timesyncd (possible)"
    else if Poll packet =? 10 then "macOS sntp (possible)"
    else "NTPv4 Client"
  else "Unknown".

(** The response construction of [processRequest], from [NewPacket] to
    the root delay and dispersion, for a parsed request [packet]. *)
Definition buildResponse (s : Server) (env : Env) (packet : NTPPacket) : NTPPacket :=
  let currentTime := ntp.GetCurrentTime (upstream s) (now_upstream env) in
  let receiveTime := now_receive env in
  let response := NewPacket in
  let response := set_Version response (Version packet) in
  let response := set_Mode response ModeServer in
  let response := set_Stratum response (ntp.GetStratum (upstream s)) in
  let response := set_Poll response (Poll packet) in
  let response := set_Precision response (-20) in
  let response := set_ReferenceID response (ntp.GetReferenceID (upstream s) (lookupIP env)) in
  let response := SetOriginTime response (XmitTimeSec packet) (XmitTimeFrac packet) in
  let response := SetReceiveTime response receiveTime in
  let response := SetReferenceTime response (time.Add currentTime (- time.Second)) in
  let response := SetTransmitTime response (now_transmit env) in
  let syncStatus := ntp.GetSyncStatus (upstream s) in
  let response :=
    set_RootDelay response
      (CalculateRootDelay (float64.of_int (time.Milliseconds (ntp.RTT syncStatus)))) in
  set_RootDisp response (CalculateRootDispersion (float64.of_int 10)).

Definition bumpErrors (st : ServerStats) : ServerStats :=
  mkStats (TotalRequests st) (TotalResponses st) (ActiveClients st)
          (uint64 (ErrorCount st + 1)) (AttacksExecuted st).

(** [processRequest]: the server after the call and the datagram handed
    to the socket, if any. *)
Definition processRequest (s : Server) (env : Env) (data : list Byte.byte)
    (clientStr : string) : Server * option (list Byte.byte) :=
  match ParsePacket data with
  | Err _ => (mkServer (upstream s) (attackEngine s) (bumpErrors (stats s)), None)
  | Ok packet =>
      if negb (IsValidClientRequest packet) then (s, None)
      else
        let st := stats s in
        let st := mkStats (uint64 (TotalRequests st + 1)) (TotalResponses st)
                          (<[clientStr := now_seen env]> (ActiveClients st))
                          (ErrorCount st) (AttacksExecuted st) in
        let currentTime := ntp.GetCurrentTime (upstream s) (now_upstream env) in
        let response := buildResponse s env packet in
        let '(engine, response, attackName) :=
          if attacks.IsEnabled (attackEngine s) then
            attacks.ProcessPacket (attackEnv env) (attackEngine s) response
                                  clientStr currentTime
          else (attackEngine s, response, "") in
        let st :=
          if negb (String.eqb attackName "") then
            mkStats (TotalRequests st) (TotalResponses st) (ActiveClients st)
                    (ErrorCount st) (uint64 (AttacksExecuted st + 1))
          else st in
        let responseBytes := Bytes response in
        let st :=
          if write_ok env then
            mkStats (TotalRequests st) (uint64 (TotalResponses st + 1))
                    (ActiveClients st) (ErrorCount st) (AttacksExecuted st)
          else bumpErrors st in
        (mkServer (upstream s) engine st, Some responseBytes)
  end.

(** One tick of [cleanupClients]: the clients last seen more than five
    minutes before [now] are deleted, those with
    [now.Sub(lastSeen) <= 5 * time.Minute] stay. *)
Definition cleanupTick (st : ServerStats) (now : time.Time) : ServerStats :=
  mkStats (TotalRequests st) (TotalResponses st)
          (base.filter (fun kv : string * time.Time =>
                          time.Sub now (snd kv) <= 5 * time.Minute)
                       (ActiveClients st))
          (ErrorCount st) (AttacksExecuted st).

End server.

(** * Predicates and sample values used in the statements *)

(** The packets whose header fields fit their wire widths: two bits of
    leap indicator, three of version, three of mode. *)
Definition header_fits (p : ntpcore.NTPPacket) : Prop :=
  ntpcore.LeapIndicator p < 4 /\ ntpcore.Version p < 8 /\ ntpcore.Mode p < 8.

(** A client request: version 4, mode 3, transmit timestamp
    [0xE2A1B2C3.00000000]. *)
Definition sample_datagram : list Byte.byte :=
  ([Byte.x23; Byte.x00; Byte.x06; Byte.xec] ++ repeat Byte.x00 36
   ++ [Byte.xe2; Byte.xa1; Byte.xb2; Byte.xc3; Byte.x00; Byte.x00; Byte.x00; Byte.x00])%list.

Definition sample_packet : ntpcore.NTPPacket :=
  ntpcore.mkPacket 0 4 3 0 6 (-20) 0 0 0 0 0 0 0 0 0 3802247875 0.

(** A packet value of the Go type whose leap indicator does not fit two
    bits: [4 << 6] overflows the byte, and the packet parsed back has leap
    indicator 0. *)
Definition wide_leap_packet : ntpcore.NTPPacket :=
  ntpcore.mkPacket 4 4 4 2 6 (-20) 0 0 0 0 0 0 0 0 0 0 0.

(** The error of [SetKissOfDeathCode]. *)
Definition kiss_code_error : string := "kiss code must be exactly 4 characters".

(** The security section with every value at its default, except the
    master switch, the active attack, the per-attack switches (all [on]
    or all off) and the settings that the statements vary. *)
Definition security (enabled : bool) (attack : string) (on : bool)
    (fake_stratum : Z) (rollover_mode kod_code : string) : config.SecurityConfig :=
  config.mkSecurity enabled attack
    (config.TimeSpoofingConfig.mk on 3600 "")
    (config.TimeDriftConfig.mk on
       (float64.div (float64.of_int 1) (float64.of_int 1000)) (float64.of_int 60) "forward")
    (config.KissOfDeathConfig.mk on kod_code 0)
    (config.StratumAttackConfig.mk on fake_stratum)
    (config.LeapSecondConfig.mk on 1)
    (config.RolloverConfig.mk on 2038 rollover_mode)
    (config.ClockStepConfig.mk on 3600 5)
    (config.FuzzingConfig.mk on "").

Definition security_off : config.SecurityConfig :=
  security false "" false 1 "y2k38" "DENY".

Definition sample_now : time.Time := time.mkTime 1700000000 1.

Definition sample_engine (sec : config.SecurityConfig) : attacks.AttackEngine :=
  attacks.NewAttackEngine (config.mkConfig sec) sample_now.

Definition sample_attack_env (draws : list Z) : attacks.Env :=
  attacks.mkEnv (fun _ => None) sample_now sample_now draws.

(** A freshly started server: upstream not yet synchronized. *)
Definition sample_server (sec : config.SecurityConfig) : server.Server :=
  server.mkServer ntp.NewUpstreamClient (sample_engine sec) (server.mkStats 0 0 ∅ 0 0).

Definition sample_env (draws : list Z) : server.Env :=
  server.mkEnv sample_now sample_now sample_now sample_now (fun _ => None)
               (sample_attack_env draws) true.

Definition sample_client : string := "192.0.2.7:123".

(** No attack is active: security mode is off, or no attack is selected. *)
Definition no_attack (e : attacks.AttackEngine) : Prop :=
  attacks.IsEnabled e = false \/ attacks.GetActiveAttack e = "".

(** [fake_stratum] clamped to 0..15. *)
Definition clamp_0_15 (z : Z) : Z := Z.max 0 (Z.min 15 z).

(** The code that the Kiss-of-Death attack writes: the configured one if
    it has four bytes, ["DENY"] otherwise. *)
Definition kod_code_sent (code : string) : string :=
  if Nat.eqb (String.length code) 4 then code else "DENY".

(** The instant of the Unix 32-bit overflow and the instant 2^32 seconds
    before it. *)
Definition y2k38 : time.Time := time.Date 2038 1 19 3 14 7 0.
Definition y2k38_era0 : time.Time := time.Date 1901 12 13 20 45 51 0.

(** The rounding location of a remainder [R] over a divisor [B]: exact,
    or below, at or above the half. *)
Definition loc_of_remainder (R B : Z) : location :=
  if R =? 0 then loc_Exact else loc_Inexact (2 * R ?= B).

(** The instants from 1900-01-01T00:00:00Z up to, not including,
    2106-02-07T00:00:00Z. *)
Definition ntp_range_start : time.Time := time.Date 1900 1 1 0 0 0 0.
Definition ntp_range_end : time.Time := time.Date 2106 2 7 0 0 0 0.

Definition in_ntp_range (t : time.Time) : Prop :=
  time.wf_Time t
  /\ time.unixSec ntp_range_start <= time.unixSec t < time.unixSec ntp_range_end.

(** NTP era 0: the instants from 1900-01-01T00:00:00Z up to, not
    including, 2036-02-07T06:28:16Z, where the 32-bit seconds wrap. *)
Definition ntp_era1_start : time.Time := time.Date 2036 2 7 6 28 16 0.

Definition in_ntp_era0 (t : time.Time) : Prop :=
  time.wf_Time t
  /\ time.unixSec ntp_range_start <= time.unixSec t < time.unixSec ntp_era1_start.

(** The conversion to an NTP timestamp and back. *)
Definition ntp_round_trip (t : time.Time) : time.Time :=
  ntpcore.NTPTimestampToTime (ntpcore.TimeToNTPTimestamp t).

(** A datagram longer than a packet: the sample request followed by
    twenty bytes of authentication data. *)
Definition long_datagram : list Byte.byte := (sample_datagram ++ repeat Byte.xff 20)%list.

(** The response of an attempt that counts as a success for
    [queryServer]: the query answered and the answer validates. *)
Definition attempt_ok (a : ntp.Attempt) : option ntp.Response.t :=
  match a with
  | ntp.Answer r =>
      match ntp.Response.Validate r with
      | None => Some r
      | Some _ => None
      end
  | ntp.QueryError _ => None
  end.

(** [GetActiveUpstreams]' replacement of port 0 by 123. *)
Definition default_port (s : config.UpstreamServer) : config.UpstreamServer :=
  if config.Port s =? 0
  then config.mkUpstreamServer (config.Address s) 123 (config.Priority s)
         (config.ServerEnabled s)
  else s.

(** The snapshot that [syncNow] stores after a valid response [r] of
    [server]. *)
Definition synced_with (server : config.UpstreamServer) (r : ntp.Response.t)
    (now_sync now_status : time.Time) : ntp.UpstreamClient :=
  ntp.mkUpstream (ntp.Response.ClockOffset r) now_sync
    (ntp.mkSyncStatus true (config.Address server) (ntp.Response.Stratum r)
       (ntp.Response.ClockOffset r) (ntp.Response.RTT r) now_status "").

Definition sample_servers : list config.UpstreamServer :=
  [config.mkUpstreamServer "time.google.com" 123 3 true;
   config.mkUpstreamServer "off.example" 123 1 false;
   config.mkUpstreamServer "pool.ntp.org" 0 2 true].

Definition sample_response : ntp.Response.t := ntp.Response.mk 1500000 20000000 1 None.

(** The first server times out on every attempt; the second answers
    with a response that does not validate, then with a valid one. *)
Definition sample_net (server attempt : nat) : ntp.Attempt :=
  match server, attempt with
  | 1%nat, 0%nat => ntp.Answer (ntp.Response.mk 0 0 0 (Some "kiss of death received"))
  | 1%nat, _ => ntp.Answer sample_response
  | _, _ => ntp.QueryError "i/o timeout"
  end.

Definition sample_upstream : ntp.UpstreamClient :=
  synced_with (config.mkUpstreamServer "time.google.com" 123 1 true) sample_response
              sample_now sample_now.

(** The queries to one server all fail within [retries] attempts. *)
Definition server_fails (retries : Z) (attempts : nat -> ntp.Attempt) : Prop :=
  forall j : nat, Z.of_nat j < retries -> attempt_ok (attempts j) = None.

(** The first valid answer of one server within [retries] attempts is [r]. *)
Definition server_answers (retries : Z) (attempts : nat -> ntp.Attempt)
    (r : ntp.Response.t) : Prop :=
  exists i : nat, Z.of_nat i < retries /\ attempt_ok (attempts i) = Some r
                  /\ forall j : nat, (j < i)%nat -> attempt_ok (attempts j) = None.

(** The per-attack switch that the named attack reads; a name that is
    not an attack has none. *)
Definition attack_switch (sec : config.SecurityConfig) (attack : string) : bool :=
  if String.eqb attack attacks.AttackTimeSpoofing then
    config.TimeSpoofingConfig.Enabled (config.TimeSpoofing sec)
  else if String.eqb attack attacks.AttackTimeDrift then
    config.TimeDriftConfig.Enabled (config.TimeDrift sec)
  else if String.eqb attack attacks.AttackKissOfDeath then
    config.KissOfDeathConfig.Enabled (config.KissOfDeath sec)
  else if String.eqb attack attacks.AttackStratumLie then
    config.StratumAttackConfig.Enabled (config.StratumAttack sec)
  else if String.eqb attack attacks.AttackLeapSecond then
    config.LeapSecondConfig.Enabled (config.LeapSecond sec)
  else if String.eqb attack attacks.AttackRollover then
    config.RolloverConfig.Enabled (config.Rollover sec)
  else if String.eqb attack attacks.AttackClockStep then
    config.ClockStepConfig.Enabled (config.ClockStep sec)
  else if String.eqb attack attacks.AttackFuzzing then
    config.FuzzingConfig.Enabled (config.Fuzzing sec)
  else false.

(** The low six bits of the first byte of a datagram: version and mode. *)
Definition version_mode_bits (data : list Byte.byte) : Z :=
  Z.land (byteZ (nth 0 data Byte.x00)) 63.

(** The engine's call in [processRequest]: made only in security mode. *)
Definition attack_step (s : server.Server) (env : server.Env)
    (packet : ntpcore.NTPPacket) (clientStr : string)
    : attacks.AttackEngine * ntpcore.NTPPacket * string :=
  if attacks.IsEnabled (server.attackEngine s) then
    attacks.ProcessPacket (server.attackEnv env) (server.attackEngine s)
      (server.buildResponse s env packet) clientStr
      (ntp.GetCurrentTime (server.upstream s) (server.now_upstream env))
  else (server.attackEngine s, server.buildResponse s env packet, "").

(** The engine after [ProcessPacket] has counted a request of
    [clientAddr]. *)
Definition counted (e : attacks.AttackEngine) (clientAddr : string) : attacks.AttackEngine :=
  attacks.mkEngine (attacks.cfg e) (attacks.driftState e)
    (<[clientAddr := int64 (default 0 (attacks.requestCount e !! clientAddr) + 1)]>
       (attacks.requestCount e)).

(** The engine's answer to the last of [n] consecutive requests of one
    client, and the engine after it; every request is handed the same
    response packet and clock reading. *)
Fixpoint consecutive_requests (n : nat) (env : attacks.Env) (e : attacks.AttackEngine)
    (packet : ntpcore.NTPPacket) (clientAddr : string) (realTime : time.Time)
    : attacks.AttackEngine * ntpcore.NTPPacket * string :=
  match n with
  | O => (e, packet, "")
  | S k =>
      attacks.ProcessPacket env
        (fst (fst (consecutive_requests k env e packet clientAddr realTime)))
        packet clientAddr realTime
  end.

(** The name under which the Kiss-of-Death attack is reported. *)
Definition kod_name (code : string) : string := "Kiss-of-Death (" ++ code ++ ")".

(** The four attacks that rewrite the timestamps. *)
Definition is_time_attack (attack : string) : bool :=
  String.eqb attack attacks.AttackTimeSpoofing || String.eqb attack attacks.AttackTimeDrift
  || String.eqb attack attacks.AttackRollover || String.eqb attack attacks.AttackClockStep.

(** What a time attack returns for [packet]: the packet as it was and no
    name, or the packet with its timestamps set from one instant and a
    name. *)
Definition time_attack_result (packet : ntpcore.NTPPacket)
    (r : ntpcore.NTPPacket * string) : Prop :=
  r = (packet, "")
  \/ exists fakeTime, time.wf_Time fakeTime
                      /\ fst r = attacks.setTimes packet fakeTime /\ snd r <> "".

(** The timestamps written for the instant [t]: receive and transmit the
    encoding of [t], reference that of one second before. *)
Definition stamped (packet : ntpcore.NTPPacket) (t : time.Time) : ntpcore.NTPPacket :=
  let sec := (time.unixSec t + 2208988800) mod 4294967296 in
  let frac := time.nsec t * 4294967296 / 1000000000 in
  ntpcore.mkPacket (ntpcore.LeapIndicator packet) (ntpcore.Version packet)
    (ntpcore.Mode packet) (ntpcore.Stratum packet) (ntpcore.Poll packet)
    (ntpcore.Precision packet) (ntpcore.RootDelay packet) (ntpcore.RootDisp packet)
    (ntpcore.ReferenceID packet)
    ((time.unixSec t - 1 + 2208988800) mod 4294967296) frac
    (ntpcore.OrigTimeSec packet) (ntpcore.OrigTimeFrac packet)
    sec frac sec frac.

(** The security section armed for a leap-second attack that writes the
    leap indicator [li]. *)
Definition leap_security (li : Z) : config.SecurityConfig :=
  config.set_LeapSecond (security true "leap_second" true 1 "y2k38" "DENY")
    (config.LeapSecondConfig.mk true li).

(** The attacks whose switch [ApplyPreset] turns on unconditionally. *)
Definition preset_arms (attack : string) : bool :=
  String.eqb attack "time_drift" || String.eqb attack "kiss_of_death"
  || String.eqb attack "rollover" || String.eqb attack "clock_step"
  || String.eqb attack "fuzzing".

(** Whether a preset setting holds a number ([int] or [float64]). *)
Definition is_number (v : option config.Value) : bool :=
  match v with
  | Some (config.VInt _) | Some (config.VFloat _) => true
  | _ => false
  end.

(** The preset "DoS via KoD" of the default configuration, and a
    preset for the stratum attack as a configuration file can give it. *)
Definition preset_dos_kod : config.AttackPreset :=
  config.mkPreset "DoS via KoD" "Send Kiss-of-Death DENY packets to disable sync"
    "kiss_of_death"
    (<["code" := config.VString "DENY"]> (<["interval" := config.VInt 0]> ∅)).

Definition preset_stratum : config.AttackPreset :=
  config.mkPreset "Fake Stratum 1" "Claim to be a primary server" "stratum_attack"
    (<["fake_stratum" := config.VInt 1]> ∅).

(** * Properties *)

(** ** Bytes and big-endian words *)

Lemma byteZ_range (b : Byte.byte) : 0 <= byteZ b < 256.
Proof.
  unfold byteZ. pose proof (Byte.to_N_bounded b) as H.
  split; [apply N2Z.is_nonneg | lia].
Qed.

Lemma Zbyte_byteZ (b : Byte.byte) : Zbyte (byteZ b) = b.
Proof. destruct b; reflexivity. Qed.

Lemma byteZ_Zbyte (z : Z) : byteZ (Zbyte z) = z mod 256.
Proof.
  unfold Zbyte, byteZ.
  assert (Hr : 0 <= z mod 256 < 256) by (apply Z.mod_pos_bound; lia).
  destruct (Byte.of_N (Z.to_N (z mod 256))) as [b|] eqn:E.
  - apply Byte.to_of_N in E. rewrite E. lia.
  - apply Byte.of_N_None_iff in E. lia.
Qed.

Lemma Zbyte_unique (z : Z) (b : Byte.byte) : z mod 256 = byteZ b -> Zbyte z = b.
Proof.
  intros H. rewrite <- (Zbyte_byteZ b). unfold Zbyte.
  rewrite <- H, Z.mod_mod by lia. reflexivity.
Qed.

Lemma testbit_above (a n k : Z) : 0 <= a < 2 ^ n -> n <= k -> Z.testbit a k = false.
Proof.
  intros [H0 H1] Hk.
  destruct (Z.eq_dec a 0) as [->|Hne]; [apply Z.bits_0|].
  apply Z.bits_above_log2; [lia|].
  assert (0 <= n) by (destruct (Z.lt_ge_cases n 0) as [Hn|Hn];
                      [rewrite Z.pow_neg_r in H1 by lia; lia | lia]).
  assert (Z.log2 a < n) by (apply Z.log2_lt_pow2; lia). lia.
Qed.

Lemma lor_shiftl_add (a b n : Z) :
  0 <= n -> 0 <= a < 2 ^ n -> Z.lor a (Z.shiftl b n) = a + b * 2 ^ n.
Proof.
  intros Hn Ha. rewrite <- Z.shiftl_mul_pow2 by lia.
  symmetry. apply Z.add_nocarry_lor.
  apply Z.bits_inj'. intros k Hk. rewrite Z.land_spec, Z.bits_0.
  destruct (Z.lt_ge_cases k n).
  - rewrite (Z.shiftl_spec_low b n k) by lia. apply andb_false_r.
  - rewrite (testbit_above a n k) by lia. reflexivity.
Qed.

Lemma Uint32_sum (a b c d : Byte.byte) :
  BigEndian.Uint32 [a; b; c; d]
  = byteZ a * 16777216 + byteZ b * 65536 + byteZ c * 256 + byteZ d.
Proof.
  unfold BigEndian.Uint32.
  pose proof (byteZ_range a). pose proof (byteZ_range b).
  pose proof (byteZ_range c). pose proof (byteZ_range d).
  rewrite (lor_shiftl_add (byteZ d) (byteZ c) 8) by lia.
  rewrite (lor_shiftl_add _ (byteZ b) 16) by lia.
  rewrite (lor_shiftl_add _ (byteZ a) 24) by lia.
  lia.
Qed.

Lemma Uint32_range (a b c d : Byte.byte) : is_uint32 (BigEndian.Uint32 [a; b; c; d]).
Proof.
  rewrite Uint32_sum. unfold is_uint32.
  pose proof (byteZ_range a). pose proof (byteZ_range b).
  pose proof (byteZ_range c). pose proof (byteZ_range d). lia.
Qed.

Lemma PutUint32_Uint32 (a b c d : Byte.byte) :
  BigEndian.PutUint32 (BigEndian.Uint32 [a; b; c; d]) = [a; b; c; d].
Proof.
  rewrite Uint32_sum. unfold BigEndian.PutUint32.
  pose proof (byteZ_range a). pose proof (byteZ_range b).
  pose proof (byteZ_range c). pose proof (byteZ_range d).
  rewrite !Z.shiftr_div_pow2 by lia.
  change (2 ^ 24) with 16777216. change (2 ^ 16) with 65536. change (2 ^ 8) with 256.
  f_equal; [|f_equal; [|f_equal; [|f_equal]]];
    apply Zbyte_unique; Z.div_mod_to_equations; lia.
Qed.

Lemma Uint32_PutUint32 (v : Z) :
  is_uint32 v -> BigEndian.Uint32 (BigEndian.PutUint32 v) = v.
Proof.
  unfold is_uint32. intros Hv. unfold BigEndian.PutUint32.
  rewrite Uint32_sum, !byteZ_Zbyte, !Z.shiftr_div_pow2 by lia.
  change (2 ^ 24) with 16777216. change (2 ^ 16) with 65536. change (2 ^ 8) with 256.
  Z.div_mod_to_equations; lia.
Qed.

(** ** The first byte and the signed bytes *)

Lemma first_byte_pack (b : Byte.byte) :
  Zbyte (Z.lor (Z.lor (uint8 (Z.shiftl (Z.land (Z.shiftr (byteZ b) 6) 3) 6))
                      (uint8 (Z.shiftl (Z.land (Z.shiftr (byteZ b) 3) 7) 3)))
               (Z.land (byteZ b) 7)) = b.
Proof. destruct b; reflexivity. Qed.

Lemma first_byte_fields (b : Byte.byte) :
  0 <= Z.land (Z.shiftr (byteZ b) 6) 3 < 4
  /\ 0 <= Z.land (Z.shiftr (byteZ b) 3) 7 < 8
  /\ 0 <= Z.land (byteZ b) 7 < 8.
Proof. destruct b; vm_compute; intuition discriminate. Qed.

Lemma signed_byte_pack (b : Byte.byte) : Zbyte (int8 (byteZ b)) = b.
Proof. destruct b; reflexivity. Qed.

Lemma signed_byte_unpack (z : Z) : is_int8 z -> int8 (byteZ (Zbyte z)) = z.
Proof.
  unfold is_int8, int8. intros Hz. rewrite byteZ_Zbyte.
  Z.div_mod_to_equations; lia.
Qed.

Lemma small_cases4 (z : Z) : 0 <= z < 4 -> z = 0 \/ z = 1 \/ z = 2 \/ z = 3.
Proof. lia. Qed.

Lemma small_cases8 (z : Z) :
  0 <= z < 8 -> z = 0 \/ z = 1 \/ z = 2 \/ z = 3 \/ z = 4 \/ z = 5 \/ z = 6 \/ z = 7.
Proof. lia. Qed.

Lemma first_byte_unpack (li vn m : Z) :
  0 <= li < 4 -> 0 <= vn < 8 -> 0 <= m < 8 ->
  let fb := byteZ (Zbyte (Z.lor (Z.lor (uint8 (Z.shiftl li 6)) (uint8 (Z.shiftl vn 3))) m)) in
  Z.land (Z.shiftr fb 6) 3 = li /\ Z.land (Z.shiftr fb 3) 7 = vn /\ Z.land fb 7 = m.
Proof.
  intros Hli Hvn Hm.
  apply small_cases4 in Hli. apply small_cases8 in Hvn. apply small_cases8 in Hm.
  repeat match goal with H : _ \/ _ |- _ => destruct H as [H|H] end;
    subst; vm_compute; repeat split; reflexivity.
Qed.

(** ** The codec on a 48-byte datagram *)

Lemma ParsePacket_cons48 (b0 b1 b2 b3 b4 b5 b6 b7 b8 b9 b10 b11 b12 b13 b14 b15 b16 b17 b18 b19 b20 b21 b22 b23 b24 b25 b26 b27 b28 b29 b30 b31 b32 b33 b34 b35 b36 b37 b38 b39 b40 b41 b42 b43 b44 b45 b46 b47 : Byte.byte) (rest : list Byte.byte) :
  ntpcore.ParsePacket (b0 :: b1 :: b2 :: b3 :: b4 :: b5 :: b6 :: b7 :: b8 :: b9 :: b10 :: b11 :: b12 :: b13 :: b14 :: b15 :: b16 :: b17 :: b18 :: b19 :: b20 :: b21 :: b22 :: b23 :: b24 :: b25 :: b26 :: b27 :: b28 :: b29 :: b30 :: b31 :: b32 :: b33 :: b34 :: b35 :: b36 :: b37 :: b38 :: b39 :: b40 :: b41 :: b42 :: b43 :: b44 :: b45 :: b46 :: b47 :: rest)
  = Ok (ntpcore.mkPacket
          (Z.land (Z.shiftr (byteZ b0) 6) 3) (Z.land (Z.shiftr (byteZ b0) 3) 7)
          (Z.land (byteZ b0) 7) (byteZ b1) (int8 (byteZ b2)) (int8 (byteZ b3))
          (BigEndian.Uint32 [b4; b5; b6; b7]) (BigEndian.Uint32 [b8; b9; b10; b11])
          (BigEndian.Uint32 [b12; b13; b14; b15]) (BigEndian.Uint32 [b16; b17; b18; b19])
          (BigEndian.Uint32 [b20; b21; b22; b23]) (BigEndian.Uint32 [b24; b25; b26; b27])
          (BigEndian.Uint32 [b28; b29; b30; b31]) (BigEndian.Uint32 [b32; b33; b34; b35])
          (BigEndian.Uint32 [b36; b37; b38; b39]) (BigEndian.Uint32 [b40; b41; b42; b43])
          (BigEndian.Uint32 [b44; b45; b46; b47])).
Proof.
  unfold ntpcore.ParsePacket.
  replace (Z.of_nat (List.length (b0 :: b1 :: b2 :: b3 :: b4 :: b5 :: b6 :: b7 :: b8 :: b9 :: b10 :: b11 :: b12 :: b13 :: b14 :: b15 :: b16 :: b17 :: b18 :: b19 :: b20 :: b21 :: b22 :: b23 :: b24 :: b25 :: b26 :: b27 :: b28 :: b29 :: b30 :: b31 :: b32 :: b33 :: b34 :: b35 :: b36 :: b37 :: b38 :: b39 :: b40 :: b41 :: b42 :: b43 :: b44 :: b45 :: b46 :: b47 :: rest)) <? ntpcore.NTPPacketMinSize) with false.
  - reflexivity.
  - symmetry. apply Z.ltb_ge. cbn [List.length]. unfold ntpcore.NTPPacketMinSize. lia.
Qed.

Lemma ParsePacket_short (data : list Byte.byte) :
  (List.length data < 48)%nat -> ntpcore.ParsePacket data = Err "packet too short".
Proof.
  intros H. unfold ntpcore.ParsePacket.
  replace (Z.of_nat (List.length data) <? ntpcore.NTPPacketMinSize) with true; [reflexivity|].
  symmetry. apply Z.ltb_lt. unfold ntpcore.NTPPacketMinSize. lia.
Qed.

Lemma Bytes_length (p : ntpcore.NTPPacket) : List.length (ntpcore.Bytes p) = 48%nat.
Proof. reflexivity. Qed.

(** C2.  For every byte sequence [b] of exactly 48 bytes, parsing succeeds
    and serialising the parsed packet gives [b] back:
    [Bytes(ParsePacket(b)) == b]. *)
Theorem C2_bytes_of_parse (b : list Byte.byte) :
  List.length b = 48%nat ->
  exists p, ntpcore.ParsePacket b = Ok p /\ ntpcore.Bytes p = b.
Proof.
  intros Hlen.
  do 48 (destruct b as [|? b]; [discriminate Hlen|]).
  destruct b; [|discriminate Hlen].
  rewrite ParsePacket_cons48. eexists. split; [reflexivity|].
  unfold ntpcore.Bytes.
  cbn [ntpcore.LeapIndicator ntpcore.Version ntpcore.Mode ntpcore.Stratum
       ntpcore.Poll ntpcore.Precision ntpcore.RootDelay ntpcore.RootDisp
       ntpcore.ReferenceID ntpcore.RefTimeSec ntpcore.RefTimeFrac
       ntpcore.OrigTimeSec ntpcore.OrigTimeFrac ntpcore.RecvTimeSec
       ntpcore.RecvTimeFrac ntpcore.XmitTimeSec ntpcore.XmitTimeFrac].
  rewrite !PutUint32_Uint32, first_byte_pack, !signed_byte_pack, Zbyte_byteZ.
  reflexivity.
Qed.


Lemma C2_bytes_of_parse_witness :
  exists p, ntpcore.ParsePacket sample_datagram = Ok p /\ ntpcore.Bytes p = sample_datagram.
Proof. apply C2_bytes_of_parse. reflexivity. Defined.


(** C3 (as amended).  For every packet value whose leap indicator is below
    4 and whose version and mode are below 8, parsing the serialisation
    returns the packet unchanged. *)
Theorem C3_parse_of_bytes (p : ntpcore.NTPPacket) :
  ntpcore.wf_packet p -> header_fits p ->
  ntpcore.ParsePacket (ntpcore.Bytes p) = Ok p.
Proof.
  intros Hwf (Hli & Hvn & Hm). destruct Hwf. destruct p. unfold is_uint8 in *.
  cbn [ntpcore.LeapIndicator ntpcore.Version ntpcore.Mode ntpcore.Stratum
       ntpcore.Poll ntpcore.Precision ntpcore.RootDelay ntpcore.RootDisp
       ntpcore.ReferenceID ntpcore.RefTimeSec ntpcore.RefTimeFrac
       ntpcore.OrigTimeSec ntpcore.OrigTimeFrac ntpcore.RecvTimeSec
       ntpcore.RecvTimeFrac ntpcore.XmitTimeSec ntpcore.XmitTimeFrac] in *.
  unfold ntpcore.Bytes.
  cbn [ntpcore.LeapIndicator ntpcore.Version ntpcore.Mode ntpcore.Stratum
       ntpcore.Poll ntpcore.Precision ntpcore.RootDelay ntpcore.RootDisp
       ntpcore.ReferenceID ntpcore.RefTimeSec ntpcore.RefTimeFrac
       ntpcore.OrigTimeSec ntpcore.OrigTimeFrac ntpcore.RecvTimeSec
       ntpcore.RecvTimeFrac ntpcore.XmitTimeSec ntpcore.XmitTimeFrac].
  unfold BigEndian.PutUint32 at 1 2 3 4 5 6 7 8 9 10 11. cbn [app].
  rewrite ParsePacket_cons48.
  repeat match goal with
         | |- context [BigEndian.Uint32 [Zbyte (Z.shiftr ?v 24); _; _; _]] =>
             change [Zbyte (Z.shiftr v 24); Zbyte (Z.shiftr v 16);
                     Zbyte (Z.shiftr v 8); Zbyte v]
               with (BigEndian.PutUint32 v);
             rewrite (Uint32_PutUint32 v) by assumption
         end.
  rewrite !signed_byte_unpack by assumption.
  destruct (first_byte_unpack LeapIndicator Version Mode) as (E1 & E2 & E3);
    [lia | lia | lia |].
  cbv zeta in E1, E2, E3. rewrite E1, E2, E3.
  rewrite byteZ_Zbyte, Z.mod_small by lia.
  reflexivity.
Qed.


Lemma wf_sample_packet : ntpcore.wf_packet sample_packet.
Proof. constructor; unfold is_uint8, is_int8, is_uint32; cbn; lia. Qed.

Lemma C3_parse_of_bytes_witness :
  ntpcore.ParsePacket (ntpcore.Bytes sample_packet) = Ok sample_packet.
Proof.
  apply C3_parse_of_bytes; [exact wf_sample_packet | unfold header_fits; cbn; lia].
Defined.


Lemma C3_counterexample :
  ntpcore.wf_packet wide_leap_packet
  /\ ntpcore.ParsePacket (ntpcore.Bytes wide_leap_packet) <> Ok wide_leap_packet
  /\ ntpcore.ParsePacket (ntpcore.Bytes wide_leap_packet)
     = Ok (ntpcore.set_LeapIndicator wide_leap_packet 0).
Proof.
  split; [constructor; unfold is_uint8, is_int8, is_uint32; cbn; lia|].
  split; [vm_compute; discriminate | vm_compute; reflexivity].
Qed.

(** ** Kiss-of-Death codes *)

(** C10.  For every packet [p] and every code whose length is not 4,
    [SetKissOfDeathCode] returns the error and leaves every field of [p] as
    it was; the stratum is forced to 0 (and the reference ID written) on
    the success path, that of a code of length 4. *)
Theorem C10_kod_code_rejected (p : ntpcore.NTPPacket) (code : string) :
  String.length code <> 4%nat ->
  ntpcore.SetKissOfDeathCode p code = (p, Some kiss_code_error)
  /\ (forall code4, String.length code4 = 4%nat ->
        ntpcore.SetKissOfDeathCode p code4
        = (ntpcore.set_ReferenceID (ntpcore.set_Stratum p 0)
             (BigEndian.Uint32 (list_byte_of_string code4)), None)).
Proof.
  intros Hlen. split.
  - unfold ntpcore.SetKissOfDeathCode.
    destruct (Z.eqb_spec (Z.of_nat (String.length code)) 4) as [E|E]; [lia|reflexivity].
  - intros code4 H4. unfold ntpcore.SetKissOfDeathCode. rewrite H4. reflexivity.
Qed.

Lemma C10_kod_code_rejected_witness :
  ntpcore.SetKissOfDeathCode sample_packet "DENIED" = (sample_packet, Some kiss_code_error)
  /\ (forall code4, String.length code4 = 4%nat ->
        ntpcore.SetKissOfDeathCode sample_packet code4
        = (ntpcore.set_ReferenceID (ntpcore.set_Stratum sample_packet 0)
             (BigEndian.Uint32 (list_byte_of_string code4)), None)).
Proof. apply (C10_kod_code_rejected sample_packet "DENIED"). cbn. lia. Defined.

(** ** The response builder *)

Lemma buildResponse_header (s : server.Server) (env : server.Env) (packet : ntpcore.NTPPacket) :
  let r := server.buildResponse s env packet in
  ntpcore.LeapIndicator r = ntpcore.LeapNoWarning
  /\ ntpcore.Version r = ntpcore.Version packet
  /\ ntpcore.Mode r = ntpcore.ModeServer
  /\ ntpcore.Stratum r = ntp.GetStratum (server.upstream s)
  /\ ntpcore.Poll r = ntpcore.Poll packet
  /\ ntpcore.Precision r = -20
  /\ ntpcore.ReferenceID r = ntp.GetReferenceID (server.upstream s) (server.lookupIP env)
  /\ ntpcore.OrigTimeSec r = ntpcore.XmitTimeSec packet
  /\ ntpcore.OrigTimeFrac r = ntpcore.XmitTimeFrac packet.
Proof. repeat split; reflexivity. Qed.

Lemma IsValidClientRequest_spec (p : ntpcore.NTPPacket) :
  ntpcore.IsValidClientRequest p = true
  <-> ntpcore.Mode p = 3 /\ (ntpcore.Version p = 3 \/ ntpcore.Version p = 4).
Proof.
  unfold ntpcore.IsValidClientRequest, ntpcore.ModeClient, ntpcore.VersionNTPv3,
    ntpcore.VersionNTPv4.
  rewrite andb_true_iff, orb_true_iff, !Z.eqb_eq. tauto.
Qed.

(** With no attack active the datagram sent is the serialised built
    response. *)
Lemma processRequest_no_attack (s : server.Server) (env : server.Env)
    (data : list Byte.byte) (clientStr : string) (packet : ntpcore.NTPPacket) :
  ntpcore.ParsePacket data = Ok packet ->
  ntpcore.IsValidClientRequest packet = true ->
  no_attack (server.attackEngine s) ->
  snd (server.processRequest s env data clientStr)
  = Some (ntpcore.Bytes (server.buildResponse s env packet)).
Proof.
  intros Hparse Hvalid Hno. unfold server.processRequest.
  rewrite Hparse, Hvalid. cbn [negb].
  destruct (attacks.IsEnabled (server.attackEngine s)) eqn:Hen.
  - destruct Hno as [Hno|Hno]; [congruence|].
    unfold attacks.ProcessPacket. unfold attacks.IsEnabled in Hen. rewrite Hen.
    cbn [negb attacks.cfg]. unfold attacks.GetActiveAttack in Hno. rewrite Hno.
    cbn. destruct (server.write_ok env); reflexivity.
  - cbn. destruct (server.write_ok env); reflexivity.
Qed.

Lemma parse_transmit_bytes (data : list Byte.byte) (packet : ntpcore.NTPPacket) :
  ntpcore.ParsePacket data = Ok packet ->
  (BigEndian.PutUint32 (ntpcore.XmitTimeSec packet)
     ++ BigEndian.PutUint32 (ntpcore.XmitTimeFrac packet))%list
  = slice data 40 48.
Proof.
  intros Hparse.
  destruct (Nat.lt_ge_cases (List.length data) 48) as [Hlt|Hge].
  - rewrite ParsePacket_short in Hparse by assumption. discriminate.
  - do 48 (destruct data as [|? data]; [cbn in Hge; lia|]).
    rewrite ParsePacket_cons48 in Hparse.
    apply (f_equal (fun r => match r with Ok p => p | Err _ => packet end)) in Hparse.
    cbv beta iota in Hparse. subst packet.
    cbn [ntpcore.XmitTimeSec ntpcore.XmitTimeFrac].
    rewrite !PutUint32_Uint32. reflexivity.
Qed.

Lemma Bytes_origin_slice (p : ntpcore.NTPPacket) :
  slice (ntpcore.Bytes p) 24 32
  = (BigEndian.PutUint32 (ntpcore.OrigTimeSec p)
       ++ BigEndian.PutUint32 (ntpcore.OrigTimeFrac p))%list.
Proof. reflexivity. Qed.

(** C1.  For every valid client request (mode 3, version 3 or 4) the
    response built by the request engine has mode 4, the version of the
    request, and as origin timestamp the transmit timestamp of the request,
    copied field for field: bytes 24..31 of the serialised response are
    bytes 40..47 of the request datagram.  With no attack active this
    response is the datagram sent. *)
Theorem C1_response_echoes_request (s : server.Server) (env : server.Env)
    (data : list Byte.byte) (clientStr : string) (packet : ntpcore.NTPPacket) :
  ntpcore.ParsePacket data = Ok packet ->
  ntpcore.IsValidClientRequest packet = true ->
  let r := server.buildResponse s env packet in
  ntpcore.Mode r = 4
  /\ ntpcore.Version r = ntpcore.Version packet
  /\ (ntpcore.Version r = 3 \/ ntpcore.Version r = 4)
  /\ ntpcore.OrigTimeSec r = ntpcore.XmitTimeSec packet
  /\ ntpcore.OrigTimeFrac r = ntpcore.XmitTimeFrac packet
  /\ slice (ntpcore.Bytes r) 24 32 = slice data 40 48
  /\ (no_attack (server.attackEngine s) ->
      snd (server.processRequest s env data clientStr) = Some (ntpcore.Bytes r)).
Proof.
  intros Hparse Hvalid r.
  destruct (buildResponse_header s env packet)
    as (_ & Hv & Hm & _ & _ & _ & _ & Hos & Hof).
  fold r in Hv, Hm, Hos, Hof.
  pose proof (proj1 (IsValidClientRequest_spec packet) Hvalid) as [_ Hver].
  split; [exact Hm|]. split; [exact Hv|].
  split; [rewrite Hv; exact Hver|].
  split; [exact Hos|]. split; [exact Hof|]. split.
  - rewrite Bytes_origin_slice, Hos, Hof. apply parse_transmit_bytes, Hparse.
  - intros Hno. apply processRequest_no_attack; assumption.
Qed.

Lemma sample_datagram_parses : ntpcore.ParsePacket sample_datagram = Ok sample_packet.
Proof. vm_compute. reflexivity. Qed.

Lemma C1_response_echoes_request_witness :
  let r := server.buildResponse (sample_server security_off) (sample_env []) sample_packet in
  ntpcore.Mode r = 4
  /\ ntpcore.Version r = ntpcore.Version sample_packet
  /\ (ntpcore.Version r = 3 \/ ntpcore.Version r = 4)
  /\ ntpcore.OrigTimeSec r = ntpcore.XmitTimeSec sample_packet
  /\ ntpcore.OrigTimeFrac r = ntpcore.XmitTimeFrac sample_packet
  /\ slice (ntpcore.Bytes r) 24 32 = slice sample_datagram 40 48
  /\ (no_attack (server.attackEngine (sample_server security_off)) ->
      snd (server.processRequest (sample_server security_off) (sample_env [])
             sample_datagram sample_client) = Some (ntpcore.Bytes r)).
Proof.
  apply (C1_response_echoes_request (sample_server security_off) (sample_env [])
           sample_datagram sample_client sample_packet).
  - exact sample_datagram_parses.
  - reflexivity.
Defined.

(** The whole exchange on the sample request, with security mode off: the
    48 bytes sent. *)
Example sample_exchange :
  snd (server.processRequest (sample_server security_off) (sample_env [])
         sample_datagram sample_client)
  = Some ([Byte.x24; Byte.x10; Byte.x06; Byte.xec;
           Byte.x00; Byte.x00; Byte.x00; Byte.x00;
           Byte.x00; Byte.x00; Byte.x02; Byte.x8f;
           Byte.x00; Byte.x00; Byte.x00; Byte.x00;
           Byte.xe8; Byte.xfe; Byte.x6f; Byte.x7f; Byte.x00; Byte.x00; Byte.x00; Byte.x04;
           Byte.xe2; Byte.xa1; Byte.xb2; Byte.xc3; Byte.x00; Byte.x00; Byte.x00; Byte.x00;
           Byte.xe8; Byte.xfe; Byte.x6f; Byte.x80; Byte.x00; Byte.x00; Byte.x00; Byte.x04;
           Byte.xe8; Byte.xfe; Byte.x6f; Byte.x80; Byte.x00; Byte.x00; Byte.x00; Byte.x04]).
Proof. vm_compute. reflexivity. Qed.

(** ** The upstream tracker's readers *)

Lemma GetStratum_unsynchronized (c : ntp.UpstreamClient) :
  ntp.Synchronized (ntp.syncStatus c) = false -> ntp.GetStratum c = 16.
Proof. intros H. unfold ntp.GetStratum. rewrite H. reflexivity. Qed.

Lemma GetStratum_range (c : ntp.UpstreamClient) :
  is_uint8 (ntp.Stratum (ntp.syncStatus c)) -> 1 <= ntp.GetStratum c <= 16.
Proof.
  unfold is_uint8, ntp.GetStratum. intros H.
  destruct (ntp.Synchronized (ntp.syncStatus c)); cbn [negb]; [|lia].
  assert (E : int64 (ntp.Stratum (ntp.syncStatus c) + 1) = ntp.Stratum (ntp.syncStatus c) + 1).
  { unfold int64. Z.div_mod_to_equations; lia. }
  rewrite E. unfold uint8.
  destruct (Z.gtb_spec (ntp.Stratum (ntp.syncStatus c) + 1) 15);
    Z.div_mod_to_equations; lia.
Qed.

(** C5 (as amended).  When the upstream tracker reports unsynchronized and
    no attack is active, the response sent for a valid request has stratum
    16; its leap indicator is 0 (no warning), the value [NewPacket] gives
    it, since the builder never sets it. *)
Theorem C5_unsynchronized_response (s : server.Server) (env : server.Env)
    (data : list Byte.byte) (clientStr : string) (packet : ntpcore.NTPPacket) :
  ntp.Synchronized (ntp.syncStatus (server.upstream s)) = false ->
  ntpcore.ParsePacket data = Ok packet ->
  ntpcore.IsValidClientRequest packet = true ->
  no_attack (server.attackEngine s) ->
  let r := server.buildResponse s env packet in
  snd (server.processRequest s env data clientStr) = Some (ntpcore.Bytes r)
  /\ ntpcore.Stratum r = 16
  /\ ntpcore.LeapIndicator r = ntpcore.LeapNoWarning
  /\ ntpcore.ReferenceID r = 0.
Proof.
  intros Hunsync Hparse Hvalid Hno r.
  destruct (buildResponse_header s env packet)
    as (Hli & _ & _ & Hst & _ & _ & Hid & _).
  fold r in Hli, Hst, Hid.
  split; [apply processRequest_no_attack; assumption|].
  split; [rewrite Hst; apply GetStratum_unsynchronized, Hunsync|].
  split; [exact Hli|].
  rewrite Hid. unfold ntp.GetReferenceID. rewrite Hunsync. reflexivity.
Qed.

Lemma C5_unsynchronized_response_witness :
  let r := server.buildResponse (sample_server security_off) (sample_env []) sample_packet in
  snd (server.processRequest (sample_server security_off) (sample_env [])
         sample_datagram sample_client) = Some (ntpcore.Bytes r)
  /\ ntpcore.Stratum r = 16
  /\ ntpcore.LeapIndicator r = ntpcore.LeapNoWarning
  /\ ntpcore.ReferenceID r = 0.
Proof.
  apply (C5_unsynchronized_response (sample_server security_off) (sample_env [])
           sample_datagram sample_client sample_packet).
  - reflexivity.
  - exact sample_datagram_parses.
  - reflexivity.
  - left. reflexivity.
Defined.

(** The claim as stated fails on a freshly started server (upstream
    unsynchronized, security mode off) answering the sample request: the
    response sent has stratum 16 but leap indicator 0, not 3. *)
Lemma C5_counterexample :
  let s := sample_server security_off in
  let r := server.buildResponse s (sample_env []) sample_packet in
  ntp.Synchronized (ntp.syncStatus (server.upstream s)) = false
  /\ attacks.IsEnabled (server.attackEngine s) = false
  /\ snd (server.processRequest s (sample_env []) sample_datagram sample_client)
     = Some (ntpcore.Bytes r)
  /\ ntpcore.ParsePacket (ntpcore.Bytes r) = Ok r
  /\ ntpcore.Stratum r = 16
  /\ ntpcore.LeapIndicator r = 0
  /\ ~ (ntpcore.Stratum r = 16 /\ ntpcore.LeapIndicator r = 3).
Proof.
  cbv zeta.
  split; [reflexivity|]. split; [reflexivity|].
  split; [vm_compute; reflexivity|]. split; [vm_compute; reflexivity|].
  split; [reflexivity|]. split; [reflexivity|].
  intros [_ H]. vm_compute in H. discriminate H.
Qed.

(** ** The attack engine: dispatch *)

Ltac eval_string_eqb :=
  repeat match goal with
         | |- context [String.eqb ?a ?b] =>
             let v := eval vm_compute in (String.eqb a b) in
             change (String.eqb a b) with v
         end;
  cbv beta iota.

Lemma ProcessPacket_disabled (env : attacks.Env) (e : attacks.AttackEngine)
    (packet : ntpcore.NTPPacket) (clientAddr : string) (realTime : time.Time) :
  attacks.IsEnabled e = false ->
  attacks.ProcessPacket env e packet clientAddr realTime = (e, packet, "").
Proof.
  unfold attacks.IsEnabled, attacks.ProcessPacket. intros ->. reflexivity.
Qed.

Lemma applyTimeDrift_requestCount (env : attacks.Env) (e : attacks.AttackEngine)
    (packet : ntpcore.NTPPacket) (realTime : time.Time) :
  attacks.requestCount (fst (fst (attacks.applyTimeDrift env e packet realTime)))
  = attacks.requestCount e.
Proof.
  unfold attacks.applyTimeDrift.
  destruct (config.TimeDriftConfig.Enabled _); reflexivity.
Qed.

Lemma ProcessPacket_requestCount (env : attacks.Env) (e : attacks.AttackEngine)
    (packet : ntpcore.NTPPacket) (clientAddr : string) (realTime : time.Time) :
  attacks.IsEnabled e = true ->
  attacks.requestCount (fst (fst (attacks.ProcessPacket env e packet clientAddr realTime)))
  = <[clientAddr := int64 (default 0 (attacks.requestCount e !! clientAddr) + 1)]>
      (attacks.requestCount e).
Proof.
  unfold attacks.IsEnabled, attacks.ProcessPacket. intros ->. cbn [negb attacks.cfg].
  repeat match goal with
         | |- context [if String.eqb ?a ?b then _ else _] => destruct (String.eqb a b)
         end;
    try rewrite applyTimeDrift_requestCount;
    repeat match goal with
           | |- context [let '(_, _) := ?x in _] => destruct x
           end;
    reflexivity.
Qed.

(** C9 (as amended).  On every call of [ProcessPacket] made while security
    mode is enabled, for every client endpoint and every active attack, the
    counter of that endpoint is incremented by exactly one (in Go's [int];
    a missing entry counts as 0) and no other counter changes. *)
Theorem C9_request_count_incremented (env : attacks.Env) (e : attacks.AttackEngine)
    (packet : ntpcore.NTPPacket) (clientAddr : string) (realTime : time.Time) :
  attacks.IsEnabled e = true ->
  let e' := fst (fst (attacks.ProcessPacket env e packet clientAddr realTime)) in
  let old := default 0 (attacks.requestCount e !! clientAddr) in
  attacks.requestCount e' !! clientAddr = Some (int64 (old + 1))
  /\ (float64.min_int64 <= old < float64.max_int64 ->
      attacks.requestCount e' !! clientAddr = Some (old + 1))
  /\ (forall other : string, other <> clientAddr ->
      attacks.requestCount e' !! other = attacks.requestCount e !! other).
Proof.
  intros Hen e' old. subst e'.
  rewrite ProcessPacket_requestCount by assumption. fold old.
  split; [apply lookup_insert_eq|]. split.
  - intros Hr. rewrite lookup_insert_eq. f_equal.
    unfold float64.min_int64, float64.max_int64 in Hr. unfold int64.
    Z.div_mod_to_equations; lia.
  - intros other Hne. apply lookup_insert_ne. congruence.
Qed.

Lemma C9_request_count_incremented_witness :
  let e := sample_engine (security true "" false 1 "y2k38" "DENY") in
  let e' := fst (fst (attacks.ProcessPacket (sample_attack_env []) e sample_packet
                        sample_client sample_now)) in
  let old := default 0 (attacks.requestCount e !! sample_client) in
  attacks.requestCount e' !! sample_client = Some (int64 (old + 1))
  /\ (float64.min_int64 <= old < float64.max_int64 ->
      attacks.requestCount e' !! sample_client = Some (old + 1))
  /\ (forall other : string, other <> sample_client ->
      attacks.requestCount e' !! other = attacks.requestCount e !! other).
Proof.
  apply (C9_request_count_incremented (sample_attack_env [])
           (sample_engine (security true "" false 1 "y2k38" "DENY"))
           sample_packet sample_client sample_now).
  reflexivity.
Defined.

(** The claim as stated fails when security mode is disabled: the call
    returns before the counter is touched. *)
Lemma C9_counterexample :
  let e := sample_engine security_off in
  let e' := fst (fst (attacks.ProcessPacket (sample_attack_env []) e sample_packet
                        sample_client sample_now)) in
  e' = e
  /\ default 0 (attacks.requestCount e' !! sample_client)
     <> default 0 (attacks.requestCount e !! sample_client) + 1.
Proof.
  cbv zeta. rewrite ProcessPacket_disabled by reflexivity. cbn [fst].
  split; [reflexivity|]. lia.
Qed.

(** ** Stratum lie *)

(** C7 (as amended).  For every enabled stratum attack the mutated
    response's stratum is [fake_stratum] converted to [uint8] (its low
    eight bits): it equals [fake_stratum] whenever that is within 0..255,
    in particular within 0..15, and no clamping takes place.  When
    [fake_stratum] is 1 the reference ID is the ASCII bytes "GPS\0";
    otherwise it is left as it was. *)
Theorem C7_stratum_lie (env : attacks.Env) (e : attacks.AttackEngine)
    (packet : ntpcore.NTPPacket) (clientAddr : string) (realTime : time.Time) :
  attacks.IsEnabled e = true ->
  attacks.GetActiveAttack e = attacks.AttackStratumLie ->
  config.StratumAttackConfig.Enabled
    (config.StratumAttack (config.Security (attacks.cfg e))) = true ->
  let fake := config.StratumAttackConfig.FakeStratum
                (config.StratumAttack (config.Security (attacks.cfg e))) in
  let out := attacks.ProcessPacket env e packet clientAddr realTime in
  let p' := snd (fst out) in
  ntpcore.Stratum p' = fake mod 256
  /\ (0 <= fake <= 255 -> ntpcore.Stratum p' = fake)
  /\ (fake = 1 ->
      ntpcore.ReferenceID p' = 1196446464
      /\ BigEndian.PutUint32 (ntpcore.ReferenceID p')
         = [Byte.x47; Byte.x50; Byte.x53; Byte.x00])
  /\ (fake <> 1 -> ntpcore.ReferenceID p' = ntpcore.ReferenceID packet)
  /\ snd out = ("Stratum Lie (" ++ itoa fake ++ ")")%string.
Proof.
  intros Hen Hact Hon fake out p'. subst p' out.
  unfold attacks.IsEnabled in Hen. unfold attacks.GetActiveAttack in Hact.
  unfold attacks.ProcessPacket. rewrite Hen. cbn [negb attacks.cfg]. rewrite Hact.
  eval_string_eqb.
  unfold attacks.applyStratumLie. cbn [attacks.cfg]. rewrite Hon. cbn [negb].
  fold fake. cbn [fst snd].
  destruct (Z.eqb_spec fake 1) as [E|E].
  - cbn [ntpcore.set_ReferenceID ntpcore.set_Stratum ntpcore.Stratum ntpcore.ReferenceID].
    split; [reflexivity|]. split; [intros; unfold uint8; apply Z.mod_small; lia|].
    split; [intros _; split; vm_compute; reflexivity|].
    split; [intros Hne; contradiction | reflexivity].
  - cbn [ntpcore.set_ReferenceID ntpcore.set_Stratum ntpcore.Stratum ntpcore.ReferenceID].
    split; [reflexivity|]. split; [intros; unfold uint8; apply Z.mod_small; lia|].
    split; [intros H1; contradiction|].
    split; [intros _; reflexivity | reflexivity].
Qed.

Lemma C7_stratum_lie_witness :
  let e := sample_engine (security true "stratum_attack" true 1 "y2k38" "DENY") in
  let fake := config.StratumAttackConfig.FakeStratum
                (config.StratumAttack (config.Security (attacks.cfg e))) in
  let out := attacks.ProcessPacket (sample_attack_env []) e sample_packet
               sample_client sample_now in
  let p' := snd (fst out) in
  ntpcore.Stratum p' = fake mod 256
  /\ (0 <= fake <= 255 -> ntpcore.Stratum p' = fake)
  /\ (fake = 1 ->
      ntpcore.ReferenceID p' = 1196446464
      /\ BigEndian.PutUint32 (ntpcore.ReferenceID p')
         = [Byte.x47; Byte.x50; Byte.x53; Byte.x00])
  /\ (fake <> 1 -> ntpcore.ReferenceID p' = ntpcore.ReferenceID sample_packet)
  /\ snd out = ("Stratum Lie (" ++ itoa fake ++ ")")%string.
Proof.
  apply (C7_stratum_lie (sample_attack_env [])
           (sample_engine (security true "stratum_attack" true 1 "y2k38" "DENY"))
           sample_packet sample_client sample_now); reflexivity.
Defined.

(** The claim as stated fails for [fake_stratum] 16: the response carries
    stratum 16, not 16 clamped to 0..15. *)
Lemma C7_counterexample :
  let e := sample_engine (security true "stratum_attack" true 16 "y2k38" "DENY") in
  let p' := snd (fst (attacks.ProcessPacket (sample_attack_env []) e sample_packet
                        sample_client sample_now)) in
  config.StratumAttackConfig.FakeStratum
    (config.StratumAttack (config.Security (attacks.cfg e))) = 16
  /\ ntpcore.Stratum p' = 16
  /\ clamp_0_15 16 = 15
  /\ ntpcore.Stratum p' <> clamp_0_15 16.
Proof.
  cbv zeta. split; [reflexivity|]. split; [vm_compute; reflexivity|].
  split; [reflexivity|]. vm_compute. discriminate.
Qed.

(** ** Rollover *)

Lemma y2k38_unix : y2k38 = time.mkTime 2147483647 0.
Proof. vm_compute. reflexivity. Qed.

Lemma y2k38_timestamp :
  ntpcore.TimeToNTPTimestamp y2k38 = ntpcore.mkTimestamp 61505151 0.
Proof. vm_compute. reflexivity. Qed.

Lemma y2k38_reference_timestamp :
  ntpcore.TimeToNTPTimestamp (time.Add y2k38 (- time.Second))
  = ntpcore.mkTimestamp 61505150 0.
Proof. vm_compute. reflexivity. Qed.

Lemma y2k38_decoded :
  ntpcore.NTPTimestampToTime (ntpcore.mkTimestamp 61505151 0) = y2k38_era0.
Proof. vm_compute. reflexivity. Qed.

(** C8 (as amended).  When the rollover attack is enabled with mode
    [y2k38], the instant 2038-01-19T03:14:07Z is applied as a time-spoofing
    mutation: receive and transmit timestamps are its NTP encoding cut to
    32 bits, seconds [(2147483647 + 2208988800) mod 2^32 = 61505151] and
    fraction 0, and the reference timestamp is one second earlier.  Decoded
    by [NTPTimestampToTime], which reads every timestamp in era 0, the
    transmit timestamp is 1901-12-13T20:45:51Z, exactly 2^32 seconds before
    2038-01-19T03:14:07Z. *)
Theorem C8_rollover_y2k38 (env : attacks.Env) (e : attacks.AttackEngine)
    (packet : ntpcore.NTPPacket) (clientAddr : string) (realTime : time.Time) :
  attacks.IsEnabled e = true ->
  attacks.GetActiveAttack e = attacks.AttackRollover ->
  config.RolloverConfig.Enabled (config.Rollover (config.Security (attacks.cfg e))) = true ->
  config.RolloverConfig.Mode (config.Rollover (config.Security (attacks.cfg e))) = "y2k38" ->
  let out := attacks.ProcessPacket env e packet clientAddr realTime in
  let p' := snd (fst out) in
  p' = attacks.setTimes packet y2k38
  /\ ntpcore.XmitTimeSec p' = uint32 (time.unixSec y2k38 + ntpcore.NTPEpochOffset)
  /\ ntpcore.XmitTimeSec p' = 61505151 /\ ntpcore.XmitTimeFrac p' = 0
  /\ ntpcore.RecvTimeSec p' = 61505151 /\ ntpcore.RecvTimeFrac p' = 0
  /\ ntpcore.RefTimeSec p' = 61505150 /\ ntpcore.RefTimeFrac p' = 0
  /\ ntpcore.GetTransmitTime p' = y2k38_era0
  /\ time.Sub y2k38 (ntpcore.GetTransmitTime p') = 4294967296 * time.Second
  /\ snd out = "Rollover (Y2K38 (Unix 32-bit overflow))".
Proof.
  intros Hen Hact Hon Hmode out p'. subst p' out.
  unfold attacks.IsEnabled in Hen. unfold attacks.GetActiveAttack in Hact.
  unfold attacks.ProcessPacket. rewrite Hen. cbn [negb attacks.cfg]. rewrite Hact.
  eval_string_eqb.
  unfold attacks.applyRollover. cbn [attacks.cfg]. rewrite Hon, Hmode. cbn [negb].
  eval_string_eqb. cbn [fst snd]. fold y2k38.
  split; [reflexivity|].
  unfold attacks.setTimes, ntpcore.SetReferenceTime, ntpcore.SetTransmitTime,
    ntpcore.SetReceiveTime, ntpcore.GetTransmitTime.
  rewrite y2k38_timestamp, y2k38_reference_timestamp.
  cbn [ntpcore.XmitTimeSec ntpcore.XmitTimeFrac ntpcore.RecvTimeSec ntpcore.RecvTimeFrac
       ntpcore.RefTimeSec ntpcore.RefTimeFrac ntpcore.Seconds ntpcore.Fraction].
  rewrite y2k38_decoded.
  repeat (split; [vm_compute; reflexivity|]). reflexivity.
Qed.

Lemma C8_rollover_y2k38_witness :
  let e := sample_engine (security true "rollover" true 1 "y2k38" "DENY") in
  let out := attacks.ProcessPacket (sample_attack_env []) e sample_packet
               sample_client sample_now in
  let p' := snd (fst out) in
  p' = attacks.setTimes sample_packet y2k38
  /\ ntpcore.XmitTimeSec p' = uint32 (time.unixSec y2k38 + ntpcore.NTPEpochOffset)
  /\ ntpcore.XmitTimeSec p' = 61505151 /\ ntpcore.XmitTimeFrac p' = 0
  /\ ntpcore.RecvTimeSec p' = 61505151 /\ ntpcore.RecvTimeFrac p' = 0
  /\ ntpcore.RefTimeSec p' = 61505150 /\ ntpcore.RefTimeFrac p' = 0
  /\ ntpcore.GetTransmitTime p' = y2k38_era0
  /\ time.Sub y2k38 (ntpcore.GetTransmitTime p') = 4294967296 * time.Second
  /\ snd out = "Rollover (Y2K38 (Unix 32-bit overflow))".
Proof.
  apply (C8_rollover_y2k38 (sample_attack_env [])
           (sample_engine (security true "rollover" true 1 "y2k38" "DENY"))
           sample_packet sample_client sample_now); reflexivity.
Defined.

(** The claim as stated fails: decoded by [NTPTimestampToTime] the
    transmit timestamp of the mutated response is 1901-12-13T20:45:51Z
    (Unix time -2147483649), not 2038-01-19T03:14:07Z (Unix time
    2147483647). *)
Lemma C8_counterexample :
  let e := sample_engine (security true "rollover" true 1 "y2k38" "DENY") in
  let p' := snd (fst (attacks.ProcessPacket (sample_attack_env []) e sample_packet
                        sample_client sample_now)) in
  ntpcore.GetTransmitTime p' = time.mkTime (-2147483649) 0
  /\ time.Date 2038 1 19 3 14 7 0 = time.mkTime 2147483647 0
  /\ ntpcore.GetTransmitTime p' <> time.Date 2038 1 19 3 14 7 0.
Proof.
  cbv zeta. split; [vm_compute; reflexivity|]. split; [vm_compute; reflexivity|].
  vm_compute. discriminate.
Qed.

(** ** Stratum 0 in outgoing packets *)

Lemma setTimes_header (p : ntpcore.NTPPacket) (t : time.Time) :
  ntpcore.Stratum (attacks.setTimes p t) = ntpcore.Stratum p
  /\ ntpcore.LeapIndicator (attacks.setTimes p t) = ntpcore.LeapIndicator p
  /\ ntpcore.ReferenceID (attacks.setTimes p t) = ntpcore.ReferenceID p.
Proof. repeat split. Qed.

Lemma code_of_length_4 (code : string) :
  String.length code = 4%nat ->
  exists a b c d, list_byte_of_string code = [a; b; c; d].
Proof.
  destruct code as [|a [|b [|c [|d [|? ?]]]]]; try discriminate.
  intros _. do 4 eexists. reflexivity.
Qed.

Lemma applyKissOfDeath_stratum (e : attacks.AttackEngine) (packet : ntpcore.NTPPacket)
    (clientAddr : string) (count : Z) :
  ntpcore.Stratum packet <> 0 ->
  let p' := fst (attacks.applyKissOfDeath e packet clientAddr count) in
  let code := config.KissOfDeathConfig.Code
                (config.KissOfDeath (config.Security (attacks.cfg e))) in
  ntpcore.Stratum p' = 0 ->
  ntpcore.LeapIndicator p' = ntpcore.LeapAlarm
  /\ BigEndian.PutUint32 (ntpcore.ReferenceID p')
     = list_byte_of_string (kod_code_sent code).
Proof.
  intros Hst p' code. subst p'. unfold attacks.applyKissOfDeath. fold code.
  destruct (config.KissOfDeathConfig.Enabled _); cbn [negb];
    [|intros H; contradiction].
  destruct (_ && _); [intros H; contradiction|].
  intros _. unfold ntpcore.SetKissOfDeathCode, kod_code_sent.
  destruct (Nat.eqb_spec (String.length code) 4) as [E|E].
  - rewrite E. cbn [Z.of_nat Pos.of_succ_nat Pos.succ Z.eqb Pos.eqb negb fst].
    split; [reflexivity|].
    destruct (code_of_length_4 code E) as (a & b & c & d & ->).
    cbn [ntpcore.ReferenceID ntpcore.set_ReferenceID]. apply PutUint32_Uint32.
  - destruct (Z.eqb_spec (Z.of_nat (String.length code)) 4) as [E'|E']; [lia|].
    cbn [negb fst]. split; vm_compute; reflexivity.
Qed.

(** C6 (as amended).  For every outgoing packet produced from a built
    response while the active attack is neither [fuzzing] nor
    [stratum_attack], stratum 0 implies that the leap indicator is 3
    (alarm) and that the reference ID holds the four bytes of the
    Kiss-of-Death code: the configured code if it has four bytes, "DENY"
    otherwise. *)
Theorem C6_stratum_zero_is_kod (s : server.Server) (env : server.Env)
    (packet : ntpcore.NTPPacket) (clientStr : string) :
  is_uint8 (ntp.Stratum (ntp.syncStatus (server.upstream s))) ->
  attacks.GetActiveAttack (server.attackEngine s) <> attacks.AttackFuzzing ->
  attacks.GetActiveAttack (server.attackEngine s) <> attacks.AttackStratumLie ->
  let p' := snd (fst (attacks.ProcessPacket (server.attackEnv env) (server.attackEngine s)
                        (server.buildResponse s env packet) clientStr
                        (ntp.GetCurrentTime (server.upstream s) (server.now_upstream env)))) in
  let code := config.KissOfDeathConfig.Code
                (config.KissOfDeath (config.Security (attacks.cfg (server.attackEngine s)))) in
  ntpcore.Stratum p' = 0 ->
  ntpcore.LeapIndicator p' = 3
  /\ BigEndian.PutUint32 (ntpcore.ReferenceID p')
     = list_byte_of_string (kod_code_sent code).
Proof.
  intros Hup Hnf Hnl p' code. subst p'.
  set (r := server.buildResponse s env packet).
  set (t := ntp.GetCurrentTime _ _).
  assert (Hr : ntpcore.Stratum r <> 0).
  { destruct (buildResponse_header s env packet) as (_ & _ & _ & Hst & _).
    fold r in Hst. rewrite Hst. pose proof (GetStratum_range _ Hup). lia. }
  unfold attacks.GetActiveAttack in Hnf, Hnl.
  unfold attacks.ProcessPacket.
  destruct (config.Enabled _); cbn [negb]; [|intros H; contradiction].
  cbn [attacks.cfg].
  destruct (String.eqb_spec (config.ActiveAttack (config.Security (attacks.cfg (server.attackEngine s))))
              attacks.AttackTimeSpoofing) as [_|_].
  { unfold attacks.applyTimeSpoofing.
    destruct (config.TimeSpoofingConfig.Enabled _); cbn [negb fst snd];
      intros H; contradiction. }
  destruct (String.eqb_spec (config.ActiveAttack (config.Security (attacks.cfg (server.attackEngine s))))
              attacks.AttackTimeDrift) as [_|_].
  { unfold attacks.applyTimeDrift.
    destruct (config.TimeDriftConfig.Enabled _); cbn [negb fst snd];
      intros H; contradiction. }
  destruct (String.eqb_spec (config.ActiveAttack (config.Security (attacks.cfg (server.attackEngine s))))
              attacks.AttackKissOfDeath) as [_|_].
  { match goal with
    | |- context [attacks.applyKissOfDeath ?e ?p ?c ?n] =>
        pose proof (applyKissOfDeath_stratum e p c n Hr) as Hk;
        destruct (attacks.applyKissOfDeath e p c n) as [q name]
    end.
    cbn [fst snd attacks.cfg] in *. exact Hk. }
  destruct (String.eqb_spec (config.ActiveAttack (config.Security (attacks.cfg (server.attackEngine s))))
              attacks.AttackStratumLie) as [E|_]; [contradiction|].
  destruct (String.eqb_spec (config.ActiveAttack (config.Security (attacks.cfg (server.attackEngine s))))
              attacks.AttackLeapSecond) as [_|_].
  { unfold attacks.applyLeapSecond.
    destruct (config.LeapSecondConfig.Enabled _); cbn [negb fst snd];
      intros H; contradiction. }
  destruct (String.eqb_spec (config.ActiveAttack (config.Security (attacks.cfg (server.attackEngine s))))
              attacks.AttackRollover) as [_|_].
  { unfold attacks.applyRollover.
    destruct (config.RolloverConfig.Enabled _); cbn [negb fst snd];
      [|intros H; contradiction].
    repeat match goal with
           | |- context [if String.eqb ?a ?b then _ else _] => destruct (String.eqb a b)
           end; cbn [fst snd]; intros H; contradiction. }
  destruct (String.eqb_spec (config.ActiveAttack (config.Security (attacks.cfg (server.attackEngine s))))
              attacks.AttackClockStep) as [_|_].
  { unfold attacks.applyClockStep.
    destruct (config.ClockStepConfig.Enabled _); cbn [negb fst snd];
      [|intros H; contradiction].
    destruct (_ && _); cbn [fst snd]; intros H; contradiction. }
  destruct (String.eqb_spec (config.ActiveAttack (config.Security (attacks.cfg (server.attackEngine s))))
              attacks.AttackFuzzing) as [E|_]; [contradiction|].
  cbn [fst snd]. intros H; contradiction.
Qed.

Lemma C6_stratum_zero_is_kod_witness :
  let s := sample_server (security true "kiss_of_death" true 1 "y2k38" "RATE") in
  let env := sample_env [] in
  let p' := snd (fst (attacks.ProcessPacket (server.attackEnv env) (server.attackEngine s)
                        (server.buildResponse s env sample_packet) sample_client
                        (ntp.GetCurrentTime (server.upstream s) (server.now_upstream env)))) in
  let code := config.KissOfDeathConfig.Code
                (config.KissOfDeath (config.Security (attacks.cfg (server.attackEngine s)))) in
  ntpcore.LeapIndicator p' = 3
  /\ BigEndian.PutUint32 (ntpcore.ReferenceID p')
     = list_byte_of_string (kod_code_sent code).
Proof.
  apply (C6_stratum_zero_is_kod
           (sample_server (security true "kiss_of_death" true 1 "y2k38" "RATE"))
           (sample_env []) sample_packet sample_client).
  - unfold is_uint8. cbn. lia.
  - vm_compute. discriminate.
  - vm_compute. discriminate.
  - vm_compute. reflexivity.
Defined.

(** The Kiss-of-Death attack on the sample request: stratum 0, leap
    indicator 3 and the code in bytes 12..15 of the datagram sent. *)
Example kiss_of_death_exchange :
  let s := sample_server (security true "kiss_of_death" true 1 "y2k38" "RATE") in
  match snd (server.processRequest s (sample_env []) sample_datagram sample_client) with
  | Some sent =>
      firstn 2 sent = [Byte.xe4; Byte.x00]
      /\ slice sent 12 16 = list_byte_of_string "RATE"
  | None => False
  end.
Proof. vm_compute. split; reflexivity. Qed.

(** The claim as stated fails under the fuzzing attack: when the generator
    draws mutation 2 and then 17, the stratum is set to 0 ("KoD without
    code" in the source) while the leap indicator stays 0 and the reference
    ID stays 0, and this packet is the datagram sent. *)
Lemma C6_counterexample :
  let s := sample_server (security true "fuzzing" true 1 "y2k38" "DENY") in
  let env := sample_env [2; 17] in
  let p' := snd (fst (attacks.ProcessPacket (server.attackEnv env) (server.attackEngine s)
                        (server.buildResponse s env sample_packet) sample_client
                        (ntp.GetCurrentTime (server.upstream s) (server.now_upstream env)))) in
  snd (server.processRequest s env sample_datagram sample_client)
  = Some (ntpcore.Bytes p')
  /\ ntpcore.Stratum p' = 0
  /\ ntpcore.LeapIndicator p' = 0
  /\ ntpcore.ReferenceID p' = 0
  /\ ~ (ntpcore.Stratum p' = 0 -> ntpcore.LeapIndicator p' = 3).
Proof.
  cbv zeta.
  split; [vm_compute; reflexivity|]. split; [vm_compute; reflexivity|].
  split; [vm_compute; reflexivity|]. split; [vm_compute; reflexivity|].
  intros H. assert (H0 : 0 = 3); [|discriminate H0].
  etransitivity; [symmetry|apply H]; vm_compute; reflexivity.
Qed.

(** The stratum attack with [fake_stratum] 0 also sends stratum 0 with the
    leap indicator and the reference ID as built. *)
Example stratum_lie_zero :
  let s := sample_server (security true "stratum_attack" true 0 "y2k38" "DENY") in
  let env := sample_env [] in
  let p' := snd (fst (attacks.ProcessPacket (server.attackEnv env) (server.attackEngine s)
                        (server.buildResponse s env sample_packet) sample_client
                        (ntp.GetCurrentTime (server.upstream s) (server.now_upstream env)))) in
  ntpcore.Stratum p' = 0 /\ ntpcore.LeapIndicator p' = 0 /\ ntpcore.ReferenceID p' = 0.
Proof. vm_compute. repeat split. Qed.

(** ** binary64 arithmetic

    The facts about [SpecFloat]'s rounding that the timestamp conversions
    need: significands of 53 digits, exact results, and the half-unit
    bound of a rounded quotient. *)

Lemma digits2_pos_size (p : positive) : digits2_pos p = Pos.size p.
Proof. induction p; cbn; congruence. Qed.

Lemma Zdigits2_bounds (p : positive) :
  2 ^ (Zpos (digits2_pos p) - 1) <= Zpos p < 2 ^ Zpos (digits2_pos p).
Proof.
  rewrite digits2_pos_size.
  pose proof (Pos.size_gt p) as Hgt. pose proof (Pos.size_le p) as Hle.
  assert (Hgt' : Zpos p < 2 ^ Zpos (Pos.size p)).
  { change 2 with (Zpos 2). rewrite <- Pos2Z.inj_pow. exact Hgt. }
  assert (Hle' : 2 ^ Zpos (Pos.size p) <= 2 * Zpos p).
  { change 2 with (Zpos 2) at 1. rewrite <- Pos2Z.inj_pow. exact Hle. }
  split; [|exact Hgt'].
  replace (Zpos (Pos.size p)) with (Z.succ (Zpos (Pos.size p) - 1)) in Hle' by lia.
  rewrite Z.pow_succ_r in Hle' by lia. lia.
Qed.

Lemma Zdigits2_unique (z d : Z) :
  2 ^ (d - 1) <= z < 2 ^ d -> 0 < d -> Zdigits2 z = d.
Proof.
  intros [Hlo Hhi] Hd.
  assert (Hz : 0 < z) by (pose proof (Z.pow_pos_nonneg 2 (d - 1)); lia).
  destruct z as [|p|p]; try lia. cbn [Zdigits2].
  pose proof (Zdigits2_bounds p) as [Blo Bhi].
  set (k := Zpos (digits2_pos p)) in *.
  destruct (Z.lt_trichotomy k d) as [Hlt|[Heq|Hgt]]; [|exact Heq|].
  - assert (2 ^ k <= 2 ^ (d - 1)) by (apply Z.pow_le_mono_r; lia). lia.
  - assert (2 ^ d <= 2 ^ (k - 1)) by (apply Z.pow_le_mono_r; lia). lia.
Qed.

Lemma pos_iter_xO (p k : positive) : Zpos (Pos.iter xO p k) = Zpos p * 2 ^ Zpos k.
Proof.
  induction k as [|k IH] using Pos.peano_ind.
  - cbn. lia.
  - rewrite Pos.iter_succ, Pos2Z.inj_xO, IH, Pos2Z.inj_succ, Z.pow_succ_r by lia. lia.
Qed.

Lemma iter_pos_nat {A : Type} (f : A -> A) (p : positive) (x : A) :
  iter_pos f p x = Nat.iter (Pos.to_nat p) f x.
Proof.
  revert x. induction p as [p IH|p IH|]; intros x; cbn [iter_pos].
  - rewrite !IH, Pos2Nat.inj_xI.
    replace (S (2 * Pos.to_nat p)) with (Pos.to_nat p + S (Pos.to_nat p))%nat by lia.
    rewrite Nat.iter_add, Nat.iter_succ_r. reflexivity.
  - rewrite !IH, Pos2Nat.inj_xO.
    replace (2 * Pos.to_nat p)%nat with (Pos.to_nat p + Pos.to_nat p)%nat by lia.
    rewrite Nat.iter_add. reflexivity.
  - reflexivity.
Qed.

Lemma shr_1_even (m : Z) :
  0 <= m -> Z.even m = true ->
  shr_1 (Build_shr_record m false false) = Build_shr_record (m / 2) false false.
Proof.
  intros Hm He. destruct m as [|p|p]; [reflexivity| |lia].
  destruct p as [p|p|]; try discriminate He.
  cbn [shr_1 orb]. f_equal. rewrite Pos2Z.inj_xO, Z.mul_comm, Z.div_mul by lia.
  reflexivity.
Qed.

Lemma shr_exact_nat (n : nat) (m : Z) :
  0 <= m -> (2 ^ Z.of_nat n | m) ->
  Nat.iter n shr_1 (Build_shr_record m false false)
  = Build_shr_record (m / 2 ^ Z.of_nat n) false false.
Proof.
  revert m. induction n as [|n IH]; intros m Hm [c Hc].
  - cbn [Nat.iter Z.of_nat]. rewrite Z.pow_0_r, Z.div_1_r. reflexivity.
  - rewrite Nat.iter_succ_r.
    rewrite Nat2Z.inj_succ, Z.pow_succ_r in Hc by lia.
    rewrite shr_1_even; [|lia|].
    + assert (E : m / 2 = c * 2 ^ Z.of_nat n).
      { subst m. replace (c * (2 * 2 ^ Z.of_nat n)) with (c * 2 ^ Z.of_nat n * 2) by lia.
        apply Z.div_mul. lia. }
      rewrite IH.
      * f_equal. rewrite Nat2Z.inj_succ, Z.pow_succ_r by lia.
        rewrite <- Z.div_div by (try lia; apply Z.pow_pos_nonneg; lia). reflexivity.
      * apply Z.div_pos; lia.
      * exists c. exact E.
    + subst m. rewrite Z.even_mul. cbn. rewrite Z.even_mul. cbn.
      apply orb_true_r.
Qed.

Lemma shr_exact (m e n : Z) :
  0 <= m -> 0 <= n -> (2 ^ n | m) ->
  shr (Build_shr_record m false false) e n
  = (Build_shr_record (m / 2 ^ n) false false, e + n).
Proof.
  intros Hm Hn Hdiv. destruct n as [|p|p]; [| |lia].
  - cbn [shr]. rewrite Z.pow_0_r, Z.div_1_r, Z.add_0_r. reflexivity.
  - cbn [shr]. rewrite iter_pos_nat.
    rewrite <- (positive_nat_Z p) in Hdiv |- * at 1.
    rewrite shr_exact_nat by assumption.
    rewrite positive_nat_Z. reflexivity.
Qed.

Lemma fexp_normal (e : Z) : -1021 <= e -> fexp 53 1024 e = e - 53.
Proof. unfold fexp, emin. lia. Qed.

Lemma digits_53_bounds (m : Z) : 0 < m -> Zdigits2 m = 53 -> 2 ^ 52 <= m < 2 ^ 53.
Proof.
  intros Hm Hd. destruct m as [|p|p]; try lia.
  pose proof (Zdigits2_bounds p) as H. cbn [Zdigits2] in Hd. rewrite Hd in H. exact H.
Qed.

(** A significand of [53 + n] digits whose low [n] bits are zero is
    rounded exactly. *)
Lemma binary_round_aux_exact (sx : bool) (mx ex n : Z) :
  0 <= n -> 0 < mx -> Zdigits2 mx = 53 + n -> (2 ^ n | mx) ->
  -1074 <= ex + n <= 971 ->
  binary_round_aux 53 1024 sx mx ex loc_Exact
  = S754_finite sx (Z.to_pos (mx / 2 ^ n)) (ex + n).
Proof.
  intros Hn Hmx Hd Hdiv He.
  assert (Hq : 2 ^ 52 <= mx / 2 ^ n < 2 ^ 53).
  { destruct mx as [|p|p]; try lia.
    pose proof (Zdigits2_bounds p) as B. cbn [Zdigits2] in Hd. rewrite Hd in B.
    replace (53 + n - 1) with (52 + n) in B by lia.
    rewrite !Z.pow_add_r in B by lia.
    destruct Hdiv as [c Hc]. rewrite Hc, Z.div_mul by (apply Z.pow_nonzero; lia).
    rewrite Hc in B. pose proof (Z.pow_pos_nonneg 2 n). nia. }
  unfold binary_round_aux, shr_fexp. rewrite Hd.
  rewrite fexp_normal by lia.
  replace (53 + n + ex - 53 - ex) with n by lia.
  cbn [shr_record_of_loc]. rewrite shr_exact by (assumption || lia).
  cbn [shr_m loc_of_shr_record round_nearest_even].
  rewrite (Zdigits2_unique (mx / 2 ^ n) 53) by (exact Hq || lia).
  rewrite fexp_normal by lia.
  replace (53 + (ex + n) - 53 - (ex + n)) with 0 by lia.
  cbn [shr shr_m].
  destruct (mx / 2 ^ n) as [|q|q] eqn:E; try lia.
  replace (ex + n <=? 1024 - 53) with true by (symmetry; apply Z.leb_le; lia).
  reflexivity.
Qed.

(** [float64(z)] for a positive integer of at most 53 digits is exact:
    the significand is [z] shifted up to 53 digits. *)
Lemma of_int_exact (z d : Z) :
  0 < z -> Zdigits2 z = d -> d <= 53 ->
  float64.of_int z = S754_finite false (Z.to_pos (z * 2 ^ (53 - d))) (d - 53).
Proof.
  intros Hz Hd Hle. destruct z as [|p|p]; try lia.
  cbn [Zdigits2] in Hd.
  pose proof (Zdigits2_bounds p) as B. rewrite Hd in B.
  assert (Hd0 : 0 < d) by lia.
  unfold float64.of_int, binary_normalize, binary_round, float64.prec, float64.emax.
  rewrite Hd, Z.add_0_r, fexp_normal by lia.
  unfold shl_align.
  destruct (Z.eq_dec d 53) as [->|Hne].
  - cbn [Z.sub Z.add Z.opp Z.pos_sub Pos.compare Pos.compare_cont].
    change (53 - 53) with 0. rewrite Z.pow_0_r, Z.mul_1_r.
    change (0 - 0) with 0. cbv beta iota.
    rewrite (binary_round_aux_exact false (Zpos p) 0 0); try lia.
    + rewrite Z.pow_0_r, Z.div_1_r. reflexivity.
    + cbn [Zdigits2]. lia.
    + exists (Zpos p). rewrite Z.pow_0_r. lia.
  - destruct (d - 53 - 0) as [|k|k] eqn:Ek; try lia.
    assert (Hk : Zpos k = 53 - d) by lia.
    assert (Hm : Zpos (Pos.iter xO p k) = Zpos p * 2 ^ (53 - d))
      by (rewrite pos_iter_xO, Hk; reflexivity).
    assert (Bm : 2 ^ 52 <= Zpos p * 2 ^ (53 - d) < 2 ^ 53).
    { assert (E1 : 2 ^ 52 = 2 ^ (d - 1) * 2 ^ (53 - d))
        by (rewrite <- Z.pow_add_r by lia; f_equal; lia).
      assert (E2 : 2 ^ 53 = 2 ^ d * 2 ^ (53 - d))
        by (rewrite <- Z.pow_add_r by lia; f_equal; lia).
      assert (0 < 2 ^ (53 - d)) by (apply Z.pow_pos_nonneg; lia).
      split.
      - rewrite E1. apply Z.mul_le_mono_nonneg_r; lia.
      - rewrite E2. apply Z.mul_lt_mono_pos_r; lia. }
    cbv beta iota. change (PosDef.Pos.iter xO p k) with (Pos.iter xO p k).
    rewrite (binary_round_aux_exact false _ (d - 53) 0); try lia.
    + rewrite Z.pow_0_r, Z.div_1_r, Z.add_0_r, Hm. reflexivity.
    + rewrite Hm. apply Zdigits2_unique; [exact Bm | lia].
    + exists (Zpos (Pos.iter xO p k)). rewrite Z.pow_0_r. lia.
Qed.

Lemma of_int_0 : float64.of_int 0 = S754_zero false.
Proof. reflexivity. Qed.

Lemma new_location_spec (b r : Z) :
  0 < b -> 0 <= r < b -> new_location b r = loc_of_remainder r b.
Proof.
  intros Hb Hr. unfold new_location, new_location_even, new_location_odd, loc_of_remainder.
  destruct (Z.even b) eqn:Eb; [reflexivity|].
  destruct (r =? 0); [reflexivity|]. f_equal.
  assert (Hodd : Z.odd b = true) by (rewrite <- Z.negb_even, Eb; reflexivity).
  apply Z.odd_spec in Hodd. destruct Hodd as [c Hc].
  destruct (Z.compare_spec (2 * r + 1) b), (Z.compare_spec (2 * r) b);
    try reflexivity; lia.
Qed.

Lemma loc_of_record_of_loc (m : Z) (l : location) :
  loc_of_shr_record (shr_record_of_loc m l) = l /\ shr_m (shr_record_of_loc m l) = m.
Proof. destruct l as [|[| |]]; split; reflexivity. Qed.

(** Rounding to nearest even stays within half a unit of the quotient. *)
Lemma round_nearest_even_sandwich (m0 R B : Z) :
  0 < B -> 0 <= R < B ->
  let m1 := round_nearest_even m0 (loc_of_remainder R B) in
  m0 <= m1 <= m0 + 1
  /\ (2 * m1 - 1) * B <= 2 * (m0 * B + R) <= (2 * m1 + 1) * B.
Proof.
  intros HB HR. unfold loc_of_remainder.
  destruct (Z.eqb_spec R 0) as [->|Hne]; cbn [round_nearest_even]; [nia|].
  destruct (Z.compare_spec (2 * R) B); cbn [round_nearest_even];
    [destruct (Z.even m0)|..]; nia.
Qed.

(** One shift to the right of a quotient with its remainder. *)
Lemma shr_1_remainder (q r b : Z) :
  0 < q -> 0 < b -> 0 <= r < b ->
  let mrs := shr_1 (shr_record_of_loc q (loc_of_remainder r b)) in
  shr_m mrs = Z.div2 q
  /\ loc_of_shr_record mrs = loc_of_remainder (Z.b2z (Z.odd q) * b + r) (2 * b).
Proof.
  intros Hq Hb Hr. unfold loc_of_remainder.
  destruct q as [|p|p]; try lia.
  destruct (Z.eqb_spec r 0) as [->|Hne].
  - destruct p as [p|p|]; cbn [shr_record_of_loc shr_1 shr_m loc_of_shr_record orb
                               Z.div2 Z.odd Z.b2z Pos.div2];
      (split; [reflexivity|]).
    + replace (1 * b + 0 =? 0) with false by (symmetry; apply Z.eqb_neq; lia).
      replace (2 * (1 * b + 0) ?= 2 * b) with Eq by (symmetry; apply Z.compare_eq_iff; lia).
      reflexivity.
    + reflexivity.
    + replace (1 * b + 0 =? 0) with false by (symmetry; apply Z.eqb_neq; lia).
      replace (2 * (1 * b + 0) ?= 2 * b) with Eq by (symmetry; apply Z.compare_eq_iff; lia).
      reflexivity.
  - assert (Hs : forall c, orb (shr_r (shr_record_of_loc (Zpos p) (loc_Inexact c)))
                               (shr_s (shr_record_of_loc (Zpos p) (loc_Inexact c))) = true)
      by (intros [| |]; reflexivity).
    assert (Hm : forall c, shr_m (shr_record_of_loc (Zpos p) (loc_Inexact c)) = Zpos p)
      by (intros [| |]; reflexivity).
    specialize (Hs (2 * r ?= b)). specialize (Hm (2 * r ?= b)).
    destruct (shr_record_of_loc (Zpos p) (loc_Inexact (2 * r ?= b))) as [m0 r0 s0].
    cbn [shr_r shr_s shr_m] in Hs, Hm. subst m0.
    unfold shr_1. rewrite Hs.
    destruct p as [p|p|]; cbn [shr_m loc_of_shr_record Z.div2 Z.odd Z.b2z Pos.div2];
      (split; [reflexivity|]).
    + replace (1 * b + r =? 0) with false by (symmetry; apply Z.eqb_neq; lia).
      replace (2 * (1 * b + r) ?= 2 * b) with Gt by (symmetry; apply Z.compare_gt_iff; lia).
      reflexivity.
    + replace (0 * b + r =? 0) with false by (symmetry; apply Z.eqb_neq; lia).
      replace (2 * (0 * b + r) ?= 2 * b) with Lt by (symmetry; apply Z.compare_lt_iff; lia).
      reflexivity.
    + replace (1 * b + r =? 0) with false by (symmetry; apply Z.eqb_neq; lia).
      replace (2 * (1 * b + r) ?= 2 * b) with Gt by (symmetry; apply Z.compare_gt_iff; lia).
      reflexivity.
Qed.

(** The last step of [binary_round_aux]: a rounded significand in
    [2^52, 2^53] is kept, or halved when it reached [2^53]. *)
Lemma binary_round_finish (sx : bool) (m1 e : Z) :
  2 ^ 52 <= m1 <= 2 ^ 53 -> -1074 <= e <= 970 ->
  exists (m : positive) (k : Z),
    (let '(mrs, e') := shr_fexp 53 1024 m1 e loc_Exact in
     match shr_m mrs with
     | Z0 => S754_zero sx
     | Zpos m => if e' <=? 1024 - 53 then S754_finite sx m e' else S754_infinity sx
     | Zneg _ => S754_nan
     end) = S754_finite sx m (e + k)
    /\ 0 <= k <= 1 /\ Zpos m * 2 ^ k = m1 /\ 2 ^ 52 <= Zpos m < 2 ^ 53.
Proof.
  intros Hm He. unfold shr_fexp.
  destruct (Z.eq_dec m1 (2 ^ 53)) as [->|Hne].
  - change (Zdigits2 (2 ^ 53)) with 54. rewrite fexp_normal by lia.
    replace (54 + e - 53 - e) with 1 by lia.
    cbn [shr_record_of_loc].
    rewrite shr_exact by (try lia; exists (2 ^ 52); reflexivity).
    cbn [shr_m]. change (2 ^ 53 / 2 ^ 1) with (Zpos 4503599627370496).
    cbv beta iota.
    replace (e + 1 <=? 1024 - 53) with true by (symmetry; apply Z.leb_le; lia).
    exists 4503599627370496%positive, 1. repeat split; try lia; reflexivity.
  - rewrite (Zdigits2_unique m1 53) by lia. rewrite fexp_normal by lia.
    replace (53 + e - 53 - e) with 0 by lia.
    cbn [shr shr_record_of_loc shr_m].
    destruct m1 as [|m|m]; try lia.
    replace (e <=? 1024 - 53) with true by (symmetry; apply Z.leb_le; lia).
    exists m, 0. rewrite Z.add_0_r, Z.pow_0_r. repeat split; try lia.
Qed.

(** A quotient [q] of 53 or 54 digits with remainder [r] over [b] is
    rounded to a 53-digit significand within half a unit of the last
    place (of [q] when it has 53 digits, of [q / 2] when it has 54). *)
Lemma binary_round_aux_quotient (q r b E sh : Z) :
  0 < q -> 0 < b -> 0 <= r < b ->
  Zdigits2 q = 53 + sh -> 0 <= sh <= 1 -> -1074 <= E <= 968 ->
  exists (m : positive) (k : Z),
    binary_round_aux 53 1024 false q E (loc_of_remainder r b)
    = S754_finite false m (E + k)
    /\ sh <= k <= sh + 1
    /\ 2 ^ 52 <= Zpos m < 2 ^ 53
    /\ (2 * (Zpos m * 2 ^ k) - 2 ^ sh) * b <= 2 * (q * b + r)
       <= (2 * (Zpos m * 2 ^ k) + 2 ^ sh) * b.
Proof.
  intros Hq Hb Hr Hd Hsh HE.
  assert (Bq : 2 ^ (52 + sh) <= q < 2 ^ (53 + sh)).
  { destruct q as [|p|p]; try lia. pose proof (Zdigits2_bounds p) as B.
    cbn [Zdigits2] in Hd. rewrite Hd in B.
    replace (53 + sh - 1) with (52 + sh) in B by lia. exact B. }
  unfold binary_round_aux. unfold shr_fexp at 1. rewrite Hd.
  rewrite fexp_normal by lia.
  replace (53 + sh + E - 53 - E) with sh by lia.
  assert (Hcase : sh = 0 \/ sh = 1) by lia. destruct Hcase as [-> | ->].
  - cbn [shr].
    destruct (loc_of_record_of_loc q (loc_of_remainder r b)) as [Hl Hm].
    rewrite Hl, Hm.
    destruct (round_nearest_even_sandwich q r b Hb Hr) as [Hm1 Hs].
    set (m1 := round_nearest_even q (loc_of_remainder r b)) in *.
    change (2 ^ (52 + 0)) with (2 ^ 52) in Bq. change (2 ^ (53 + 0)) with (2 ^ 53) in Bq.
    destruct (binary_round_finish false m1 E) as (m & k & Heq & Hk & Hmk & Bm);
      [lia | lia |].
    rewrite Heq. exists m, k. split; [reflexivity|]. split; [lia|]. split; [exact Bm|].
    rewrite Hmk. change (2 ^ 0) with 1. lia.
  - cbn [shr iter_pos].
    destruct (shr_1_remainder q r b Hq Hb Hr) as [Hm Hl]. cbv zeta in Hm, Hl.
    rewrite Hl, Hm.
    pose proof (Z.div2_odd q) as Hq2.
    set (q0 := Z.div2 q) in *. set (bit := Z.b2z (Z.odd q)) in *.
    assert (Hbit : 0 <= bit <= 1) by (subst bit; destruct (Z.odd q); cbn; lia).
    assert (HR : 0 <= bit * b + r < 2 * b) by nia.
    destruct (round_nearest_even_sandwich q0 (bit * b + r) (2 * b)) as [Hm1 Hs];
      [lia | exact HR |].
    set (m1 := round_nearest_even q0 (loc_of_remainder (bit * b + r) (2 * b))) in *.
    change (2 ^ (52 + 1)) with (2 ^ 53) in Bq. change (2 ^ (53 + 1)) with (2 ^ 54) in Bq.
    change (2 ^ 54) with (2 * 2 ^ 53) in Bq. change (2 ^ 53) with (2 * 2 ^ 52) in Bq at 1.
    destruct (binary_round_finish false m1 (E + 1)) as (m & k & Heq & Hk & Hmk & Bm);
      [lia | lia |].
    rewrite Heq. exists m, (1 + k). split; [f_equal; lia|]. split; [lia|].
    split; [exact Bm|].
    rewrite Z.pow_add_r by lia. change (2 ^ 1) with 2.
    replace (Zpos m * (2 * 2 ^ k)) with (2 * m1) by lia.
    assert (Ea : q * b + r = q0 * (2 * b) + (bit * b + r)) by (rewrite Hq2 at 1; ring).
    rewrite Ea. lia.
Qed.

(** Division of two positive numbers with 53-digit significands. *)
Lemma div_normal (mx my : positive) (ex ey : Z) :
  Zdigits2 (Zpos mx) = 53 -> Zdigits2 (Zpos my) = 53 ->
  -1021 <= ex - ey ->
  float64.div (S754_finite false mx ex) (S754_finite false my ey)
  = binary_round_aux 53 1024 false (Zpos mx * 2 ^ 53 / Zpos my) (ex - ey - 53)
      (loc_of_remainder (Zpos mx * 2 ^ 53 mod Zpos my) (Zpos my)).
Proof.
  intros Hx Hy He.
  unfold float64.div, float64.prec, float64.emax, SFdiv, SFdiv_core_binary.
  rewrite Hx, Hy.
  replace (53 + ex - (53 + ey)) with (ex - ey) by lia.
  rewrite fexp_normal by lia.
  rewrite Z.min_l by lia.
  replace (ex - ey - (ex - ey - 53)) with 53 by lia.
  cbv beta iota. rewrite Z.shiftl_mul_pow2 by lia.
  pose proof (Z.mod_pos_bound (Zpos mx * 2 ^ 53) (Zpos my)) as Hmod.
  unfold Z.div, Z.modulo in *.
  destruct (Z.div_eucl (Zpos mx * 2 ^ 53) (Zpos my)) as [q r].
  cbn [xorb]. rewrite new_location_spec by lia. reflexivity.
Qed.

Lemma trunc_negative_exponent (m : positive) (e : Z) :
  e < 0 -> float64.trunc (S754_finite false m e) = Some (Zpos m / 2 ^ (- e)).
Proof.
  intros He. destruct e as [|p|p]; try lia.
  cbn [float64.trunc]. rewrite Z.shiftr_div_pow2 by lia. reflexivity.
Qed.

Lemma to_int64_in_range (f : spec_float) (z : Z) :
  float64.trunc f = Some z -> 0 <= z < 4294967296 ->
  float64.to_int64 f = z /\ float64.to_uint32 f = z.
Proof.
  intros Ht Hz. unfold float64.to_uint32, float64.to_int64. rewrite Ht.
  unfold float64.min_int64, float64.max_int64.
  replace ((-9223372036854775808 <=? z) && (z <=? 9223372036854775807)) with true
    by (symmetry; apply andb_true_iff; split; apply Z.leb_le; lia).
  split; [reflexivity|]. unfold uint32. apply Z.mod_small. lia.
Qed.

Lemma float_1e9 :
  float64.of_int 1000000000 = S754_finite false 8388608000000000 (-23).
Proof. vm_compute. reflexivity. Qed.

Lemma float_2p32 :
  float64.of_int 4294967296 = S754_finite false 4503599627370496 (-20).
Proof. vm_compute. reflexivity. Qed.

(** Multiplication by [2^32] only moves the exponent. *)
Lemma mul_2p32 (m : positive) (e : Z) :
  2 ^ 52 <= Zpos m < 2 ^ 53 -> -1106 <= e <= 939 ->
  float64.mul (S754_finite false m e) (S754_finite false 4503599627370496 (-20))
  = S754_finite false m (e + 32).
Proof.
  intros Hm He. unfold float64.mul, SFmul, float64.prec, float64.emax. cbn [xorb].
  rewrite (binary_round_aux_exact false _ (e + -20) 52); try lia.
  - rewrite Pos2Z.inj_mul. change (Zpos 4503599627370496) with (2 ^ 52).
    rewrite Z.div_mul by lia. rewrite Pos2Z.id. f_equal. lia.
  - apply Zdigits2_unique; [|lia]. rewrite Pos2Z.inj_mul.
    change (53 + 52 - 1) with (52 + 52). change (53 + 52) with (53 + 52).
    rewrite !Z.pow_add_r by lia. change (Zpos 4503599627370496) with (2 ^ 52). lia.
  - exists (Zpos m). rewrite Pos2Z.inj_mul. reflexivity.
Qed.

(** The arithmetic of the fraction: a significand within half a unit of
    [n * 2^32 / 10^9], scaled by [2^K], [K >= 21], has the same integer
    part, because [n * 2^32 / 10^9] is an integer or at least [1 / 5^9]
    away from the next one. *)
Lemma fraction_floor (n m C k sh : Z) :
  0 <= n -> 0 < C -> 0 <= sh <= 1 -> sh <= k <= sh + 1 ->
  2097152 <= C * 2 ^ k ->
  (2 * (m * 2 ^ k) - 2 ^ sh) * 8388608000000000
    <= 2 * (n * 4294967296 * 8388608 * (C * 2 ^ k))
    <= (2 * (m * 2 ^ k) + 2 ^ sh) * 8388608000000000 ->
  m / C = n * 4294967296 / 1000000000.
Proof.
  intros Hn HC Hsh Hk HK Hs.
  set (T := n * 4294967296 / 1000000000).
  assert (HT : T * 1000000000 <= n * 4294967296 < (T + 1) * 1000000000).
  { subst T. Z.div_mod_to_equations. lia. }
  assert (HT' : n * 4294967296 <= (T + 1) * 1000000000 - 512).
  { assert (H5 : 0 < (T + 1) * 1953125 - n * 8388608) by lia. lia. }
  assert (H1 : T * 1000000000 * C <= n * 4294967296 * C) by nia.
  assert (H2 : n * 4294967296 * C <= ((T + 1) * 1000000000 - 512) * C) by nia.
  symmetry. apply (Z.div_unique m C T (m - T * C)); [|ring].
  left.
  assert (Hc : (sh = 0 /\ k = 0) \/ (sh = 0 /\ k = 1) \/ (sh = 1 /\ k = 1) \/ (sh = 1 /\ k = 2))
    by lia.
  destruct Hc as [[-> ->]|[[-> ->]|[[-> ->]|[-> ->]]]];
    change (2 ^ 0) with 1 in *; change (2 ^ 1) with 2 in *; change (2 ^ 2) with 4 in *;
    nia.
Qed.

Lemma digits_positive (z : Z) : 0 < z -> 0 < Zdigits2 z.
Proof. destruct z; cbn; lia. Qed.

Lemma digits_below (z t : Z) : 0 < z < 2 ^ t -> 0 <= t -> Zdigits2 z <= t.
Proof.
  intros Hz Ht. destruct z as [|p|p]; try lia. cbn [Zdigits2].
  pose proof (Zdigits2_bounds p) as [Blo _].
  destruct (Z.le_gt_cases (Zpos (digits2_pos p)) t) as [H|H]; [exact H|].
  assert (2 ^ t <= 2 ^ (Zpos (digits2_pos p) - 1)) by (apply Z.pow_le_mono_r; lia). lia.
Qed.

(** The significand of [float64(z)]: [z] shifted up to 53 digits. *)
Lemma shifted_significand (z d : Z) :
  0 < z -> Zdigits2 z = d -> d <= 53 ->
  2 ^ 52 <= z * 2 ^ (53 - d) < 2 ^ 53
  /\ Zpos (Z.to_pos (z * 2 ^ (53 - d))) = z * 2 ^ (53 - d)
  /\ Zdigits2 (Zpos (Z.to_pos (z * 2 ^ (53 - d)))) = 53.
Proof.
  intros Hz Hd Hle. destruct z as [|p|p]; try lia.
  pose proof (Zdigits2_bounds p) as B. cbn [Zdigits2] in Hd. rewrite Hd in B.
  assert (Hd0 : 0 < d) by lia.
  assert (E1 : 2 ^ 52 = 2 ^ (d - 1) * 2 ^ (53 - d))
    by (rewrite <- Z.pow_add_r by lia; f_equal; lia).
  assert (E2 : 2 ^ 53 = 2 ^ d * 2 ^ (53 - d))
    by (rewrite <- Z.pow_add_r by lia; f_equal; lia).
  assert (Hp : 0 < 2 ^ (53 - d)) by (apply Z.pow_pos_nonneg; lia).
  assert (Bm : 2 ^ 52 <= Zpos p * 2 ^ (53 - d) < 2 ^ 53).
  { split.
    - rewrite E1. apply Z.mul_le_mono_nonneg_r; lia.
    - rewrite E2. apply Z.mul_lt_mono_pos_r; lia. }
  split; [exact Bm|].
  assert (Ep : Zpos (Z.to_pos (Zpos p * 2 ^ (53 - d))) = Zpos p * 2 ^ (53 - d))
    by (apply Z2Pos.id; lia).
  split; [exact Ep|]. rewrite Ep. apply Zdigits2_unique; [exact Bm | lia].
Qed.

(** The fraction that [TimeToNTPTimestamp] computes in [float64] is the
    integer [floor(nanos * 2^32 / 10^9)]. *)
Lemma fraction_of_nanos (n : Z) :
  0 <= n < 1000000000 ->
  float64.to_uint32
    (float64.mul (float64.div (float64.of_int n) (float64.of_int 1000000000))
                 (float64.of_int 4294967296))
  = n * 4294967296 / 1000000000.
Proof.
  intros Hn. destruct (Z.eq_dec n 0) as [->|Hn0]; [vm_compute; reflexivity|].
  assert (Hpos : 0 < n) by lia.
  set (d := Zdigits2 n).
  assert (Hd0 : 0 < d) by (apply digits_positive; lia).
  assert (Hd30 : d <= 30) by (apply digits_below; [|lia]; change (2 ^ 30) with 1073741824; lia).
  destruct (shifted_significand n d Hpos eq_refl) as (Bm & Em & Dm); [lia|].
  rewrite (of_int_exact n d) by (reflexivity || lia).
  rewrite float_1e9, float_2p32.
  set (mx := Z.to_pos (n * 2 ^ (53 - d))) in *.
  rewrite div_normal by (try exact Dm; try reflexivity; lia).
  replace (d - 53 - -23 - 53) with (d - 83) by lia.
  set (b := Zpos 8388608000000000).
  set (a := Zpos mx * 2 ^ 53).
  assert (Hb : 0 < b) by (subst b; lia).
  pose proof (Z.div_mod a b ltac:(lia)) as Hab.
  pose proof (Z.mod_pos_bound a b Hb) as Hr.
  set (q := a / b) in *. set (r := a mod b) in *.
  assert (Bq : 2 ^ 52 <= q < 2 ^ 54).
  { subst a b. change (2 ^ 54) with 18014398509481984. change (2 ^ 53) with 9007199254740992 in *.
    change (2 ^ 52) with 4503599627370496 in *. nia. }
  set (sh := if q <? 2 ^ 53 then 0 else 1).
  assert (Hsh : 0 <= sh <= 1) by (subst sh; destruct (q <? 2 ^ 53); lia).
  assert (Dq : Zdigits2 q = 53 + sh).
  { subst sh. destruct (Z.ltb_spec q (2 ^ 53)); apply Zdigits2_unique; lia. }
  destruct (binary_round_aux_quotient q r b (d - 83) sh) as (m & k & Heq & Hk & Bk & Hs);
    try lia.
  rewrite Heq. rewrite mul_2p32 by (exact Bk || lia).
  assert (He : d - 83 + k + 32 < 0) by lia.
  pose proof (trunc_negative_exponent m _ He) as Htr.
  replace (- (d - 83 + k + 32)) with (51 - d - k) in Htr by lia.
  set (C := 2 ^ (51 - d - k)) in *.
  assert (HC : 0 < C) by (subst C; apply Z.pow_pos_nonneg; lia).
  assert (HCk : C * 2 ^ k = 2 ^ (51 - d))
    by (subst C; rewrite <- Z.pow_add_r by lia; f_equal; lia).
  assert (HK : 2097152 <= C * 2 ^ k).
  { rewrite HCk. change 2097152 with (2 ^ 21). apply Z.pow_le_mono_r; lia. }
  assert (Ea : q * b + r = n * 4294967296 * 8388608 * (C * 2 ^ k)).
  { rewrite HCk. rewrite Z.mul_comm, <- Hab. subst a. rewrite Em.
    replace (53 - d) with (2 + (51 - d)) by lia. rewrite Z.pow_add_r by lia.
    change (2 ^ 2) with 4. change (2 ^ 53) with 9007199254740992. ring. }
  rewrite Ea in Hs.
  pose proof (fraction_floor n (Zpos m) C k sh ltac:(lia) HC Hsh Hk HK Hs) as Hfl.
  rewrite Hfl in Htr.
  apply (to_int64_in_range _ _ Htr).
  Z.div_mod_to_equations. lia.
Qed.

(** The nanoseconds that [NTPTimestampToTime] computes in [float64] are
    the integer [floor(frac * 10^9 / 2^32)]. *)
Lemma nanos_of_fraction (f : Z) :
  0 <= f < 4294967296 ->
  float64.to_int64
    (float64.mul (float64.div (float64.of_int f) (float64.of_int 4294967296))
                 (float64.of_int 1000000000))
  = f * 1000000000 / 4294967296.
Proof.
  intros Hf. destruct (Z.eq_dec f 0) as [->|Hf0]; [vm_compute; reflexivity|].
  assert (Hpos : 0 < f) by lia.
  set (d := Zdigits2 f).
  assert (Hd0 : 0 < d) by (apply digits_positive; lia).
  assert (Hd32 : d <= 32) by (apply digits_below; [|lia]; change (2 ^ 32) with 4294967296; lia).
  destruct (shifted_significand f d Hpos eq_refl) as (Bm & Em & Dm); [lia|].
  rewrite (of_int_exact f d) by (reflexivity || lia).
  rewrite float_1e9, float_2p32.
  set (mx := Z.to_pos (f * 2 ^ (53 - d))) in *.
  rewrite div_normal by (try exact Dm; try reflexivity; lia).
  replace (d - 53 - -20 - 53) with (d - 86) by lia.
  change (Zpos 4503599627370496) with (2 ^ 52).
  assert (Eq : Zpos mx * 2 ^ 53 / 2 ^ 52 = 2 * Zpos mx).
  { change (2 ^ 53) with (2 * 2 ^ 52). rewrite Z.mul_assoc, Z.div_mul by lia. lia. }
  assert (Er : (Zpos mx * 2 ^ 53) mod 2 ^ 52 = 0).
  { change (2 ^ 53) with (2 * 2 ^ 52). rewrite Z.mul_assoc. apply Z.mod_mul. lia. }
  rewrite Eq, Er. change (loc_of_remainder 0 (2 ^ 52)) with loc_Exact.
  rewrite (binary_round_aux_exact false (2 * Zpos mx) (d - 86) 1); try lia;
    [|apply Zdigits2_unique; [change (2 ^ (53 + 1 - 1)) with (2 * 2 ^ 52);
                              change (2 ^ (53 + 1)) with (2 * 2 ^ 53); lia | lia]
     |exists (Zpos mx); change (2 ^ 1) with 2; lia].
  change (2 ^ 1) with 2. rewrite (Z.mul_comm 2), Z.div_mul, Pos2Z.id by lia.
  replace (d - 86 + 1) with (d - 85) by lia.
  unfold float64.mul, SFmul, float64.prec, float64.emax. cbn [xorb].
  rewrite Pos2Z.inj_mul.
  set (P := Zpos mx * Zpos 8388608000000000).
  assert (BP : 2 ^ 104 <= P < 2 ^ 106).
  { subst P. change (2 ^ 104) with (2 ^ 52 * 2 ^ 52). change (2 ^ 106) with (2 ^ 53 * 2 ^ 53).
    change (2 ^ 52) with 4503599627370496 in *. change (2 ^ 53) with 9007199254740992 in *.
    nia. }
  set (n := if P <? 2 ^ 105 then 52 else 53).
  assert (Hn : 52 <= n <= 53) by (subst n; destruct (P <? 2 ^ 105); lia).
  assert (DP : Zdigits2 P = 53 + n).
  { subst n. destruct (Z.ltb_spec P (2 ^ 105)); apply Zdigits2_unique; lia. }
  assert (EP : P = f * 1953125 * 2 ^ (85 - d)).
  { subst P. rewrite Em. replace (85 - d) with ((53 - d) + 32) by lia.
    rewrite Z.pow_add_r by lia. change (2 ^ 32) with 4294967296. lia. }
  assert (Hdiv : forall j, 0 <= j <= 85 - d -> (2 ^ j | P)).
  { intros j Hj. exists (f * 1953125 * 2 ^ (85 - d - j)). rewrite EP.
    replace (2 ^ (85 - d)) with (2 ^ (85 - d - j) * 2 ^ j); [ring|].
    rewrite <- Z.pow_add_r by lia. f_equal. lia. }
  rewrite (binary_round_aux_exact false P (d - 85 + -23) n); try lia;
    [|apply Hdiv; lia].
  assert (Hq : 0 < P / 2 ^ n).
  { apply Z.div_str_pos. split; [apply Z.pow_pos_nonneg; lia|].
    transitivity (2 ^ 104); [apply Z.pow_le_mono_r; lia | lia]. }
  assert (He : d - 85 + -23 + n < 0) by lia.
  pose proof (trunc_negative_exponent (Z.to_pos (P / 2 ^ n)) _ He) as Htr.
  rewrite Z2Pos.id in Htr by exact Hq.
  rewrite Z.div_div in Htr by (apply Z.pow_pos_nonneg || apply Z.pow_nonzero; lia).
  rewrite <- Z.pow_add_r in Htr by lia.
  replace (n + - (d - 85 + -23 + n)) with (108 - d) in Htr by lia.
  assert (Ev : P / 2 ^ (108 - d) = f * 1000000000 / 4294967296).
  { rewrite EP. replace (108 - d) with (23 + (85 - d)) by lia.
    rewrite Z.pow_add_r by lia.
    rewrite Z.div_mul_cancel_r by (apply Z.pow_nonzero; lia).
    change (2 ^ 23) with 8388608.
    Z.div_mod_to_equations. lia. }
  rewrite Ev in Htr.
  apply (to_int64_in_range _ _ Htr).
  Z.div_mod_to_equations. lia.
Qed.

(** ** Timestamps *)

Lemma ntp_range_bounds :
  time.unixSec ntp_range_start = -2208988800
  /\ time.unixSec ntp_era1_start = 2085978496
  /\ time.unixSec ntp_range_end = 4294944000.
Proof. vm_compute. repeat split; reflexivity. Qed.

Lemma TimeToNTPTimestamp_in_range (t : time.Time) :
  in_ntp_era0 t ->
  ntpcore.TimeToNTPTimestamp t
  = ntpcore.mkTimestamp (time.unixSec t + 2208988800)
                        (time.nsec t * 4294967296 / 1000000000).
Proof.
  intros [Hwf Hr]. destruct ntp_range_bounds as (Es & Ee & _). rewrite Es, Ee in Hr.
  unfold time.wf_Time in Hwf.
  unfold ntpcore.TimeToNTPTimestamp, ntpcore.NTPEpochOffset.
  rewrite fraction_of_nanos by exact Hwf. f_equal.
  unfold uint32, int64. Z.div_mod_to_equations. lia.
Qed.

(** C4 (as amended).  For every instant [t] within NTP era 0, from
    1900-01-01T00:00:00Z up to 2036-02-07T06:28:16Z, the NTP timestamp of
    [t] has seconds
    [unix_seconds + 2208988800] and fraction
    [floor(nanoseconds * 2^32 / 10^9)], and converting it back yields an
    instant in the same second that is never later than [t] and differs
    from it by at most one nanosecond. *)
Theorem C4_timestamp_round_trip (t : time.Time) :
  in_ntp_era0 t ->
  let ts := ntpcore.TimeToNTPTimestamp t in
  let t' := ntp_round_trip t in
  ntpcore.Seconds ts = time.unixSec t + 2208988800
  /\ ntpcore.Fraction ts = time.nsec t * 4294967296 / 1000000000
  /\ time.wf_Time t'
  /\ time.unixSec t' = time.unixSec t
  /\ time.nsec t' = ntpcore.Fraction ts * 1000000000 / 4294967296
  /\ 0 <= time.Sub t t' <= 1 * time.Nanosecond
  /\ time.Sub t t' = time.nsec t - time.nsec t'.
Proof.
  intros Hin ts t'. subst ts t'. unfold ntp_round_trip.
  rewrite TimeToNTPTimestamp_in_range by exact Hin.
  destruct Hin as [Hwf Hr]. destruct ntp_range_bounds as (Es & Ee & _). rewrite Es, Ee in Hr.
  unfold time.wf_Time in Hwf.
  cbn [ntpcore.Seconds ntpcore.Fraction].
  set (n := time.nsec t) in *. set (f := n * 4294967296 / 1000000000).
  assert (Hf : 0 <= f < 4294967296) by (subst f; Z.div_mod_to_equations; lia).
  unfold ntpcore.NTPTimestampToTime. cbn [ntpcore.Seconds ntpcore.Fraction].
  rewrite nanos_of_fraction by exact Hf.
  set (n' := f * 1000000000 / 4294967296).
  assert (Hn' : 0 <= n' < 1000000000 /\ 0 <= n - n' <= 1)
    by (subst n' f; Z.div_mod_to_equations; lia).
  assert (Esec : int64 (time.unixSec t + 2208988800 - ntpcore.NTPEpochOffset) = time.unixSec t).
  { unfold int64, ntpcore.NTPEpochOffset. Z.div_mod_to_equations. lia. }
  rewrite Esec. unfold time.Unix.
  replace ((n' <? 0) || (1000000000 <=? n')) with false
    by (symmetry; apply orb_false_iff; split; [apply Z.ltb_ge | apply Z.leb_gt]; lia).
  cbn [time.unixSec time.nsec]. unfold time.wf_Time. cbn [time.nsec].
  split; [reflexivity|]. split; [reflexivity|]. split; [lia|].
  split; [reflexivity|]. split; [reflexivity|].
  unfold time.Sub, time.Nanosecond, time.minDuration, time.maxDuration,
    float64.min_int64, float64.max_int64. cbn [time.unixSec time.nsec]. fold n.
  replace ((time.unixSec t - time.unixSec t) * 1000000000 + (n - n')) with (n - n') by lia.
  destruct (Z.ltb_spec (n - n') (-9223372036854775808)); [lia|].
  destruct (Z.ltb_spec 9223372036854775807 (n - n')); lia.
Qed.

Lemma C4_timestamp_round_trip_witness :
  let t := time.mkTime 1700000000 123456789 in
  let ts := ntpcore.TimeToNTPTimestamp t in
  let t' := ntp_round_trip t in
  ntpcore.Seconds ts = time.unixSec t + 2208988800
  /\ ntpcore.Fraction ts = time.nsec t * 4294967296 / 1000000000
  /\ time.wf_Time t'
  /\ time.unixSec t' = time.unixSec t
  /\ time.nsec t' = ntpcore.Fraction ts * 1000000000 / 4294967296
  /\ 0 <= time.Sub t t' <= 1 * time.Nanosecond
  /\ time.Sub t t' = time.nsec t - time.nsec t'.
Proof.
  apply (C4_timestamp_round_trip (time.mkTime 1700000000 123456789)).
  split; [unfold time.wf_Time; cbn; lia | vm_compute; intuition discriminate].
Defined.

(** The claim as stated fails at two instants of its range.  One
    nanosecond after the Unix epoch the fraction is
    [floor(2^32 / 10^9) = 4], which decodes to 0 nanoseconds: the round
    trip loses a whole nanosecond, more than [1 / 2^32] s (about 0.233 ns).
    At 2038-01-19T03:14:07Z, past the end of NTP era 0, the seconds wrap
    ([unix_seconds + 2208988800] is [4356472447], the field holds
    [61505151]) and the round trip is [2^32] seconds off. *)
Lemma C4_counterexample :
  let t := time.mkTime 0 1 in
  (in_ntp_range t
   /\ ntpcore.TimeToNTPTimestamp t = ntpcore.mkTimestamp 2208988800 4
   /\ ntp_round_trip t = time.mkTime 0 0
   /\ time.Sub t (ntp_round_trip t) = 1
   /\ ~ (Z.abs (time.Sub t (ntp_round_trip t)) * 4294967296 <= 1 * time.Second))
  /\ (in_ntp_range y2k38
      /\ ntpcore.Seconds (ntpcore.TimeToNTPTimestamp y2k38) = 61505151
      /\ ntpcore.Seconds (ntpcore.TimeToNTPTimestamp y2k38)
         <> time.unixSec y2k38 + 2208988800
      /\ time.Sub y2k38 (ntp_round_trip y2k38) = 4294967296 * time.Second
      /\ ~ (Z.abs (time.Sub y2k38 (ntp_round_trip y2k38)) * 4294967296
            <= 1 * time.Second)).
Proof.
  cbv zeta. split.
  - split; [split; [unfold time.wf_Time; cbn; lia | vm_compute; intuition discriminate]|].
    split; [vm_compute; reflexivity|]. split; [vm_compute; reflexivity|].
    split; [vm_compute; reflexivity|].
    intros H. vm_compute in H. apply H. reflexivity.
  - split; [split; [unfold time.wf_Time; cbn; lia | vm_compute; intuition discriminate]|].
    split; [vm_compute; reflexivity|]. split; [vm_compute; discriminate|].
    split; [vm_compute; reflexivity|].
    intros H. vm_compute in H. apply H. reflexivity.
Qed.

(** * Further properties of the codec *)

Lemma Bytes_of_parsed_fields (b0 b1 b2 b3 b4 b5 b6 b7 b8 b9 b10 b11 b12 b13 b14 b15 b16 b17 b18 b19 b20 b21 b22 b23 b24 b25 b26 b27 b28 b29 b30 b31 b32 b33 b34 b35 b36 b37 b38 b39 b40 b41 b42 b43 b44 b45 b46 b47 : Byte.byte) :
  ntpcore.Bytes (ntpcore.mkPacket
          (Z.land (Z.shiftr (byteZ b0) 6) 3) (Z.land (Z.shiftr (byteZ b0) 3) 7)
          (Z.land (byteZ b0) 7) (byteZ b1) (int8 (byteZ b2)) (int8 (byteZ b3))
          (BigEndian.Uint32 [b4; b5; b6; b7]) (BigEndian.Uint32 [b8; b9; b10; b11])
          (BigEndian.Uint32 [b12; b13; b14; b15]) (BigEndian.Uint32 [b16; b17; b18; b19])
          (BigEndian.Uint32 [b20; b21; b22; b23]) (BigEndian.Uint32 [b24; b25; b26; b27])
          (BigEndian.Uint32 [b28; b29; b30; b31]) (BigEndian.Uint32 [b32; b33; b34; b35])
          (BigEndian.Uint32 [b36; b37; b38; b39]) (BigEndian.Uint32 [b40; b41; b42; b43])
          (BigEndian.Uint32 [b44; b45; b46; b47]))
  = [b0; b1; b2; b3; b4; b5; b6; b7; b8; b9; b10; b11; b12; b13; b14; b15; b16; b17; b18; b19; b20; b21; b22; b23; b24; b25; b26; b27; b28; b29; b30; b31; b32; b33; b34; b35; b36; b37; b38; b39; b40; b41; b42; b43; b44; b45; b46; b47].
Proof.
  unfold ntpcore.Bytes.
  cbn [ntpcore.LeapIndicator ntpcore.Version ntpcore.Mode ntpcore.Stratum
       ntpcore.Poll ntpcore.Precision ntpcore.RootDelay ntpcore.RootDisp
       ntpcore.ReferenceID ntpcore.RefTimeSec ntpcore.RefTimeFrac
       ntpcore.OrigTimeSec ntpcore.OrigTimeFrac ntpcore.RecvTimeSec
       ntpcore.RecvTimeFrac ntpcore.XmitTimeSec ntpcore.XmitTimeFrac].
  rewrite !PutUint32_Uint32, first_byte_pack, !signed_byte_pack, Zbyte_byteZ.
  reflexivity.
Qed.

Lemma int8_byte_range (b : Byte.byte) : is_int8 (int8 (byteZ b)).
Proof.
  unfold is_int8, int8. pose proof (byteZ_range b). Z.div_mod_to_equations. lia.
Qed.

Lemma parsed_fields_wf (b0 b1 b2 b3 b4 b5 b6 b7 b8 b9 b10 b11 b12 b13 b14 b15 b16 b17 b18 b19 b20 b21 b22 b23 b24 b25 b26 b27 b28 b29 b30 b31 b32 b33 b34 b35 b36 b37 b38 b39 b40 b41 b42 b43 b44 b45 b46 b47 : Byte.byte) :
  ntpcore.wf_packet (ntpcore.mkPacket
          (Z.land (Z.shiftr (byteZ b0) 6) 3) (Z.land (Z.shiftr (byteZ b0) 3) 7)
          (Z.land (byteZ b0) 7) (byteZ b1) (int8 (byteZ b2)) (int8 (byteZ b3))
          (BigEndian.Uint32 [b4; b5; b6; b7]) (BigEndian.Uint32 [b8; b9; b10; b11])
          (BigEndian.Uint32 [b12; b13; b14; b15]) (BigEndian.Uint32 [b16; b17; b18; b19])
          (BigEndian.Uint32 [b20; b21; b22; b23]) (BigEndian.Uint32 [b24; b25; b26; b27])
          (BigEndian.Uint32 [b28; b29; b30; b31]) (BigEndian.Uint32 [b32; b33; b34; b35])
          (BigEndian.Uint32 [b36; b37; b38; b39]) (BigEndian.Uint32 [b40; b41; b42; b43])
          (BigEndian.Uint32 [b44; b45; b46; b47]))
  /\ header_fits (ntpcore.mkPacket
          (Z.land (Z.shiftr (byteZ b0) 6) 3) (Z.land (Z.shiftr (byteZ b0) 3) 7)
          (Z.land (byteZ b0) 7) (byteZ b1) (int8 (byteZ b2)) (int8 (byteZ b3))
          (BigEndian.Uint32 [b4; b5; b6; b7]) (BigEndian.Uint32 [b8; b9; b10; b11])
          (BigEndian.Uint32 [b12; b13; b14; b15]) (BigEndian.Uint32 [b16; b17; b18; b19])
          (BigEndian.Uint32 [b20; b21; b22; b23]) (BigEndian.Uint32 [b24; b25; b26; b27])
          (BigEndian.Uint32 [b28; b29; b30; b31]) (BigEndian.Uint32 [b32; b33; b34; b35])
          (BigEndian.Uint32 [b36; b37; b38; b39]) (BigEndian.Uint32 [b40; b41; b42; b43])
          (BigEndian.Uint32 [b44; b45; b46; b47])).
Proof.
  destruct (first_byte_fields b0) as (H1 & H2 & H3).
  split.
  - constructor;
      cbn [ntpcore.LeapIndicator ntpcore.Version ntpcore.Mode ntpcore.Stratum
           ntpcore.Poll ntpcore.Precision ntpcore.RootDelay ntpcore.RootDisp
           ntpcore.ReferenceID ntpcore.RefTimeSec ntpcore.RefTimeFrac
           ntpcore.OrigTimeSec ntpcore.OrigTimeFrac ntpcore.RecvTimeSec
           ntpcore.RecvTimeFrac ntpcore.XmitTimeSec ntpcore.XmitTimeFrac];
      try apply Uint32_range; try apply int8_byte_range;
      try apply byteZ_range; unfold is_uint8; lia.
  - unfold header_fits.
    cbn [ntpcore.LeapIndicator ntpcore.Version ntpcore.Mode]. lia.
Qed.

Ltac take48 data Hge :=
  do 48 (destruct data as [|? data]; [cbn [List.length] in Hge; lia|]).

(** X1.  [ParsePacket] fails, with "packet too short", exactly on the
    inputs shorter than 48 bytes, and succeeds on all others. *)
Theorem ParsePacket_error_iff_short (data : list Byte.byte) :
  (ntpcore.ParsePacket data = Err "packet too short" <-> (List.length data < 48)%nat)
  /\ ((exists p, ntpcore.ParsePacket data = Ok p) <-> (48 <= List.length data)%nat).
Proof.
  destruct (Nat.lt_ge_cases (List.length data) 48) as [Hlt|Hge].
  - rewrite ParsePacket_short by assumption.
    split; split; try tauto; try lia. intros [p Hp]. discriminate Hp.
  - assert (Hok : exists p, ntpcore.ParsePacket data = Ok p).
    { take48 data Hge. rewrite ParsePacket_cons48. eexists. reflexivity. }
    split; split; try tauto; try lia.
    destruct Hok as [p Hp]. rewrite Hp. discriminate.
Qed.

(** X2.  A datagram of 48 bytes or more is parsed from its first 48 bytes
    alone (trailing authentication data is ignored), and serialising the
    parsed packet gives those 48 bytes back. *)
Theorem ParsePacket_ignores_tail (data : list Byte.byte) :
  (48 <= List.length data)%nat ->
  exists p, ntpcore.ParsePacket data = Ok p
            /\ ntpcore.ParsePacket (firstn 48 data) = Ok p
            /\ ntpcore.Bytes p = firstn 48 data.
Proof.
  intros Hge. take48 data Hge. cbn [firstn].
  rewrite !ParsePacket_cons48. eexists. split; [reflexivity|]. split; [reflexivity|].
  apply Bytes_of_parsed_fields.
Qed.

Lemma ParsePacket_ignores_tail_witness :
  exists p, ntpcore.ParsePacket long_datagram = Ok p
            /\ ntpcore.ParsePacket (firstn 48 long_datagram) = Ok p
            /\ ntpcore.Bytes p = firstn 48 long_datagram.
Proof. apply ParsePacket_ignores_tail. vm_compute. lia. Defined.

(** X3.  Every packet that [ParsePacket] returns has all fields within
    their Go types and a header that fits its bit widths, so serialising
    it and parsing again returns the same packet. *)
Theorem parsed_packet_reserialises (data : list Byte.byte) (p : ntpcore.NTPPacket) :
  ntpcore.ParsePacket data = Ok p ->
  ntpcore.wf_packet p /\ header_fits p
  /\ ntpcore.ParsePacket (ntpcore.Bytes p) = Ok p.
Proof.
  intros Hparse.
  destruct (Nat.lt_ge_cases (List.length data) 48) as [Hlt|Hge].
  - rewrite ParsePacket_short in Hparse by assumption. discriminate.
  - take48 data Hge. rewrite ParsePacket_cons48 in Hparse.
    apply (f_equal (fun r => match r with Ok q => q | Err _ => p end)) in Hparse.
    cbv beta iota in Hparse. subst p.
    split; [apply parsed_fields_wf|]. split; [apply parsed_fields_wf|].
    rewrite Bytes_of_parsed_fields. apply ParsePacket_cons48.
Qed.

Lemma parsed_packet_reserialises_witness :
  ntpcore.wf_packet sample_packet /\ header_fits sample_packet
  /\ ntpcore.ParsePacket (ntpcore.Bytes sample_packet) = Ok sample_packet.
Proof. apply (parsed_packet_reserialises sample_datagram). exact sample_datagram_parses. Defined.

Lemma SetKissOfDeathCode_4 (p : ntpcore.NTPPacket) (code : string) :
  String.length code = 4%nat ->
  ntpcore.SetKissOfDeathCode p code
  = (ntpcore.set_ReferenceID (ntpcore.set_Stratum p 0)
       (BigEndian.Uint32 (list_byte_of_string code)), None)
  /\ ntpcore.GetKissOfDeathCode
       (ntpcore.set_ReferenceID (ntpcore.set_Stratum p 0)
          (BigEndian.Uint32 (list_byte_of_string code))) = code.
Proof.
  intros Hlen. unfold ntpcore.SetKissOfDeathCode. rewrite Hlen.
  change (negb (Z.of_nat 4 =? 4)) with false. cbv iota.
  split; [reflexivity|].
  unfold ntpcore.GetKissOfDeathCode.
  cbn [ntpcore.Stratum ntpcore.set_ReferenceID ntpcore.set_Stratum ntpcore.ReferenceID
       Z.eqb negb].
  destruct (code_of_length_4 code Hlen) as (a & b & c & d & E).
  rewrite E, PutUint32_Uint32, <- E. apply string_of_list_byte_of_string.
Qed.

(** X4.  A four-byte Kiss-of-Death code written by [SetKissOfDeathCode]
    is read back unchanged by [GetKissOfDeathCode]; on a packet whose
    stratum is not 0, [GetKissOfDeathCode] returns the empty string. *)
Theorem kiss_code_round_trip (p : ntpcore.NTPPacket) (code : string) :
  String.length code = 4%nat ->
  snd (ntpcore.SetKissOfDeathCode p code) = None
  /\ ntpcore.GetKissOfDeathCode (fst (ntpcore.SetKissOfDeathCode p code)) = code
  /\ (forall q, ntpcore.Stratum q <> 0 -> ntpcore.GetKissOfDeathCode q = "").
Proof.
  intros Hlen. destruct (SetKissOfDeathCode_4 p code Hlen) as [Eset Eget].
  rewrite Eset. cbn [fst snd].
  split; [reflexivity|]. split.
  - exact Eget.
  - intros q Hq. unfold ntpcore.GetKissOfDeathCode.
    destruct (Z.eqb_spec (ntpcore.Stratum q) 0); [contradiction|reflexivity].
Qed.

Lemma kiss_code_round_trip_witness :
  snd (ntpcore.SetKissOfDeathCode sample_packet "RATE") = None
  /\ ntpcore.GetKissOfDeathCode (fst (ntpcore.SetKissOfDeathCode sample_packet "RATE")) = "RATE"
  /\ (forall q, ntpcore.Stratum q <> 0 -> ntpcore.GetKissOfDeathCode q = "").
Proof. apply (kiss_code_round_trip sample_packet "RATE"). reflexivity. Defined.

Lemma first_byte_valid (b : Byte.byte) :
  (Z.land (byteZ b) 7 =? 3)
  && ((Z.land (Z.shiftr (byteZ b) 3) 7 =? 3) || (Z.land (Z.shiftr (byteZ b) 3) 7 =? 4))
  = (Z.land (byteZ b) 63 =? 27) || (Z.land (byteZ b) 63 =? 35).
Proof. destruct b; reflexivity. Qed.

(** X5.  Whether a datagram is a valid client request is decided by the
    low six bits of its first byte alone: version 3 with mode 3
    ([011 011]) or version 4 with mode 3 ([100 011]); the leap indicator
    and every other byte are irrelevant. *)
Theorem valid_request_on_the_wire (data : list Byte.byte) (p : ntpcore.NTPPacket) :
  ntpcore.ParsePacket data = Ok p ->
  (ntpcore.IsValidClientRequest p = true
   <-> Z.land (byteZ (nth 0 data Byte.x00)) 63 = 27
       \/ Z.land (byteZ (nth 0 data Byte.x00)) 63 = 35).
Proof.
  intros Hparse.
  destruct (Nat.lt_ge_cases (List.length data) 48) as [Hlt|Hge].
  - rewrite ParsePacket_short in Hparse by assumption. discriminate.
  - take48 data Hge. rewrite ParsePacket_cons48 in Hparse.
    apply (f_equal (fun r => match r with Ok q => q | Err _ => p end)) in Hparse.
    cbv beta iota in Hparse. subst p.
    unfold ntpcore.IsValidClientRequest, ntpcore.ModeClient, ntpcore.VersionNTPv3,
      ntpcore.VersionNTPv4.
    cbn [ntpcore.Mode ntpcore.Version nth].
    rewrite first_byte_valid, orb_true_iff, !Z.eqb_eq. tauto.
Qed.

Lemma valid_request_on_the_wire_witness :
  ntpcore.IsValidClientRequest sample_packet = true
  <-> Z.land (byteZ (nth 0 sample_datagram Byte.x00)) 63 = 27
      \/ Z.land (byteZ (nth 0 sample_datagram Byte.x00)) 63 = 35.
Proof. apply (valid_request_on_the_wire sample_datagram). exact sample_datagram_parses. Defined.

(** ** Timestamps of arbitrary instants *)

Lemma uint32_int64 (x : Z) : uint32 (int64 x) = x mod 4294967296.
Proof. unfold uint32, int64. Z.div_mod_to_equations. lia. Qed.

Lemma TimeToNTPTimestamp_any_era (t : time.Time) :
  time.wf_Time t ->
  ntpcore.TimeToNTPTimestamp t
  = ntpcore.mkTimestamp ((time.unixSec t + 2208988800) mod 4294967296)
                        (time.nsec t * 4294967296 / 1000000000).
Proof.
  intros Hwf. unfold time.wf_Time in Hwf. unfold ntpcore.TimeToNTPTimestamp.
  rewrite fraction_of_nanos by exact Hwf. rewrite uint32_int64.
  reflexivity.
Qed.

(** X6.  For every instant, in any era, the NTP timestamp has seconds
    [(unix_seconds + 2208988800) mod 2^32] and fraction
    [floor(nanoseconds * 2^32 / 10^9)], both within 32 bits. *)
Theorem TimeToNTPTimestamp_fields (t : time.Time) :
  time.wf_Time t ->
  let ts := ntpcore.TimeToNTPTimestamp t in
  ntpcore.Seconds ts = (time.unixSec t + 2208988800) mod 4294967296
  /\ ntpcore.Fraction ts = time.nsec t * 4294967296 / 1000000000
  /\ is_uint32 (ntpcore.Seconds ts) /\ is_uint32 (ntpcore.Fraction ts).
Proof.
  intros Hwf ts. subst ts. rewrite TimeToNTPTimestamp_any_era by exact Hwf.
  unfold time.wf_Time in Hwf. cbn [ntpcore.Seconds ntpcore.Fraction].
  unfold is_uint32.
  split; [reflexivity|]. split; [reflexivity|].
  split; Z.div_mod_to_equations; lia.
Qed.

Lemma TimeToNTPTimestamp_fields_witness :
  let ts := ntpcore.TimeToNTPTimestamp y2k38 in
  ntpcore.Seconds ts = (time.unixSec y2k38 + 2208988800) mod 4294967296
  /\ ntpcore.Fraction ts = time.nsec y2k38 * 4294967296 / 1000000000
  /\ is_uint32 (ntpcore.Seconds ts) /\ is_uint32 (ntpcore.Fraction ts).
Proof. apply (TimeToNTPTimestamp_fields y2k38). unfold time.wf_Time. cbn. lia. Defined.

Lemma NTPTimestampToTime_fields (s f : Z) :
  is_uint32 s -> is_uint32 f ->
  ntpcore.NTPTimestampToTime (ntpcore.mkTimestamp s f)
  = time.mkTime (s - 2208988800) (f * 1000000000 / 4294967296).
Proof.
  unfold is_uint32. intros Hs Hf. unfold ntpcore.NTPTimestampToTime.
  cbn [ntpcore.Seconds ntpcore.Fraction].
  rewrite nanos_of_fraction by exact Hf.
  set (n := f * 1000000000 / 4294967296).
  assert (Hn : 0 <= n < 1000000000) by (subst n; Z.div_mod_to_equations; lia).
  assert (Esec : int64 (s - ntpcore.NTPEpochOffset) = s - 2208988800).
  { unfold int64, ntpcore.NTPEpochOffset. Z.div_mod_to_equations. lia. }
  rewrite Esec. unfold time.Unix.
  replace ((n <? 0) || (1000000000 <=? n)) with false
    by (symmetry; apply orb_false_iff; split; [apply Z.ltb_ge | apply Z.leb_gt]; lia).
  reflexivity.
Qed.

(** X7.  Decoding any 64-bit NTP timestamp and encoding the instant again
    keeps the seconds field exactly, for every 32-bit value, and lowers
    the fraction by at most 5 units. *)
Theorem decode_encode_timestamp (s f : Z) :
  is_uint32 s -> is_uint32 f ->
  let t := ntpcore.NTPTimestampToTime (ntpcore.mkTimestamp s f) in
  let ts := ntpcore.TimeToNTPTimestamp t in
  time.wf_Time t
  /\ time.unixSec t = s - 2208988800
  /\ time.nsec t = f * 1000000000 / 4294967296
  /\ ntpcore.Seconds ts = s
  /\ f - 5 <= ntpcore.Fraction ts <= f.
Proof.
  intros Hs Hf t ts. subst ts t. rewrite NTPTimestampToTime_fields by assumption.
  unfold is_uint32 in Hs, Hf.
  set (n := f * 1000000000 / 4294967296).
  assert (Hn : 0 <= n < 1000000000) by (subst n; Z.div_mod_to_equations; lia).
  rewrite (TimeToNTPTimestamp_any_era (time.mkTime (s - 2208988800) n)) by exact Hn.
  cbn [time.unixSec time.nsec ntpcore.Seconds ntpcore.Fraction].
  split; [exact Hn|]. split; [reflexivity|]. split; [reflexivity|].
  split; [|subst n]; Z.div_mod_to_equations; lia.
Qed.

Lemma decode_encode_timestamp_witness :
  let t := ntpcore.NTPTimestampToTime (ntpcore.mkTimestamp 3802247875 4294967295) in
  let ts := ntpcore.TimeToNTPTimestamp t in
  time.wf_Time t
  /\ time.unixSec t = 3802247875 - 2208988800
  /\ time.nsec t = 4294967295 * 1000000000 / 4294967296
  /\ ntpcore.Seconds ts = 3802247875
  /\ 4294967295 - 5 <= ntpcore.Fraction ts <= 4294967295.
Proof.
  apply (decode_encode_timestamp 3802247875 4294967295); unfold is_uint32; lia.
Defined.

(** * The upstream tracker *)

Lemma GetStratum_eq (c : ntp.UpstreamClient) :
  is_uint8 (ntp.Stratum (ntp.syncStatus c)) ->
  ntp.GetStratum c
  = (if ntp.Synchronized (ntp.syncStatus c)
     then Z.min (ntp.Stratum (ntp.syncStatus c) + 1) 15 else 16).
Proof.
  unfold is_uint8. intros Hs.
  unfold ntp.GetStratum. destruct (ntp.Synchronized (ntp.syncStatus c)); cbn [negb];
    [|reflexivity].
  assert (E64 : int64 (ntp.Stratum (ntp.syncStatus c) + 1)
                = ntp.Stratum (ntp.syncStatus c) + 1)
    by (unfold int64; Z.div_mod_to_equations; lia).
  rewrite E64. unfold uint8.
  destruct (Z.gtb_spec (ntp.Stratum (ntp.syncStatus c) + 1) 15);
    rewrite Z.mod_small by lia; lia.
Qed.

(** X8.  While synchronized to an upstream of stratum [s] (a byte), the
    stratum reported is [min(s + 1, 15)]; unsynchronized it is 16.  So it
    is never 0, never above 16, and 16 exactly when unsynchronized. *)
Theorem GetStratum_value (c : ntp.UpstreamClient) :
  is_uint8 (ntp.Stratum (ntp.syncStatus c)) ->
  ntp.GetStratum c
  = (if ntp.Synchronized (ntp.syncStatus c)
     then Z.min (ntp.Stratum (ntp.syncStatus c) + 1) 15 else 16)
  /\ 1 <= ntp.GetStratum c <= 16
  /\ (ntp.GetStratum c = 16 <-> ntp.Synchronized (ntp.syncStatus c) = false).
Proof.
  intros Hs0. pose proof (GetStratum_eq c Hs0) as E.
  pose proof Hs0 as Hs. unfold is_uint8 in Hs.
  rewrite E. split; [reflexivity|].
  destruct (ntp.Synchronized (ntp.syncStatus c)); split; try lia;
    split; intros H; try reflexivity; try discriminate; lia.
Qed.

Lemma GetStratum_value_witness :
  ntp.GetStratum sample_upstream
  = (if ntp.Synchronized (ntp.syncStatus sample_upstream)
     then Z.min (ntp.Stratum (ntp.syncStatus sample_upstream) + 1) 15 else 16)
  /\ 1 <= ntp.GetStratum sample_upstream <= 16
  /\ (ntp.GetStratum sample_upstream = 16
      <-> ntp.Synchronized (ntp.syncStatus sample_upstream) = false).
Proof. apply (GetStratum_value sample_upstream). unfold is_uint8. cbn. lia. Defined.

Lemma ipv4_word (a b c d : Byte.byte) :
  Z.lor (Z.lor (Z.lor (Z.shiftl (byteZ a) 24) (Z.shiftl (byteZ b) 16))
               (Z.shiftl (byteZ c) 8)) (byteZ d)
  = BigEndian.Uint32 [a; b; c; d].
Proof.
  unfold BigEndian.Uint32. apply Z.bits_inj'. intros n _. rewrite !Z.lor_spec.
  destruct (Z.testbit (byteZ a ≪ 24) n), (Z.testbit (byteZ b ≪ 16) n),
    (Z.testbit (byteZ c ≪ 8) n), (Z.testbit (byteZ d) n); reflexivity.
Qed.

Lemma firstIPv4_found (pre post : list ntp.IP) (a b c d : Byte.byte) :
  Forall (fun ip => ip = ntp.IPv6) pre ->
  ntp.firstIPv4 (pre ++ ntp.IPv4 a b c d :: post) = BigEndian.Uint32 [a; b; c; d].
Proof.
  induction 1 as [|ip pre Hip _ IH]; cbn [app ntp.firstIPv4].
  - apply ipv4_word.
  - subst ip. exact IH.
Qed.

Lemma firstIPv4_none (ips : list ntp.IP) :
  Forall (fun ip => ip = ntp.IPv6) ips -> ntp.firstIPv4 ips = 0.
Proof.
  induction 1 as [|ip ips Hip _ IH]; cbn [ntp.firstIPv4]; [reflexivity|].
  subst ip. exact IH.
Qed.

(** X9.  The reference ID is 0 when unsynchronized, when no server is
    active, when the lookup fails or when it returns no IPv4 address;
    otherwise its four big-endian bytes are the first IPv4 address that
    the lookup returned, whatever IPv6 addresses precede it. *)
Theorem GetReferenceID_value (c : ntp.UpstreamClient)
    (lookupIP : string -> option (list ntp.IP)) :
  (ntp.Synchronized (ntp.syncStatus c) = false -> ntp.GetReferenceID c lookupIP = 0)
  /\ (ntp.ActiveServer (ntp.syncStatus c) = "" -> ntp.GetReferenceID c lookupIP = 0)
  /\ (lookupIP (ntp.ActiveServer (ntp.syncStatus c)) = None ->
      ntp.GetReferenceID c lookupIP = 0)
  /\ (forall ips, lookupIP (ntp.ActiveServer (ntp.syncStatus c)) = Some ips ->
      Forall (fun ip => ip = ntp.IPv6) ips -> ntp.GetReferenceID c lookupIP = 0)
  /\ (forall pre post a b c4 d,
      ntp.Synchronized (ntp.syncStatus c) = true ->
      ntp.ActiveServer (ntp.syncStatus c) <> "" ->
      lookupIP (ntp.ActiveServer (ntp.syncStatus c))
      = Some (pre ++ ntp.IPv4 a b c4 d :: post)%list ->
      Forall (fun ip => ip = ntp.IPv6) pre ->
      BigEndian.PutUint32 (ntp.GetReferenceID c lookupIP) = [a; b; c4; d]
      /\ is_uint32 (ntp.GetReferenceID c lookupIP)).
Proof.
  unfold ntp.GetReferenceID.
  split; [intros ->; reflexivity|].
  split; [intros ->; rewrite orb_true_r; reflexivity|].
  split; [intros ->; destruct (_ || _); reflexivity|].
  split.
  - intros ips -> Hall. destruct (_ || _); [reflexivity|]. apply firstIPv4_none, Hall.
  - intros pre post a b c4 d Hs Hne -> Hpre. rewrite Hs. cbn [negb orb].
    destruct (String.eqb_spec (ntp.ActiveServer (ntp.syncStatus c)) "") as [E|_];
      [contradiction|].
    rewrite firstIPv4_found by exact Hpre.
    split; [apply PutUint32_Uint32 | apply Uint32_range].
Qed.

(** ** The clock *)

Lemma Add_Sub (t u : time.Time) :
  time.wf_Time t -> time.wf_Time u ->
  time.minDuration <= (time.unixSec u - time.unixSec t) * 1000000000
                      + (time.nsec u - time.nsec t) <= time.maxDuration ->
  time.Add t (time.Sub u t) = u.
Proof.
  unfold time.wf_Time, time.minDuration, time.maxDuration, float64.min_int64,
    float64.max_int64.
  intros Ht Hu Hr. destruct t as [st nt], u as [su nu].
  cbn [time.unixSec time.nsec] in *.
  unfold time.Sub, time.Add, time.minDuration, time.maxDuration, float64.min_int64,
    float64.max_int64. cbn [time.unixSec time.nsec].
  set (d := (su - st) * 1000000000 + (nu - nt)) in *.
  destruct (Z.ltb_spec d (-9223372036854775808)); [lia|].
  destruct (Z.ltb_spec 9223372036854775807 d); [lia|].
  assert (Hq : d = 1000000000 * Z.quot d 1000000000 + Z.rem d 1000000000
               /\ -1000000000 < Z.rem d 1000000000 < 1000000000
               /\ (0 <= d -> 0 <= Z.rem d 1000000000)
               /\ (d <= 0 -> Z.rem d 1000000000 <= 0))
    by (Z.to_euclidean_division_equations; lia).
  destruct Hq as (Hqr & Hrb & Hp & Hn).
  set (q := Z.quot d 1000000000) in *. set (r := Z.rem d 1000000000) in *.
  destruct (Z.leb_spec 1000000000 (nt + r)); [f_equal; lia|].
  destruct (Z.ltb_spec (nt + r) 0); f_equal; lia.
Qed.



(** ** Queries and the synchronisation cycle *)

Lemma queryLoop_spec (attempts : nat -> ntp.Attempt) (fuel i : nat) (lastErr : error) :
  match ntp.queryLoop attempts fuel i lastErr with
  | (Some r, None) =>
      exists k, (k < fuel)%nat /\ attempt_ok (attempts (i + k)%nat) = Some r
                /\ forall j, (j < k)%nat -> attempt_ok (attempts (i + j)%nat) = None
  | (None, e) =>
      (forall j, (j < fuel)%nat -> attempt_ok (attempts (i + j)%nat) = None)
      /\ (fuel = 0%nat -> e = lastErr) /\ ((0 < fuel)%nat -> e <> None)
  | (Some _, Some _) => False
  end.
Proof.
  revert i lastErr. induction fuel as [|fuel IH]; intros i lastErr; cbn [ntp.queryLoop].
  - split; [intros j Hj; lia|]. split; [reflexivity | lia].
  - assert (Hstep : forall err,
              attempt_ok (attempts i) = None ->
              match ntp.queryLoop attempts fuel (S i) (Some err) with
              | (Some r, None) =>
                  exists k, (k < S fuel)%nat /\ attempt_ok (attempts (i + k)%nat) = Some r
                            /\ forall j, (j < k)%nat -> attempt_ok (attempts (i + j)%nat) = None
              | (None, e) =>
                  (forall j, (j < S fuel)%nat -> attempt_ok (attempts (i + j)%nat) = None)
                  /\ (S fuel = 0%nat -> e = lastErr) /\ ((0 < S fuel)%nat -> e <> None)
              | (Some _, Some _) => False
              end).
    { intros err Hfail. specialize (IH (S i) (Some err)).
      destruct (ntp.queryLoop attempts fuel (S i) (Some err)) as [[r|] [e|]].
      - exact IH.
      - destruct IH as (k & Hk & Hok & Hbefore). exists (S k).
        split; [lia|]. split; [replace (i + S k)%nat with (S i + k)%nat by lia; exact Hok|].
        intros [|j] Hj; [rewrite Nat.add_0_r; exact Hfail|].
        replace (i + S j)%nat with (S i + j)%nat by lia. apply Hbefore. lia.
      - destruct IH as (Hall & _ & _). split; [|split; [lia | discriminate]].
        intros [|j] Hj; [rewrite Nat.add_0_r; exact Hfail|].
        replace (i + S j)%nat with (S i + j)%nat by lia. apply Hall. lia.
      - destruct IH as (Hall & H0 & Hpos). split; [|split; [lia|]].
        + intros [|j] Hj; [rewrite Nat.add_0_r; exact Hfail|].
          replace (i + S j)%nat with (S i + j)%nat by lia. apply Hall. lia.
        + intros _. destruct fuel; [specialize (H0 eq_refl); discriminate H0|].
          apply Hpos. lia. }
    destruct (attempts i) as [err|r] eqn:Ea.
    + apply Hstep. reflexivity.
    + destruct (ntp.Response.Validate r) as [err|] eqn:Ev.
      * apply Hstep. cbn. rewrite Ev. reflexivity.
      * exists 0%nat. split; [lia|]. rewrite Nat.add_0_r, Ea. cbn. rewrite Ev.
        split; [reflexivity|]. intros j Hj. lia.
Qed.

Lemma queryServer_cases (retries : Z) (attempts : nat -> ntp.Attempt) :
  match ntp.queryServer retries attempts with
  | (Some r, None) => server_answers retries attempts r
  | (None, Some _) => 0 < retries /\ server_fails retries attempts
  | (None, None) => retries <= 0
  | (Some _, Some _) => False
  end.
Proof.
  unfold ntp.queryServer, server_answers, server_fails.
  pose proof (queryLoop_spec attempts (Z.to_nat retries) 0 None) as H.
  destruct (ntp.queryLoop attempts (Z.to_nat retries) 0 None) as [[r|] [e|]].
  - exact H.
  - destruct H as (k & Hk & Hok & Hbefore). exists k. cbn [Nat.add] in *.
    split; [lia|]. split; [exact Hok|]. exact Hbefore.
  - destruct H as (Hall & H0 & _).
    assert (0 < retries).
    { destruct (Z.lt_ge_cases 0 retries) as [Hp|Hn]; [exact Hp|].
      assert (E : Z.to_nat retries = 0%nat) by lia. specialize (H0 E). discriminate H0. }
    split; [assumption|]. intros j Hj. apply (Hall j). lia.
  - destruct H as (_ & _ & Hpos).
    destruct (Z.lt_ge_cases 0 retries) as [Hp|Hn]; [|lia].
    exfalso. apply Hpos; [lia | reflexivity].
Qed.

Lemma queryServer_fails (retries : Z) (attempts : nat -> ntp.Attempt) :
  0 < retries -> server_fails retries attempts ->
  exists e, ntp.queryServer retries attempts = (None, Some e).
Proof.
  intros Hr Hf. pose proof (queryServer_cases retries attempts) as H.
  destruct (ntp.queryServer retries attempts) as [[r|] [e|]].
  - contradiction.
  - destruct H as (i & Hi & Hok & _). rewrite (Hf i Hi) in Hok. discriminate.
  - eauto.
  - lia.
Qed.

Lemma queryServer_answers (retries : Z) (attempts : nat -> ntp.Attempt) (r : ntp.Response.t) :
  server_answers retries attempts r ->
  ntp.queryServer retries attempts = (Some r, None).
Proof.
  intros (i & Hi & Hok & Hbefore).
  pose proof (queryServer_cases retries attempts) as H.
  destruct (ntp.queryServer retries attempts) as [[r'|] [e|]].
  - contradiction.
  - destruct H as (k & Hk & Hok' & Hbefore').
    destruct (Nat.lt_trichotomy i k) as [Hlt|[Heq|Hgt]].
    + rewrite (Hbefore' i Hlt) in Hok. discriminate.
    + subst k. rewrite Hok in Hok'. inversion Hok'. reflexivity.
    + rewrite (Hbefore k Hgt) in Hok'. discriminate.
  - destruct H as (_ & Hf). rewrite (Hf i Hi) in Hok. discriminate.
  - lia.
Qed.

(** X11.  [queryServer] returns the first answer that validates among the
    first [retries] attempts, with no error; if none of them does it
    returns no response and an error; and it returns neither a response
    nor an error exactly when [retries <= 0], where it makes no attempt. *)
Theorem queryServer_outcome (retries : Z) (attempts : nat -> ntp.Attempt) :
  (forall r, ntp.queryServer retries attempts = (Some r, None)
             <-> server_answers retries attempts r)
  /\ ((exists e, ntp.queryServer retries attempts = (None, Some e))
      <-> 0 < retries /\ server_fails retries attempts)
  /\ (ntp.queryServer retries attempts = (None, None) <-> retries <= 0)
  /\ (forall r e, ntp.queryServer retries attempts <> (Some r, Some e)).
Proof.
  pose proof (queryServer_cases retries attempts) as H.
  split; [|split; [|split]].
  - intros r. split; [|apply queryServer_answers].
    intros E. rewrite E in H. exact H.
  - split.
    + intros [e E]. rewrite E in H. exact H.
    + intros [Hr Hf]. apply queryServer_fails; assumption.
  - split.
    + intros E. rewrite E in H. exact H.
    + intros Hr. unfold ntp.queryServer.
      replace (Z.to_nat retries) with 0%nat by lia. reflexivity.
  - intros r e E. rewrite E in H. exact H.
Qed.

Lemma syncLoop_first (c : ntp.UpstreamClient) (retries : Z) (net : nat -> nat -> ntp.Attempt)
    (n1 n2 : time.Time) (pre post : list config.UpstreamServer)
    (server : config.UpstreamServer) (r : ntp.Response.t) (idx : nat) :
  0 < retries ->
  (forall k, (k < List.length pre)%nat -> server_fails retries (net (idx + k)%nat)) ->
  server_answers retries (net (idx + List.length pre)%nat) r ->
  ntp.syncLoop c retries net n1 n2 (pre ++ server :: post) idx
  = Some (synced_with server r n1 n2).
Proof.
  intros Hr. revert idx. induction pre as [|s pre IH]; intros idx Hfail Hok;
    cbn [app ntp.syncLoop List.length] in *.
  - rewrite Nat.add_0_r in Hok. rewrite (queryServer_answers _ _ _ Hok). reflexivity.
  - destruct (queryServer_fails retries (net idx) Hr) as [e He].
    { specialize (Hfail 0%nat ltac:(lia)). rewrite Nat.add_0_r in Hfail. exact Hfail. }
    rewrite He. apply IH.
    + intros k Hk. replace (S idx + k)%nat with (idx + S k)%nat by lia. apply Hfail. lia.
    + replace (S idx + List.length pre)%nat with (idx + S (List.length pre))%nat by lia.
      exact Hok.
Qed.

Lemma syncLoop_all_fail (c : ntp.UpstreamClient) (retries : Z) (net : nat -> nat -> ntp.Attempt)
    (n1 n2 : time.Time) (servers : list config.UpstreamServer) (idx : nat) :
  0 < retries ->
  (forall k, (k < List.length servers)%nat -> server_fails retries (net (idx + k)%nat)) ->
  ntp.syncLoop c retries net n1 n2 servers idx
  = Some (ntp.markFailed c "All upstream servers failed").
Proof.
  intros Hr. revert idx. induction servers as [|s servers IH]; intros idx Hfail;
    cbn [ntp.syncLoop List.length] in *; [reflexivity|].
  destruct (queryServer_fails retries (net idx) Hr) as [e He].
  { specialize (Hfail 0%nat ltac:(lia)). rewrite Nat.add_0_r in Hfail. exact Hfail. }
  rewrite He. apply IH.
  intros k Hk. replace (S idx + k)%nat with (idx + S k)%nat by lia. apply Hfail. lia.
Qed.

Lemma syncLoop_no_panic (c : ntp.UpstreamClient) (retries : Z) (net : nat -> nat -> ntp.Attempt)
    (n1 n2 : time.Time) (servers : list config.UpstreamServer) (idx : nat) :
  0 < retries -> ntp.syncLoop c retries net n1 n2 servers idx <> None.
Proof.
  intros Hr. revert idx. induction servers as [|s servers IH]; intros idx;
    cbn [ntp.syncLoop]; [discriminate|].
  pose proof (queryServer_cases retries (net idx)) as H.
  destruct (ntp.queryServer retries (net idx)) as [[r|] [e|]];
    try apply IH; try discriminate. lia.
Qed.

(** X12.  In a synchronisation cycle the first active server, in
    configuration order, that gives a valid answer within the retries
    wins: the snapshot becomes synchronized to it with its offset, round
    trip and stratum, and the stratum then reported is
    [min(stratum + 1, 15)]. *)
Theorem syncNow_first_answer_wins (c : ntp.UpstreamClient)
    (configured pre post : list config.UpstreamServer) (server : config.UpstreamServer)
    (retries : Z) (net : nat -> nat -> ntp.Attempt) (n1 n2 : time.Time)
    (r : ntp.Response.t) :
  config.GetActiveUpstreams configured = (pre ++ server :: post)%list ->
  (forall k, (k < List.length pre)%nat -> server_fails retries (net k)) ->
  server_answers retries (net (List.length pre)) r ->
  is_uint8 (ntp.Response.Stratum r) ->
  ntp.syncNow c configured retries net n1 n2 = Some (synced_with server r n1 n2)
  /\ ntp.GetStratum (synced_with server r n1 n2) = Z.min (ntp.Response.Stratum r + 1) 15
  /\ ntp.clockOffset (synced_with server r n1 n2) = ntp.Response.ClockOffset r
  /\ ntp.ActiveServer (ntp.syncStatus (synced_with server r n1 n2)) = config.Address server.
Proof.
  intros Hact Hfail Hok Hst.
  assert (Hr : 0 < retries) by (destruct Hok as (i & Hi & _); lia).
  split.
  - unfold ntp.syncNow. rewrite Hact.
    transitivity (ntp.syncLoop c retries net n1 n2 (pre ++ server :: post) 0);
      [destruct pre; reflexivity|].
    apply syncLoop_first; [exact Hr | exact Hfail | exact Hok].
  - split; [|split; reflexivity].
    rewrite (GetStratum_eq (synced_with server r n1 n2)) by exact Hst. reflexivity.
Qed.

Lemma sample_server_fails : server_fails 3 (sample_net 0).
Proof. intros j _. reflexivity. Qed.

Lemma sample_server_answers : server_answers 3 (sample_net 1) sample_response.
Proof.
  exists 1%nat. split; [lia|]. split; [reflexivity|].
  intros j Hj. assert (j = 0%nat) by lia. subst j. reflexivity.
Qed.

Lemma syncNow_first_answer_wins_witness :
  let server := config.mkUpstreamServer "pool.ntp.org" 123 2 true in
  ntp.syncNow ntp.NewUpstreamClient sample_servers 3 sample_net sample_now sample_now
  = Some (synced_with server sample_response sample_now sample_now)
  /\ ntp.GetStratum (synced_with server sample_response sample_now sample_now)
     = Z.min (ntp.Response.Stratum sample_response + 1) 15
  /\ ntp.clockOffset (synced_with server sample_response sample_now sample_now)
     = ntp.Response.ClockOffset sample_response
  /\ ntp.ActiveServer (ntp.syncStatus (synced_with server sample_response sample_now sample_now))
     = config.Address server.
Proof.
  apply (syncNow_first_answer_wins ntp.NewUpstreamClient sample_servers
           [config.mkUpstreamServer "time.google.com" 123 3 true] []
           (config.mkUpstreamServer "pool.ntp.org" 123 2 true) 3 sample_net
           sample_now sample_now sample_response).
  - reflexivity.
  - intros k Hk. cbn [List.length] in Hk. assert (k = 0%nat) by lia. subst k.
    exact sample_server_fails.
  - exact sample_server_answers.
  - unfold is_uint8. cbn. lia.
Defined.

(** X13.  With at least one retry a synchronisation cycle always
    completes.  If no server is enabled, or every active server fails all
    its attempts, the snapshot keeps its server, stratum, offset and times
    but is marked unsynchronized with the matching error text; the server
    then reports stratum 16, reference ID 0 and its own clock. *)
Theorem syncNow_failure (c : ntp.UpstreamClient) (configured : list config.UpstreamServer)
    (retries : Z) (net : nat -> nat -> ntp.Attempt) (n1 n2 : time.Time) :
  0 < retries ->
  ntp.syncNow c configured retries net n1 n2 <> None
  /\ (config.GetActiveUpstreams configured = [] ->
      ntp.syncNow c configured retries net n1 n2
      = Some (ntp.markFailed c "No upstream servers configured"))
  /\ (config.GetActiveUpstreams configured <> [] ->
      (forall k, (k < List.length (config.GetActiveUpstreams configured))%nat ->
                 server_fails retries (net k)) ->
      ntp.syncNow c configured retries net n1 n2
      = Some (ntp.markFailed c "All upstream servers failed"))
  /\ (forall msg lookupIP now,
      ntp.GetStratum (ntp.markFailed c msg) = 16
      /\ ntp.GetReferenceID (ntp.markFailed c msg) lookupIP = 0
      /\ ntp.GetCurrentTime (ntp.markFailed c msg) now = now
      /\ ntp.clockOffset (ntp.markFailed c msg) = ntp.clockOffset c
      /\ ntp.ActiveServer (ntp.syncStatus (ntp.markFailed c msg))
         = ntp.ActiveServer (ntp.syncStatus c)
      /\ ntp.LastError (ntp.syncStatus (ntp.markFailed c msg)) = msg).
Proof.
  intros Hr. unfold ntp.syncNow. split; [|split; [|split]].
  - destruct (config.GetActiveUpstreams configured); [discriminate|].
    apply syncLoop_no_panic, Hr.
  - intros ->. reflexivity.
  - intros Hne Hfail. destruct (config.GetActiveUpstreams configured) as [|s l] eqn:E;
      [contradiction|].
    apply syncLoop_all_fail; [exact Hr | exact Hfail].
  - intros msg lookupIP now. repeat split.
Qed.

Lemma syncNow_failure_witness :
  ntp.syncNow sample_upstream sample_servers 3 (fun _ _ => ntp.QueryError "i/o timeout")
    sample_now sample_now <> None
  /\ (config.GetActiveUpstreams sample_servers = [] ->
      ntp.syncNow sample_upstream sample_servers 3 (fun _ _ => ntp.QueryError "i/o timeout")
        sample_now sample_now
      = Some (ntp.markFailed sample_upstream "No upstream servers configured"))
  /\ (config.GetActiveUpstreams sample_servers <> [] ->
      (forall k, (k < List.length (config.GetActiveUpstreams sample_servers))%nat ->
                 server_fails 3 ((fun _ _ => ntp.QueryError "i/o timeout") k)) ->
      ntp.syncNow sample_upstream sample_servers 3 (fun _ _ => ntp.QueryError "i/o timeout")
        sample_now sample_now
      = Some (ntp.markFailed sample_upstream "All upstream servers failed"))
  /\ (forall msg lookupIP now,
      ntp.GetStratum (ntp.markFailed sample_upstream msg) = 16
      /\ ntp.GetReferenceID (ntp.markFailed sample_upstream msg) lookupIP = 0
      /\ ntp.GetCurrentTime (ntp.markFailed sample_upstream msg) now = now
      /\ ntp.clockOffset (ntp.markFailed sample_upstream msg) = ntp.clockOffset sample_upstream
      /\ ntp.ActiveServer (ntp.syncStatus (ntp.markFailed sample_upstream msg))
         = ntp.ActiveServer (ntp.syncStatus sample_upstream)
      /\ ntp.LastError (ntp.syncStatus (ntp.markFailed sample_upstream msg)) = msg).
Proof.
  apply (syncNow_failure sample_upstream sample_servers 3
           (fun _ _ => ntp.QueryError "i/o timeout") sample_now sample_now). lia.
Defined.

(** X14.  With [retries <= 0] and an enabled server, [queryServer] makes
    no attempt and returns a nil response with a nil error, which
    [syncNow] takes for a success: it reads the offset of the nil
    response and the cycle panics. *)
Theorem syncNow_zero_retries_panics (c : ntp.UpstreamClient)
    (configured : list config.UpstreamServer) (retries : Z)
    (net : nat -> nat -> ntp.Attempt) (n1 n2 : time.Time) :
  retries <= 0 -> config.GetActiveUpstreams configured <> [] ->
  ntp.queryServer retries (net 0%nat) = (None, None)
  /\ ntp.syncNow c configured retries net n1 n2 = None.
Proof.
  intros Hr Hne.
  assert (E : ntp.queryServer retries (net 0%nat) = (None, None)).
  { unfold ntp.queryServer. replace (Z.to_nat retries) with 0%nat by lia. reflexivity. }
  split; [exact E|]. unfold ntp.syncNow.
  destruct (config.GetActiveUpstreams configured) as [|s l]; [contradiction|].
  cbn [ntp.syncLoop]. rewrite E. reflexivity.
Qed.

Lemma syncNow_zero_retries_panics_witness :
  ntp.queryServer 0 (sample_net 0%nat) = (None, None)
  /\ ntp.syncNow ntp.NewUpstreamClient sample_servers 0 sample_net sample_now sample_now = None.
Proof.
  apply (syncNow_zero_retries_panics ntp.NewUpstreamClient sample_servers 0 sample_net
           sample_now sample_now); [lia | discriminate].
Defined.

(** X15.  [GetActiveUpstreams] returns the enabled servers in the order
    of the configuration (it does not sort by priority), with a port of 0
    replaced by 123: no server returned is disabled or has port 0. *)
Theorem GetActiveUpstreams_value (servers : list config.UpstreamServer) :
  config.GetActiveUpstreams servers
  = map default_port (List.filter config.ServerEnabled servers)
  /\ (forall s, In s (config.GetActiveUpstreams servers) ->
        config.ServerEnabled s = true /\ config.Port s <> 0
        /\ exists s0, In s0 servers /\ s = default_port s0)
  /\ (List.length (config.GetActiveUpstreams servers) <= List.length servers)%nat.
Proof.
  assert (E : config.GetActiveUpstreams servers
              = map default_port (List.filter config.ServerEnabled servers)).
  { induction servers as [|s l IH]; cbn [config.GetActiveUpstreams List.filter map];
      [reflexivity|].
    destruct (config.ServerEnabled s) eqn:Een; cbn [map]; [|exact IH].
    rewrite IH. unfold default_port. rewrite Een. reflexivity. }
  split; [exact E|]. split.
  - rewrite E. intros s Hin. apply in_map_iff in Hin. destruct Hin as (s0 & <- & Hin).
    apply filter_In in Hin. destruct Hin as [Hin Hen].
    unfold default_port. split; [|split].
    + destruct (config.Port s0 =? 0); [exact Hen | exact Hen].
    + destruct (Z.eqb_spec (config.Port s0) 0) as [H0|H0]; [cbn; lia | exact H0].
    + exists s0. split; [exact Hin | reflexivity].
  - rewrite E, length_map. apply filter_length_le.
Qed.

(** The sample configuration: the servers come out in configuration
    order, priority 3 before priority 2. *)
Example active_upstreams_unsorted :
  map config.Priority (config.GetActiveUpstreams sample_servers) = [3; 2]
  /\ map config.Port (config.GetActiveUpstreams sample_servers) = [123; 123].
Proof. split; reflexivity. Qed.

(** * The request engine: accounting *)

Lemma processRequest_valid (s : server.Server) (env : server.Env)
    (data : list Byte.byte) (clientStr : string) (packet : ntpcore.NTPPacket) :
  ntpcore.ParsePacket data = Ok packet ->
  ntpcore.IsValidClientRequest packet = true ->
  let engine := fst (fst (attack_step s env packet clientStr)) in
  let response := snd (fst (attack_step s env packet clientStr)) in
  let attackName := snd (attack_step s env packet clientStr) in
  let st := server.stats s in
  server.processRequest s env data clientStr
  = (server.mkServer (server.upstream s) engine
       (server.mkStats
          (server.uint64 (server.TotalRequests st + 1))
          (if server.write_ok env then server.uint64 (server.TotalResponses st + 1)
           else server.TotalResponses st)
          (<[clientStr := server.now_seen env]> (server.ActiveClients st))
          (if server.write_ok env then server.ErrorCount st
           else server.uint64 (server.ErrorCount st + 1))
          (if negb (String.eqb attackName "")
           then server.uint64 (server.AttacksExecuted st + 1)
           else server.AttacksExecuted st)),
     Some (ntpcore.Bytes response)).
Proof.
  intros Hparse Hvalid. cbv zeta. unfold server.processRequest, attack_step.
  rewrite Hparse, Hvalid. cbn [negb].
  destruct (if attacks.IsEnabled (server.attackEngine s)
            then attacks.ProcessPacket (server.attackEnv env) (server.attackEngine s)
                   (server.buildResponse s env packet) clientStr
                   (ntp.GetCurrentTime (server.upstream s) (server.now_upstream env))
            else (server.attackEngine s, server.buildResponse s env packet, ""))
    as [[engine response] attackName].
  cbn [fst snd].
  destruct (negb (String.eqb attackName "")), (server.write_ok env); reflexivity.
Qed.

Lemma valid_bits (data : list Byte.byte) (p : ntpcore.NTPPacket) :
  ntpcore.ParsePacket data = Ok p ->
  ntpcore.IsValidClientRequest p
  = (version_mode_bits data =? 27) || (version_mode_bits data =? 35).
Proof.
  intros Hparse.
  destruct (Nat.lt_ge_cases (List.length data) 48) as [Hlt|Hge].
  - rewrite ParsePacket_short in Hparse by assumption. discriminate.
  - take48 data Hge. rewrite ParsePacket_cons48 in Hparse.
    apply (f_equal (fun r => match r with Ok q => q | Err _ => p end)) in Hparse.
    cbv beta iota in Hparse. subst p.
    unfold ntpcore.IsValidClientRequest, ntpcore.ModeClient, ntpcore.VersionNTPv3,
      ntpcore.VersionNTPv4, version_mode_bits.
    cbn [ntpcore.Mode ntpcore.Version nth].
    apply first_byte_valid.
Qed.

Lemma ParsePacket_long (data : list Byte.byte) :
  (48 <= List.length data)%nat -> exists p, ntpcore.ParsePacket data = Ok p.
Proof.
  intros Hge. take48 data Hge. rewrite ParsePacket_cons48. eexists. reflexivity.
Qed.

(** X16.  The server answers a datagram exactly when it has at least 48
    bytes and the low six bits of its first byte are version 3 or 4 with
    mode 3; every answer is a datagram of exactly 48 bytes.  In
    particular a packet in server mode is never answered. *)
Theorem reply_iff_client_request (s : server.Server) (env : server.Env)
    (data : list Byte.byte) (clientStr : string) :
  (snd (server.processRequest s env data clientStr) <> None
   <-> (48 <= List.length data)%nat
       /\ (version_mode_bits data = 27 \/ version_mode_bits data = 35))
  /\ (forall out, snd (server.processRequest s env data clientStr) = Some out ->
                  List.length out = 48%nat).
Proof.
  destruct (Nat.lt_ge_cases (List.length data) 48) as [Hlt|Hge].
  - unfold server.processRequest. rewrite ParsePacket_short by assumption. cbn [snd].
    split; [|discriminate]. split; [congruence | lia].
  - destruct (ParsePacket_long data Hge) as [p Hp].
    pose proof (valid_bits data p Hp) as Hbits.
    destruct (ntpcore.IsValidClientRequest p) eqn:Hvalid.
    + rewrite (processRequest_valid s env data clientStr p Hp Hvalid). cbn [snd].
      split.
      * split; [|discriminate]. intros _. split; [exact Hge|].
        symmetry in Hbits. apply orb_true_iff in Hbits.
        destruct Hbits as [H|H]; apply Z.eqb_eq in H; [left | right]; exact H.
      * intros out Hout. inversion Hout. apply Bytes_length.
    + unfold server.processRequest. rewrite Hp, Hvalid. cbn [negb snd].
      split; [|discriminate]. split; [congruence|].
      intros [_ [H|H]]; rewrite H in Hbits; discriminate Hbits.
Qed.

(** X17.  A datagram that is not answered leaves the server as it was,
    except that one shorter than 48 bytes adds one to the error count:
    requests, responses, known clients, the attack engine and its
    per-client counters are untouched. *)
Theorem unanswered_datagram (s : server.Server) (env : server.Env)
    (data : list Byte.byte) (clientStr : string) :
  snd (server.processRequest s env data clientStr) = None ->
  fst (server.processRequest s env data clientStr)
  = (if (List.length data <? 48)%nat
     then server.mkServer (server.upstream s) (server.attackEngine s)
            (server.mkStats (server.TotalRequests (server.stats s))
               (server.TotalResponses (server.stats s))
               (server.ActiveClients (server.stats s))
               (server.uint64 (server.ErrorCount (server.stats s) + 1))
               (server.AttacksExecuted (server.stats s)))
     else s).
Proof.
  intros Hnone.
  destruct (Nat.ltb_spec (List.length data) 48) as [Hlt|Hge].
  - unfold server.processRequest. rewrite ParsePacket_short by assumption. reflexivity.
  - destruct (ParsePacket_long data Hge) as [p Hp].
    destruct (ntpcore.IsValidClientRequest p) eqn:Hvalid.
    + rewrite (processRequest_valid s env data clientStr p Hp Hvalid) in Hnone.
      discriminate Hnone.
    + unfold server.processRequest. rewrite Hp, Hvalid. reflexivity.
Qed.

Lemma unanswered_datagram_witness :
  fst (server.processRequest (sample_server security_off) (sample_env [])
         (firstn 47 sample_datagram) sample_client)
  = (if (List.length (firstn 47 sample_datagram) <? 48)%nat
     then server.mkServer (server.upstream (sample_server security_off))
            (server.attackEngine (sample_server security_off))
            (server.mkStats (server.TotalRequests (server.stats (sample_server security_off)))
               (server.TotalResponses (server.stats (sample_server security_off)))
               (server.ActiveClients (server.stats (sample_server security_off)))
               (server.uint64
                  (server.ErrorCount (server.stats (sample_server security_off)) + 1))
               (server.AttacksExecuted (server.stats (sample_server security_off))))
     else sample_server security_off).
Proof.
  apply (unanswered_datagram (sample_server security_off) (sample_env [])
           (firstn 47 sample_datagram) sample_client).
  reflexivity.
Defined.

(** X18.  A valid client request is counted once ([TotalRequests] + 1,
    modulo 2^64) and its sender recorded as seen at the reading of the
    clock; then exactly one of [TotalResponses] and [ErrorCount] grows by
    one, by whether the socket write succeeds.  The upstream snapshot is
    not changed, and with security mode off neither are the attack
    engine and [AttacksExecuted]. *)
Theorem valid_request_accounting (s : server.Server) (env : server.Env)
    (data : list Byte.byte) (clientStr : string) (packet : ntpcore.NTPPacket) :
  ntpcore.ParsePacket data = Ok packet ->
  ntpcore.IsValidClientRequest packet = true ->
  let s' := fst (server.processRequest s env data clientStr) in
  let st := server.stats s in
  let st' := server.stats s' in
  server.upstream s' = server.upstream s
  /\ server.TotalRequests st' = server.uint64 (server.TotalRequests st + 1)
  /\ server.ActiveClients st' = <[clientStr := server.now_seen env]> (server.ActiveClients st)
  /\ server.ActiveClients st' !! clientStr = Some (server.now_seen env)
  /\ server.TotalResponses st'
     = (if server.write_ok env then server.uint64 (server.TotalResponses st + 1)
        else server.TotalResponses st)
  /\ server.ErrorCount st'
     = (if server.write_ok env then server.ErrorCount st
        else server.uint64 (server.ErrorCount st + 1))
  /\ (server.AttacksExecuted st' = server.AttacksExecuted st
      \/ server.AttacksExecuted st' = server.uint64 (server.AttacksExecuted st + 1))
  /\ (attacks.IsEnabled (server.attackEngine s) = false ->
      server.attackEngine s' = server.attackEngine s
      /\ server.AttacksExecuted st' = server.AttacksExecuted st).
Proof.
  intros Hparse Hvalid. cbv zeta.
  rewrite (processRequest_valid s env data clientStr packet Hparse Hvalid).
  cbn [fst server.upstream server.stats server.attackEngine server.TotalRequests
       server.TotalResponses server.ActiveClients server.ErrorCount server.AttacksExecuted].
  split; [reflexivity|]. split; [reflexivity|]. split; [reflexivity|].
  split; [apply lookup_insert_eq|]. split; [reflexivity|]. split; [reflexivity|].
  split.
  - destruct (negb (String.eqb (snd (attack_step s env packet clientStr)) ""));
      [right | left]; reflexivity.
  - intros Hoff. unfold attack_step. rewrite Hoff. split; reflexivity.
Qed.

Lemma valid_request_accounting_witness :
  let s := sample_server security_off in
  let env := sample_env [] in
  let s' := fst (server.processRequest s env sample_datagram sample_client) in
  let st := server.stats s in
  let st' := server.stats s' in
  server.upstream s' = server.upstream s
  /\ server.TotalRequests st' = server.uint64 (server.TotalRequests st + 1)
  /\ server.ActiveClients st'
     = <[sample_client := server.now_seen env]> (server.ActiveClients st)
  /\ server.ActiveClients st' !! sample_client = Some (server.now_seen env)
  /\ server.TotalResponses st'
     = (if server.write_ok env then server.uint64 (server.TotalResponses st + 1)
        else server.TotalResponses st)
  /\ server.ErrorCount st'
     = (if server.write_ok env then server.ErrorCount st
        else server.uint64 (server.ErrorCount st + 1))
  /\ (server.AttacksExecuted st' = server.AttacksExecuted st
      \/ server.AttacksExecuted st' = server.uint64 (server.AttacksExecuted st + 1))
  /\ (attacks.IsEnabled (server.attackEngine s) = false ->
      server.attackEngine s' = server.attackEngine s
      /\ server.AttacksExecuted st' = server.AttacksExecuted st).
Proof.
  apply (valid_request_accounting (sample_server security_off) (sample_env [])
           sample_datagram sample_client sample_packet).
  - exact sample_datagram_parses.
  - reflexivity.
Defined.

(** X19.  In security mode the engine's per-client counter advances by
    one for every valid request handled by the server, and
    [AttacksExecuted] grows by one exactly when the engine reports an
    attack by name; a datagram that is not answered does not reach the
    engine. *)
Theorem engine_counts_valid_requests (s : server.Server) (env : server.Env)
    (data : list Byte.byte) (clientStr : string) (packet : ntpcore.NTPPacket) :
  attacks.IsEnabled (server.attackEngine s) = true ->
  ntpcore.ParsePacket data = Ok packet ->
  let s' := fst (server.processRequest s env data clientStr) in
  let counts := attacks.requestCount (server.attackEngine s) in
  let name := snd (attacks.ProcessPacket (server.attackEnv env) (server.attackEngine s)
                     (server.buildResponse s env packet) clientStr
                     (ntp.GetCurrentTime (server.upstream s) (server.now_upstream env))) in
  (ntpcore.IsValidClientRequest packet = true ->
   attacks.requestCount (server.attackEngine s')
   = <[clientStr := int64 (default 0 (counts !! clientStr) + 1)]> counts
   /\ server.AttacksExecuted (server.stats s')
      = (if String.eqb name ""
         then server.AttacksExecuted (server.stats s)
         else server.uint64 (server.AttacksExecuted (server.stats s) + 1)))
  /\ (ntpcore.IsValidClientRequest packet = false -> s' = s).
Proof.
  intros Hon Hparse. cbv zeta. split.
  - intros Hvalid.
    rewrite (processRequest_valid s env data clientStr packet Hparse Hvalid).
    cbn [fst server.stats server.attackEngine server.AttacksExecuted].
    unfold attack_step. rewrite Hon. split.
    + apply ProcessPacket_requestCount. exact Hon.
    + destruct (String.eqb _ ""); reflexivity.
  - intros Hinvalid. unfold server.processRequest. rewrite Hparse, Hinvalid. reflexivity.
Qed.

Lemma engine_counts_valid_requests_witness :
  let s := sample_server (security true "kiss_of_death" true 1 "y2k38" "RATE") in
  let env := sample_env [] in
  let s' := fst (server.processRequest s env sample_datagram sample_client) in
  let counts := attacks.requestCount (server.attackEngine s) in
  let name := snd (attacks.ProcessPacket (server.attackEnv env) (server.attackEngine s)
                     (server.buildResponse s env sample_packet) sample_client
                     (ntp.GetCurrentTime (server.upstream s) (server.now_upstream env))) in
  (ntpcore.IsValidClientRequest sample_packet = true ->
   attacks.requestCount (server.attackEngine s')
   = <[sample_client := int64 (default 0 (counts !! sample_client) + 1)]> counts
   /\ server.AttacksExecuted (server.stats s')
      = (if String.eqb name ""
         then server.AttacksExecuted (server.stats s)
         else server.uint64 (server.AttacksExecuted (server.stats s) + 1)))
  /\ (ntpcore.IsValidClientRequest sample_packet = false -> s' = s).
Proof.
  apply (engine_counts_valid_requests
           (sample_server (security true "kiss_of_death" true 1 "y2k38" "RATE"))
           (sample_env []) sample_datagram sample_client sample_packet).
  - reflexivity.
  - exact sample_datagram_parses.
Defined.

(** X20.  [identifyClient] answers "Unknown" exactly for a version other
    than 3 and 4, so never for a packet that passes
    [IsValidClientRequest]; and the poll value alone separates the names
    given to a version. *)
Theorem identifyClient_unknown (p : ntpcore.NTPPacket) :
  (server.identifyClient p = "Unknown"
   <-> ntpcore.Version p <> 3 /\ ntpcore.Version p <> 4)
  /\ (ntpcore.IsValidClientRequest p = true -> server.identifyClient p <> "Unknown")
  /\ (forall q, ntpcore.Version q = ntpcore.Version p -> ntpcore.Poll q = ntpcore.Poll p ->
                server.identifyClient q = server.identifyClient p).
Proof.
  assert (Hiff : server.identifyClient p = "Unknown"
                 <-> ntpcore.Version p <> 3 /\ ntpcore.Version p <> 4).
  { unfold server.identifyClient.
    destruct (Z.eqb_spec (ntpcore.Version p) 3) as [E3|N3].
    - split; [|lia]. destruct (ntpcore.Poll p =? 6); discriminate.
    - destruct (Z.eqb_spec (ntpcore.Version p) 4) as [E4|N4].
      + split; [|lia].
        destruct (ntpcore.Poll p =? 6); [discriminate|].
        destruct (ntpcore.Poll p =? 7); [discriminate|].
        destruct (ntpcore.Poll p =? 10); discriminate.
      + split; [intros _; split; assumption | reflexivity]. }
  split; [exact Hiff|]. split.
  - intros Hvalid Hunk. apply Hiff in Hunk.
    apply IsValidClientRequest_spec in Hvalid. lia.
  - intros q Hv Hp. unfold server.identifyClient. rewrite Hv, Hp. reflexivity.
Qed.

(** X21.  One cleanup tick keeps exactly the clients last seen at most
    five minutes before the tick and changes no counter; a second tick
    at the same instant removes nothing more. *)
Theorem cleanupTick_keeps_recent (st : server.ServerStats) (now : time.Time) :
  let st' := server.cleanupTick st now in
  (forall addr lastSeen,
     server.ActiveClients st' !! addr = Some lastSeen
     <-> server.ActiveClients st !! addr = Some lastSeen
         /\ time.Sub now lastSeen <= 5 * time.Minute)
  /\ server.TotalRequests st' = server.TotalRequests st
  /\ server.TotalResponses st' = server.TotalResponses st
  /\ server.ErrorCount st' = server.ErrorCount st
  /\ server.AttacksExecuted st' = server.AttacksExecuted st
  /\ server.cleanupTick st' now = st'.
Proof.
  cbv zeta. unfold server.cleanupTick.
  cbn [server.ActiveClients server.TotalRequests server.TotalResponses
       server.ErrorCount server.AttacksExecuted].
  split.
  - intros addr lastSeen. rewrite map_lookup_filter_Some. cbn [snd]. reflexivity.
  - split; [reflexivity|]. split; [reflexivity|]. split; [reflexivity|].
    split; [reflexivity|]. f_equal.
    apply map_eq. intros addr. apply option_eq. intros lastSeen.
    rewrite !map_lookup_filter_Some. cbn [snd]. tauto.
Qed.

(** * The attack engine *)

Ltac switch_off H :=
  cbn [attacks.cfg]; rewrite H; reflexivity.

Lemma ProcessPacket_switch_off (env : attacks.Env) (e : attacks.AttackEngine)
    (packet : ntpcore.NTPPacket) (clientAddr : string) (realTime : time.Time) :
  attacks.IsEnabled e = true ->
  attack_switch (config.Security (attacks.cfg e)) (attacks.GetActiveAttack e) = false ->
  attacks.ProcessPacket env e packet clientAddr realTime
  = (counted e clientAddr, packet, "").
Proof.
  unfold attacks.IsEnabled, attacks.GetActiveAttack, attack_switch, attacks.ProcessPacket,
    counted. intros Hon Hsw. rewrite Hon. cbn [negb attacks.cfg].
  destruct (String.eqb _ attacks.AttackTimeSpoofing);
    [unfold attacks.applyTimeSpoofing; switch_off Hsw|].
  destruct (String.eqb _ attacks.AttackTimeDrift);
    [unfold attacks.applyTimeDrift; switch_off Hsw|].
  destruct (String.eqb _ attacks.AttackKissOfDeath);
    [unfold attacks.applyKissOfDeath; switch_off Hsw|].
  destruct (String.eqb _ attacks.AttackStratumLie);
    [unfold attacks.applyStratumLie; switch_off Hsw|].
  destruct (String.eqb _ attacks.AttackLeapSecond);
    [unfold attacks.applyLeapSecond; switch_off Hsw|].
  destruct (String.eqb _ attacks.AttackRollover);
    [unfold attacks.applyRollover; switch_off Hsw|].
  destruct (String.eqb _ attacks.AttackClockStep);
    [unfold attacks.applyClockStep; switch_off Hsw|].
  destruct (String.eqb _ attacks.AttackFuzzing);
    [unfold attacks.applyFuzzing; switch_off Hsw|].
  reflexivity.
Qed.

(** X22.  In security mode an attack is applied only if its own switch
    is on as well: when the active attack's switch is off, or the active
    attack is not one of the eight names, [ProcessPacket] counts the
    request and returns the packet unchanged with no attack name.  So a
    response that carries an attack name, or differs from the packet
    handed in, shows that the switch of the active attack is on. *)
Theorem attack_needs_its_switch (env : attacks.Env) (e : attacks.AttackEngine)
    (packet : ntpcore.NTPPacket) (clientAddr : string) (realTime : time.Time) :
  attacks.IsEnabled e = true ->
  let r := attacks.ProcessPacket env e packet clientAddr realTime in
  let armed := attack_switch (config.Security (attacks.cfg e)) (attacks.GetActiveAttack e) in
  (armed = false -> r = (counted e clientAddr, packet, ""))
  /\ (snd r <> "" -> armed = true)
  /\ (snd (fst r) <> packet -> armed = true).
Proof.
  intros Hon. cbv zeta.
  pose proof (ProcessPacket_switch_off env e packet clientAddr realTime Hon) as Hoff.
  split; [exact Hoff|].
  destruct (attack_switch _ _); split; intros H; try reflexivity;
    rewrite (Hoff eq_refl) in H; contradiction H; reflexivity.
Qed.

Lemma attack_needs_its_switch_witness :
  let e := sample_engine (security true "stratum_attack" false 1 "y2k38" "DENY") in
  let r := attacks.ProcessPacket (sample_attack_env []) e sample_packet sample_client
             sample_now in
  let armed := attack_switch (config.Security (attacks.cfg e)) (attacks.GetActiveAttack e) in
  (armed = false -> r = (counted e sample_client, sample_packet, ""))
  /\ (snd r <> "" -> armed = true)
  /\ (snd (fst r) <> sample_packet -> armed = true).
Proof.
  apply (attack_needs_its_switch (sample_attack_env [])
           (sample_engine (security true "stratum_attack" false 1 "y2k38" "DENY"))
           sample_packet sample_client sample_now); reflexivity.
Defined.

Lemma ProcessPacket_kod (env : attacks.Env) (e : attacks.AttackEngine)
    (packet : ntpcore.NTPPacket) (clientAddr : string) (realTime : time.Time) :
  attacks.IsEnabled e = true ->
  attacks.GetActiveAttack e = attacks.AttackKissOfDeath ->
  attacks.ProcessPacket env e packet clientAddr realTime
  = (counted e clientAddr,
     fst (attacks.applyKissOfDeath (counted e clientAddr) packet clientAddr
            (int64 (default 0 (attacks.requestCount e !! clientAddr) + 1))),
     snd (attacks.applyKissOfDeath (counted e clientAddr) packet clientAddr
            (int64 (default 0 (attacks.requestCount e !! clientAddr) + 1)))).
Proof.
  unfold attacks.IsEnabled, attacks.GetActiveAttack, attacks.ProcessPacket, counted.
  intros Hon Hattack. rewrite Hon. cbn [negb attacks.cfg]. rewrite Hattack.
  unfold attacks.AttackKissOfDeath, attacks.AttackTimeSpoofing, attacks.AttackTimeDrift.
  eval_string_eqb.
  destruct (attacks.applyKissOfDeath _ _ _ _). reflexivity.
Qed.

Lemma applyKissOfDeath_cases (e : attacks.AttackEngine) (packet : ntpcore.NTPPacket)
    (clientAddr : string) (count : Z) :
  config.KissOfDeathConfig.Enabled
    (config.KissOfDeath (config.Security (attacks.cfg e))) = true ->
  let k := config.KissOfDeathConfig.Interval
             (config.KissOfDeath (config.Security (attacks.cfg e))) in
  let code := config.KissOfDeathConfig.Code
                (config.KissOfDeath (config.Security (attacks.cfg e))) in
  let r := attacks.applyKissOfDeath e packet clientAddr count in
  if (k >? 0) && negb (Z.rem count k =? 0)
  then r = (packet, "")
  else ntpcore.Stratum (fst r) = 0
       /\ ntpcore.LeapIndicator (fst r) = ntpcore.LeapAlarm
       /\ ntpcore.GetKissOfDeathCode (fst r) = kod_code_sent code
       /\ snd r = kod_name code.
Proof.
  intros Hon. cbv zeta. unfold attacks.applyKissOfDeath. rewrite Hon. cbn [negb].
  destruct ((_ >? 0) && _); [reflexivity|].
  cbn [fst snd]. unfold kod_code_sent.
  destruct (Nat.eqb_spec
              (String.length (config.KissOfDeathConfig.Code
                 (config.KissOfDeath (config.Security (attacks.cfg e))))) 4) as [Hlen|Hlen].
  - destruct (SetKissOfDeathCode_4
                (ntpcore.set_LeapIndicator (ntpcore.set_Stratum packet 0) ntpcore.LeapAlarm)
                _ Hlen) as [Eset Eget].
    rewrite Eset, Eget. repeat split.
  - assert (Efail : forall p, ntpcore.SetKissOfDeathCode p
                       (config.KissOfDeathConfig.Code
                          (config.KissOfDeath (config.Security (attacks.cfg e))))
                     = (p, Some "kiss code must be exactly 4 characters")).
    { intros p. unfold ntpcore.SetKissOfDeathCode.
      destruct (Z.eqb_spec (Z.of_nat (String.length (config.KissOfDeathConfig.Code
                   (config.KissOfDeath (config.Security (attacks.cfg e)))))) 4) as [E|E];
        [lia | reflexivity]. }
    rewrite Efail. repeat split.
Qed.

Lemma consecutive_requests_state (n : nat) (env : attacks.Env) (e : attacks.AttackEngine)
    (packet : ntpcore.NTPPacket) (clientAddr : string) (realTime : time.Time) :
  attacks.IsEnabled e = true ->
  attacks.GetActiveAttack e = attacks.AttackKissOfDeath ->
  attacks.requestCount e !! clientAddr = None ->
  Z.of_nat n < 9223372036854775808 ->
  let e' := fst (fst (consecutive_requests n env e packet clientAddr realTime)) in
  attacks.cfg e' = attacks.cfg e
  /\ default 0 (attacks.requestCount e' !! clientAddr) = Z.of_nat n.
Proof.
  intros Hon Hattack Hfresh. induction n as [|n IH]; intros Hn; cbv zeta.
  - cbn [consecutive_requests fst]. rewrite Hfresh. split; reflexivity.
  - cbn [consecutive_requests]. destruct IH as [Hcfg Hcount]; [lia|].
    set (e1 := fst (fst (consecutive_requests n env e packet clientAddr realTime))) in *.
    rewrite ProcessPacket_kod.
    + cbn [fst]. unfold counted. cbn [attacks.cfg attacks.requestCount].
      split; [exact Hcfg|]. rewrite lookup_insert_eq. cbn [default].
      rewrite Hcount. unfold id, int64. Z.div_mod_to_equations. lia.
    + unfold attacks.IsEnabled in *. rewrite Hcfg. exact Hon.
    + unfold attacks.GetActiveAttack in *. rewrite Hcfg. exact Hattack.
Qed.

(** X23.  With the Kiss-of-Death attack armed and an interval [k > 0],
    of the requests of one client counted from a reset of the counters
    exactly every [k]-th is answered with a Kiss-of-Death (stratum 0,
    leap indicator 3, the configured code if it has four bytes and
    "DENY" otherwise); the others pass unchanged and unnamed.  With
    [k <= 0] every request is answered with one. *)
Theorem kod_every_interval (n : nat) (env : attacks.Env) (e : attacks.AttackEngine)
    (packet : ntpcore.NTPPacket) (clientAddr : string) (realTime : time.Time) :
  attacks.IsEnabled e = true ->
  attacks.GetActiveAttack e = attacks.AttackKissOfDeath ->
  config.KissOfDeathConfig.Enabled
    (config.KissOfDeath (config.Security (attacks.cfg e))) = true ->
  (1 <= n)%nat -> Z.of_nat n < 9223372036854775808 ->
  let k := config.KissOfDeathConfig.Interval
             (config.KissOfDeath (config.Security (attacks.cfg e))) in
  let code := config.KissOfDeathConfig.Code
                (config.KissOfDeath (config.Security (attacks.cfg e))) in
  let r := consecutive_requests n env (attacks.ResetRequestCounts e) packet clientAddr
             realTime in
  attacks.requestCount (fst (fst r)) !! clientAddr = Some (Z.of_nat n)
  /\ (if (0 <? k) && negb (Z.of_nat n mod k =? 0)
      then snd (fst r) = packet /\ snd r = ""
      else ntpcore.Stratum (snd (fst r)) = 0
           /\ ntpcore.LeapIndicator (snd (fst r)) = ntpcore.LeapAlarm
           /\ ntpcore.GetKissOfDeathCode (snd (fst r)) = kod_code_sent code
           /\ snd r = kod_name code).
Proof.
  intros Hon Hattack Hsw Hn1 Hn. cbv zeta.
  destruct n as [|n]; [lia|]. cbn [consecutive_requests].
  destruct (consecutive_requests_state n env (attacks.ResetRequestCounts e) packet
              clientAddr realTime Hon Hattack) as [Hcfg Hcount];
    [apply lookup_empty | lia|].
  set (e1 := fst (fst (consecutive_requests n env (attacks.ResetRequestCounts e) packet
                         clientAddr realTime))) in *.
  change (attacks.cfg (attacks.ResetRequestCounts e)) with (attacks.cfg e) in Hcfg.
  assert (Hon1 : attacks.IsEnabled e1 = true)
    by (unfold attacks.IsEnabled in *; rewrite Hcfg; exact Hon).
  assert (Hattack1 : attacks.GetActiveAttack e1 = attacks.AttackKissOfDeath)
    by (unfold attacks.GetActiveAttack in *; rewrite Hcfg; exact Hattack).
  rewrite (ProcessPacket_kod env e1 packet clientAddr realTime Hon1 Hattack1).
  cbn [fst snd]. rewrite Hcount.
  assert (Ecount : int64 (Z.of_nat n + 1) = Z.of_nat (S n))
    by (unfold int64; Z.div_mod_to_equations; lia).
  rewrite Ecount. split.
  - unfold counted. cbn [attacks.requestCount]. rewrite lookup_insert_eq, Hcount, Ecount.
    reflexivity.
  - pose proof (applyKissOfDeath_cases (counted e1 clientAddr) packet clientAddr
                  (Z.of_nat (S n))) as Hcases.
    change (attacks.cfg (counted e1 clientAddr)) with (attacks.cfg e1) in Hcases.
    rewrite Hcfg in Hcases. specialize (Hcases Hsw). cbv zeta in Hcases.
    set (k := config.KissOfDeathConfig.Interval
                (config.KissOfDeath (config.Security (attacks.cfg e)))) in *.
    assert (Egate : (k >? 0) && negb (Z.rem (Z.of_nat (S n)) k =? 0)
                    = (0 <? k) && negb (Z.of_nat (S n) mod k =? 0)).
    { rewrite Z.gtb_ltb. destruct (Z.ltb_spec 0 k) as [Hk|Hk]; [|reflexivity].
      rewrite Z.rem_mod_nonneg by lia. reflexivity. }
    rewrite Egate in Hcases.
    destruct ((0 <? k) && negb (Z.of_nat (S n) mod k =? 0)).
    + rewrite Hcases. split; reflexivity.
    + exact Hcases.
Qed.

Lemma kod_every_interval_witness :
  let e := sample_engine
             (config.set_KissOfDeath (security true "kiss_of_death" true 1 "y2k38" "RATE")
                (config.KissOfDeathConfig.mk true "RATE" 3)) in
  let k := config.KissOfDeathConfig.Interval
             (config.KissOfDeath (config.Security (attacks.cfg e))) in
  let code := config.KissOfDeathConfig.Code
                (config.KissOfDeath (config.Security (attacks.cfg e))) in
  let r := consecutive_requests 6 (sample_attack_env []) (attacks.ResetRequestCounts e)
             sample_packet sample_client sample_now in
  attacks.requestCount (fst (fst r)) !! sample_client = Some (Z.of_nat 6)
  /\ (if (0 <? k) && negb (Z.of_nat 6 mod k =? 0)
      then snd (fst r) = sample_packet /\ snd r = ""
      else ntpcore.Stratum (snd (fst r)) = 0
           /\ ntpcore.LeapIndicator (snd (fst r)) = ntpcore.LeapAlarm
           /\ ntpcore.GetKissOfDeathCode (snd (fst r)) = kod_code_sent code
           /\ snd r = kod_name code).
Proof.
  apply (kod_every_interval 6 (sample_attack_env [])
           (sample_engine
              (config.set_KissOfDeath (security true "kiss_of_death" true 1 "y2k38" "RATE")
                 (config.KissOfDeathConfig.mk true "RATE" 3)))
           sample_packet sample_client sample_now);
    try reflexivity; lia.
Defined.

(** ** The attacks on the timestamps *)

Lemma Add_wf (t : time.Time) (d : Z) : time.wf_Time t -> time.wf_Time (time.Add t d).
Proof.
  unfold time.wf_Time, time.Add. intros Hwf.
  assert (Hrem : -1000000000 < Z.rem d 1000000000 < 1000000000)
    by (Z.to_euclidean_division_equations; lia).
  destruct (Z.leb_spec 1000000000 (time.nsec t + Z.rem d 1000000000)); cbn [time.nsec];
    [lia|].
  destruct (Z.ltb_spec (time.nsec t + Z.rem d 1000000000) 0); cbn [time.nsec]; lia.
Qed.

Lemma Add_seconds (t : time.Time) (s : Z) :
  time.wf_Time t ->
  time.Add t (s * 1000000000) = time.mkTime (time.unixSec t + s) (time.nsec t).
Proof.
  unfold time.wf_Time, time.Add. intros Hwf.
  assert (Hq : Z.quot (s * 1000000000) 1000000000 = s) by (apply Z.quot_mul; lia).
  assert (Hr : Z.rem (s * 1000000000) 1000000000 = 0) by (apply Z.rem_mul; lia).
  rewrite Hq, Hr, Z.add_0_r.
  destruct (Z.leb_spec 1000000000 (time.nsec t)); [lia|].
  destruct (Z.ltb_spec (time.nsec t) 0); [lia|]. reflexivity.
Qed.

Lemma setTimes_stamped (packet : ntpcore.NTPPacket) (t : time.Time) :
  time.wf_Time t -> attacks.setTimes packet t = stamped packet t.
Proof.
  intros Hwf. unfold attacks.setTimes, stamped.
  unfold ntpcore.SetReceiveTime, ntpcore.SetTransmitTime, ntpcore.SetReferenceTime.
  change (- time.Second) with ((-1) * 1000000000).
  rewrite (Add_seconds t (-1) Hwf).
  rewrite (TimeToNTPTimestamp_any_era t Hwf).
  rewrite (TimeToNTPTimestamp_any_era (time.mkTime (time.unixSec t + -1) (time.nsec t)))
    by exact Hwf.
  cbn [ntpcore.Seconds ntpcore.Fraction time.unixSec time.nsec
       ntpcore.LeapIndicator ntpcore.Version ntpcore.Mode ntpcore.Stratum ntpcore.Poll
       ntpcore.Precision ntpcore.RootDelay ntpcore.RootDisp ntpcore.ReferenceID
       ntpcore.RefTimeSec ntpcore.RefTimeFrac ntpcore.OrigTimeSec ntpcore.OrigTimeFrac
       ntpcore.RecvTimeSec ntpcore.RecvTimeFrac ntpcore.XmitTimeSec ntpcore.XmitTimeFrac].
  replace (time.unixSec t + -1 + 2208988800) with (time.unixSec t - 1 + 2208988800) by lia.
  reflexivity.
Qed.

Lemma applyTimeSpoofing_result (env : attacks.Env) (e : attacks.AttackEngine)
    (packet : ntpcore.NTPPacket) (realTime : time.Time) :
  time.wf_Time realTime ->
  (forall s t, attacks.parseRFC3339 env s = Some t -> time.wf_Time t) ->
  time_attack_result packet (attacks.applyTimeSpoofing env e packet realTime).
Proof.
  intros Hwf Hparse. unfold attacks.applyTimeSpoofing.
  destruct (config.TimeSpoofingConfig.Enabled _); cbn [negb]; [|left; reflexivity].
  right. eexists. split; [|split; [reflexivity | discriminate]].
  destruct (negb (String.eqb _ "")); [|apply Add_wf, Hwf].
  destruct (attacks.parseRFC3339 env _) as [parsed|] eqn:E;
    [exact (Hparse _ _ E) | apply Add_wf, Hwf].
Qed.

Lemma applyTimeDrift_result (env : attacks.Env) (e : attacks.AttackEngine)
    (packet : ntpcore.NTPPacket) (realTime : time.Time) :
  time.wf_Time realTime ->
  time_attack_result packet
    (snd (fst (attacks.applyTimeDrift env e packet realTime)),
     snd (attacks.applyTimeDrift env e packet realTime)).
Proof.
  intros Hwf. unfold attacks.applyTimeDrift.
  destruct (config.TimeDriftConfig.Enabled _); cbn [negb fst snd]; [|left; reflexivity].
  right. eexists. split; [|split; [reflexivity | discriminate]].
  apply Add_wf, Hwf.
Qed.

Lemma applyRollover_result (e : attacks.AttackEngine) (packet : ntpcore.NTPPacket) :
  time_attack_result packet (attacks.applyRollover e packet).
Proof.
  unfold attacks.applyRollover.
  destruct (config.RolloverConfig.Enabled _); cbn [negb]; [|left; reflexivity].
  right.
  destruct (String.eqb _ "y2k38");
    [|destruct (String.eqb _ "ntp_era"); [|destruct (String.eqb _ "custom")]];
    (eexists; split; [|split; [reflexivity | discriminate]]);
    unfold time.wf_Time, time.Date; cbn [time.nsec]; lia.
Qed.

Lemma applyClockStep_result (e : attacks.AttackEngine) (packet : ntpcore.NTPPacket)
    (realTime : time.Time) (count : Z) :
  time.wf_Time realTime ->
  time_attack_result packet (attacks.applyClockStep e packet realTime count).
Proof.
  intros Hwf. unfold attacks.applyClockStep.
  destruct (config.ClockStepConfig.Enabled _); cbn [negb]; [|left; reflexivity].
  destruct ((_ >? 0) && _); [left; reflexivity|].
  right. eexists. split; [|split; [reflexivity | discriminate]].
  apply Add_wf, Hwf.
Qed.

Lemma time_attack_dispatch (env : attacks.Env) (e : attacks.AttackEngine)
    (packet : ntpcore.NTPPacket) (clientAddr : string) (realTime : time.Time) :
  attacks.IsEnabled e = true ->
  is_time_attack (attacks.GetActiveAttack e) = true ->
  time.wf_Time realTime ->
  (forall s t, attacks.parseRFC3339 env s = Some t -> time.wf_Time t) ->
  time_attack_result packet
    (snd (fst (attacks.ProcessPacket env e packet clientAddr realTime)),
     snd (attacks.ProcessPacket env e packet clientAddr realTime)).
Proof.
  unfold attacks.IsEnabled, attacks.GetActiveAttack, is_time_attack, attacks.ProcessPacket.
  intros Hon Hattack Hwf Hparse. rewrite Hon. cbn [negb attacks.cfg].
  destruct (String.eqb _ attacks.AttackTimeSpoofing) eqn:E1.
  { pose proof (applyTimeSpoofing_result env
                  {| attacks.cfg := attacks.cfg e; attacks.driftState := attacks.driftState e;
                     attacks.requestCount :=
                       <[clientAddr := int64 (default 0 (attacks.requestCount e !! clientAddr) + 1)]>
                         (attacks.requestCount e) |} packet realTime Hwf Hparse) as H.
    destruct (attacks.applyTimeSpoofing _ _ _ _) as [p name]. exact H. }
  destruct (String.eqb _ attacks.AttackTimeDrift) eqn:E2.
  { apply applyTimeDrift_result, Hwf. }
  destruct (String.eqb _ attacks.AttackKissOfDeath) eqn:E3.
  { apply String.eqb_eq in E3. rewrite E3 in Hattack. discriminate Hattack. }
  destruct (String.eqb _ attacks.AttackStratumLie) eqn:E4.
  { apply String.eqb_eq in E4. rewrite E4 in Hattack. discriminate Hattack. }
  destruct (String.eqb _ attacks.AttackLeapSecond) eqn:E5.
  { apply String.eqb_eq in E5. rewrite E5 in Hattack. discriminate Hattack. }
  destruct (String.eqb _ attacks.AttackRollover) eqn:E6.
  { pose proof (applyRollover_result
                  {| attacks.cfg := attacks.cfg e; attacks.driftState := attacks.driftState e;
                     attacks.requestCount :=
                       <[clientAddr := int64 (default 0 (attacks.requestCount e !! clientAddr) + 1)]>
                         (attacks.requestCount e) |} packet) as H.
    destruct (attacks.applyRollover _ _) as [p name]. exact H. }
  destruct (String.eqb _ attacks.AttackClockStep) eqn:E7.
  { pose proof (applyClockStep_result
                  {| attacks.cfg := attacks.cfg e; attacks.driftState := attacks.driftState e;
                     attacks.requestCount :=
                       <[clientAddr := int64 (default 0 (attacks.requestCount e !! clientAddr) + 1)]>
                         (attacks.requestCount e) |} packet realTime
                  (int64 (default 0 (attacks.requestCount e !! clientAddr) + 1)) Hwf) as H.
    destruct (attacks.applyClockStep _ _ _ _) as [p name]. exact H. }
  cbn in Hattack. discriminate Hattack.
Qed.

(** X24.  Under each of the four time attacks (time spoofing, drift,
    rollover, clock step) the packet either passes unchanged and
    unnamed, or all its timestamps are written from one instant: receive
    and transmit are equal, the reference timestamp is exactly one
    second earlier with the same fraction, and the header, root delay
    and dispersion, reference ID and origin timestamp stay as they
    were. *)
Theorem time_attack_timestamps (env : attacks.Env) (e : attacks.AttackEngine)
    (packet : ntpcore.NTPPacket) (clientAddr : string) (realTime : time.Time) :
  attacks.IsEnabled e = true ->
  is_time_attack (attacks.GetActiveAttack e) = true ->
  time.wf_Time realTime ->
  (forall s t, attacks.parseRFC3339 env s = Some t -> time.wf_Time t) ->
  let r := attacks.ProcessPacket env e packet clientAddr realTime in
  let p' := snd (fst r) in
  (snd r = "" /\ p' = packet)
  \/ (snd r <> ""
      /\ (exists fakeTime, time.wf_Time fakeTime /\ p' = stamped packet fakeTime)
      /\ ntpcore.RecvTimeSec p' = ntpcore.XmitTimeSec p'
      /\ ntpcore.RecvTimeFrac p' = ntpcore.XmitTimeFrac p'
      /\ ntpcore.RefTimeFrac p' = ntpcore.XmitTimeFrac p'
      /\ ntpcore.RefTimeSec p' = (ntpcore.XmitTimeSec p' - 1) mod 4294967296
      /\ ntpcore.OrigTimeSec p' = ntpcore.OrigTimeSec packet
      /\ ntpcore.OrigTimeFrac p' = ntpcore.OrigTimeFrac packet
      /\ ntpcore.Version p' = ntpcore.Version packet
      /\ ntpcore.Mode p' = ntpcore.Mode packet
      /\ ntpcore.Stratum p' = ntpcore.Stratum packet
      /\ ntpcore.LeapIndicator p' = ntpcore.LeapIndicator packet).
Proof.
  intros Hon Hattack Hwf Hparse. cbv zeta.
  destruct (time_attack_dispatch env e packet clientAddr realTime Hon Hattack Hwf Hparse)
    as [H|(fakeTime & Hft & Hp & Hname)].
  - left. split; [exact (f_equal snd H) | exact (f_equal fst H)].
  - right. cbn [fst snd] in Hp, Hname. split; [exact Hname|].
    rewrite Hp, (setTimes_stamped packet fakeTime Hft).
    split; [exists fakeTime; split; [exact Hft | reflexivity]|].
    unfold stamped.
    cbn [ntpcore.LeapIndicator ntpcore.Version ntpcore.Mode ntpcore.Stratum
         ntpcore.RefTimeSec ntpcore.RefTimeFrac ntpcore.OrigTimeSec ntpcore.OrigTimeFrac
         ntpcore.RecvTimeSec ntpcore.RecvTimeFrac ntpcore.XmitTimeSec ntpcore.XmitTimeFrac].
    split; [reflexivity|]. split; [reflexivity|]. split; [reflexivity|].
    split; [|repeat split].
    replace (time.unixSec fakeTime - 1 + 2208988800)
      with (time.unixSec fakeTime + 2208988800 - 1) by lia.
    rewrite Zminus_mod_idemp_l. reflexivity.
Qed.

Lemma time_attack_timestamps_witness :
  let r := attacks.ProcessPacket (sample_attack_env [])
             (sample_engine (security true "rollover" true 1 "ntp_era" "DENY"))
             sample_packet sample_client sample_now in
  let p' := snd (fst r) in
  (snd r = "" /\ p' = sample_packet)
  \/ (snd r <> ""
      /\ (exists fakeTime, time.wf_Time fakeTime /\ p' = stamped sample_packet fakeTime)
      /\ ntpcore.RecvTimeSec p' = ntpcore.XmitTimeSec p'
      /\ ntpcore.RecvTimeFrac p' = ntpcore.XmitTimeFrac p'
      /\ ntpcore.RefTimeFrac p' = ntpcore.XmitTimeFrac p'
      /\ ntpcore.RefTimeSec p' = (ntpcore.XmitTimeSec p' - 1) mod 4294967296
      /\ ntpcore.OrigTimeSec p' = ntpcore.OrigTimeSec sample_packet
      /\ ntpcore.OrigTimeFrac p' = ntpcore.OrigTimeFrac sample_packet
      /\ ntpcore.Version p' = ntpcore.Version sample_packet
      /\ ntpcore.Mode p' = ntpcore.Mode sample_packet
      /\ ntpcore.Stratum p' = ntpcore.Stratum sample_packet
      /\ ntpcore.LeapIndicator p' = ntpcore.LeapIndicator sample_packet).
Proof.
  apply (time_attack_timestamps (sample_attack_env [])
           (sample_engine (security true "rollover" true 1 "ntp_era" "DENY"))
           sample_packet sample_client sample_now).
  - reflexivity.
  - reflexivity.
  - unfold time.wf_Time. cbn. lia.
  - intros s t H. discriminate H.
Defined.

Lemma seconds_duration (s : Z) :
  -9223372036 <= s <= 9223372036 -> int64 (s * time.Second) = s * 1000000000.
Proof. intros Hs. unfold int64, time.Second. Z.div_mod_to_equations. lia. Qed.





(** ** What the engine never emits *)

Lemma TimeToNTPTimestamp_range (t : time.Time) :
  is_uint32 (ntpcore.Seconds (ntpcore.TimeToNTPTimestamp t))
  /\ is_uint32 (ntpcore.Fraction (ntpcore.TimeToNTPTimestamp t)).
Proof.
  unfold ntpcore.TimeToNTPTimestamp, float64.to_uint32, uint32, is_uint32.
  cbn [ntpcore.Seconds ntpcore.Fraction]. split; apply Z.mod_pos_bound; lia.
Qed.

Lemma uint8_range (z : Z) : is_uint8 (uint8 z).
Proof. unfold is_uint8, uint8. apply Z.mod_pos_bound. lia. Qed.

Lemma uint32_range (z : Z) : is_uint32 (uint32 z).
Proof. unfold is_uint32, uint32. apply Z.mod_pos_bound. lia. Qed.

Lemma Intn_range (n : Z) (ds : list Z) : 0 < n -> 0 <= fst (attacks.Intn n ds) < n.
Proof.
  intros Hn. unfold attacks.Intn. destruct ds as [|r rest]; cbn [fst]; [lia|].
  apply Z.mod_pos_bound. exact Hn.
Qed.

Lemma uint8_Intn8 (ds : list Z) : 0 <= uint8 (fst (attacks.Intn 8 ds)) < 8.
Proof.
  pose proof (Intn_range 8 ds ltac:(lia)) as H. unfold uint8.
  rewrite Z.mod_small by lia. exact H.
Qed.

Ltac packet_fields :=
  cbn [ntpcore.LeapIndicator ntpcore.Version ntpcore.Mode ntpcore.Stratum ntpcore.Poll
       ntpcore.Precision ntpcore.RootDelay ntpcore.RootDisp ntpcore.ReferenceID
       ntpcore.RefTimeSec ntpcore.RefTimeFrac ntpcore.OrigTimeSec ntpcore.OrigTimeFrac
       ntpcore.RecvTimeSec ntpcore.RecvTimeFrac ntpcore.XmitTimeSec ntpcore.XmitTimeFrac].

Ltac in_range :=
  first [ assumption
        | apply uint8_range
        | apply uint32_range
        | apply TimeToNTPTimestamp_range
        | apply Uint32_range
        | unfold is_uint8, is_int8, is_uint32, ntpcore.LeapAlarm; lia ].

Ltac wf_fields Hwf :=
  destruct Hwf; constructor; packet_fields; in_range.

Lemma setTimes_shape (p : ntpcore.NTPPacket) (t : time.Time) :
  ntpcore.wf_packet p ->
  ntpcore.wf_packet (attacks.setTimes p t)
  /\ (header_fits p -> header_fits (attacks.setTimes p t)).
Proof.
  intros Hwf. split; [|intros H; exact H].
  unfold attacks.setTimes, ntpcore.SetReceiveTime, ntpcore.SetTransmitTime,
    ntpcore.SetReferenceTime.
  wf_fields Hwf.
Qed.

Lemma SetKissOfDeathCode_shape (p : ntpcore.NTPPacket) (code : string) :
  ntpcore.wf_packet p ->
  ntpcore.wf_packet (fst (ntpcore.SetKissOfDeathCode p code))
  /\ (header_fits p -> header_fits (fst (ntpcore.SetKissOfDeathCode p code))).
Proof.
  intros Hwf. unfold ntpcore.SetKissOfDeathCode.
  destruct (Z.eqb_spec (Z.of_nat (String.length code)) 4) as [Hlen|Hlen]; cbn [negb fst];
    [|split; [exact Hwf | intros H; exact H]].
  split; [|intros H; exact H].
  destruct (code_of_length_4 code) as (a & b & c & d & E); [lia|]. rewrite E.
  unfold ntpcore.set_ReferenceID, ntpcore.set_Stratum. wf_fields Hwf.
Qed.

Lemma applyKissOfDeath_shape (e : attacks.AttackEngine) (p : ntpcore.NTPPacket)
    (clientAddr : string) (count : Z) :
  ntpcore.wf_packet p ->
  ntpcore.wf_packet (fst (attacks.applyKissOfDeath e p clientAddr count))
  /\ (header_fits p -> header_fits (fst (attacks.applyKissOfDeath e p clientAddr count))).
Proof.
  intros Hwf. unfold attacks.applyKissOfDeath.
  destruct (negb _); [split; [exact Hwf | intros H; exact H]|].
  destruct (_ && _); [split; [exact Hwf | intros H; exact H]|].
  cbn [fst].
  set (p1 := ntpcore.set_LeapIndicator (ntpcore.set_Stratum p 0) ntpcore.LeapAlarm).
  assert (Hwf1 : ntpcore.wf_packet p1).
  { subst p1. unfold ntpcore.set_LeapIndicator, ntpcore.set_Stratum. wf_fields Hwf. }
  assert (Hfit1 : header_fits p -> header_fits p1).
  { subst p1. unfold header_fits, ntpcore.set_LeapIndicator, ntpcore.set_Stratum,
      ntpcore.LeapAlarm. packet_fields. lia. }
  pose proof (SetKissOfDeathCode_shape p1
                (config.KissOfDeathConfig.Code
                   (config.KissOfDeath (config.Security (attacks.cfg e)))) Hwf1) as [Ha Hb].
  destruct (ntpcore.SetKissOfDeathCode p1 _) as [p2 [err|]]; cbn [fst] in Ha, Hb.
  - pose proof (SetKissOfDeathCode_shape p2 "DENY" Ha) as [Hc Hd].
    split; [exact Hc | intros H; apply Hd, Hb, Hfit1, H].
  - split; [exact Ha | intros H; apply Hb, Hfit1, H].
Qed.

Lemma applyStratumLie_shape (e : attacks.AttackEngine) (p : ntpcore.NTPPacket) :
  ntpcore.wf_packet p ->
  ntpcore.wf_packet (fst (attacks.applyStratumLie e p))
  /\ (header_fits p -> header_fits (fst (attacks.applyStratumLie e p))).
Proof.
  intros Hwf. unfold attacks.applyStratumLie.
  destruct (negb _); [split; [exact Hwf | intros H; exact H]|].
  cbn [fst]. split.
  - destruct (_ =? 1); unfold ntpcore.set_ReferenceID, ntpcore.set_Stratum; wf_fields Hwf.
  - intros H. destruct (_ =? 1); exact H.
Qed.

Lemma applyLeapSecond_shape (e : attacks.AttackEngine) (p : ntpcore.NTPPacket) :
  ntpcore.wf_packet p ->
  ntpcore.wf_packet (fst (attacks.applyLeapSecond e p)).
Proof.
  intros Hwf. unfold attacks.applyLeapSecond.
  destruct (negb _); [exact Hwf|].
  cbn [fst]. unfold ntpcore.set_LeapIndicator. wf_fields Hwf.
Qed.

Lemma applyFuzzing_shape (env : attacks.Env) (e : attacks.AttackEngine)
    (p : ntpcore.NTPPacket) :
  ntpcore.wf_packet p ->
  ntpcore.wf_packet (fst (attacks.applyFuzzing env e p))
  /\ (header_fits p -> header_fits (fst (attacks.applyFuzzing env e p))).
Proof.
  intros Hwf. unfold attacks.applyFuzzing.
  destruct (negb _); [split; [exact Hwf | intros H; exact H]|].
  destruct (attacks.Intn 10 (attacks.draws env)) as [mutationType ds].
  destruct (mutationType =? 0).
  { pose proof (Intn_range 8 ds ltac:(lia)) as Hv.
    pose proof (uint8_Intn8 (snd (attacks.Intn 8 ds))) as Hv2.
    destruct (attacks.Intn 8 ds) as [v ds']. cbn [fst snd] in *.
    assert (Ev : uint8 v = v) by (unfold uint8; apply Z.mod_small; lia).
    rewrite Ev.
    set (v' := if (v =? 3) || (v =? 4) then uint8 (fst (attacks.Intn 8 ds')) else v).
    assert (Hv' : 0 <= v' < 8) by (subst v'; destruct ((v =? 3) || (v =? 4)); lia).
    split.
    - unfold ntpcore.set_Version. wf_fields Hwf.
    - unfold header_fits, ntpcore.set_Version. packet_fields. lia. }
  destruct (mutationType =? 1).
  { pose proof (uint8_Intn8 ds) as Hm. cbn [fst].
    set (m := if uint8 (fst (attacks.Intn 8 ds)) =? 4 then 0
              else uint8 (fst (attacks.Intn 8 ds))).
    assert (Hm' : 0 <= m < 8)
      by (subst m; destruct (uint8 (fst (attacks.Intn 8 ds)) =? 4); lia).
    split.
    - unfold ntpcore.set_Mode. wf_fields Hwf.
    - unfold header_fits, ntpcore.set_Mode. packet_fields. lia. }
  destruct (mutationType =? 2).
  { cbn [fst]. pose proof (uint8_range (fst (attacks.Intn 20 ds))) as Hs.
    unfold is_uint8 in Hs.
    set (s := if uint8 (fst (attacks.Intn 20 ds)) =? 0 then 16
              else if uint8 (fst (attacks.Intn 20 ds)) >? 16 then 0
                   else uint8 (fst (attacks.Intn 20 ds))).
    assert (Hs' : 0 <= s < 256).
    { subst s. destruct (uint8 (fst (attacks.Intn 20 ds)) =? 0); [lia|].
      destruct (uint8 (fst (attacks.Intn 20 ds)) >? 16); lia. }
    split; [|intros H; exact H].
    unfold ntpcore.set_Stratum. wf_fields Hwf. }
  destruct (mutationType =? 3).
  { cbn [fst]. split.
    - unfold ntpcore.set_LeapIndicator. wf_fields Hwf.
    - unfold header_fits, ntpcore.set_LeapIndicator. packet_fields. lia. }
  destruct (mutationType =? 4).
  { cbn [fst]. split; [|intros H; exact H].
    unfold ntpcore.SetReceiveTime, ntpcore.SetTransmitTime, ntpcore.SetReferenceTime.
    wf_fields Hwf. }
  destruct (mutationType =? 5).
  { cbn [fst]. split; [|intros H; exact H]. wf_fields Hwf. }
  destruct (mutationType =? 6).
  { cbn [fst]. split; [|intros H; exact H].
    unfold ntpcore.set_RootDisp, ntpcore.set_RootDelay. wf_fields Hwf. }
  destruct (mutationType =? 7).
  { cbn [fst]. split; [|intros H; exact H].
    unfold ntpcore.set_ReferenceID. wf_fields Hwf. }
  destruct (mutationType =? 8).
  { cbn [fst]. split; [|intros H; exact H].
    unfold ntpcore.set_OrigTimeSec. wf_fields Hwf. }
  destruct (mutationType =? 9).
  { cbn [fst]. split; [|intros H; exact H].
    unfold ntpcore.set_Precision, ntpcore.set_Poll. wf_fields Hwf. }
  split; [exact Hwf | intros H; exact H].
Qed.

Ltac shape_of H :=
  let Ha := fresh "Ha" in
  let Hb := fresh "Hb" in
  destruct H as [Ha Hb];
  match goal with
  | |- context [let '(_, _) := ?x in _] => destruct x
  end;
  cbn [fst snd] in *; split; [exact Ha | intros Hfit _; exact (Hb Hfit)].

(** X27.  Whatever the attack and the random draws, the packet that
    [ProcessPacket] returns for a packet of the Go type is one again:
    every field is within its integer type.  Its leap indicator, version
    and mode also still fit their 2, 3 and 3 bits on the wire, so that
    it is sent as it is, under every attack but the leap-second one
    (which writes the configured value, that may exceed two bits). *)
Theorem ProcessPacket_shape (env : attacks.Env) (e : attacks.AttackEngine)
    (packet : ntpcore.NTPPacket) (clientAddr : string) (realTime : time.Time) :
  ntpcore.wf_packet packet ->
  let p' := snd (fst (attacks.ProcessPacket env e packet clientAddr realTime)) in
  ntpcore.wf_packet p'
  /\ (header_fits packet -> attacks.GetActiveAttack e <> attacks.AttackLeapSecond ->
      header_fits p').
Proof.
  intros Hwf. cbv zeta. unfold attacks.GetActiveAttack, attacks.ProcessPacket.
  destruct (negb _); [cbn [fst snd]; split; [exact Hwf | intros H _; exact H]|].
  cbn [attacks.cfg].
  set (e1 := {| attacks.cfg := attacks.cfg e; attacks.driftState := attacks.driftState e;
                attacks.requestCount := _ |}).
  destruct (String.eqb _ attacks.AttackTimeSpoofing).
  { assert (H : ntpcore.wf_packet (fst (attacks.applyTimeSpoofing env e1 packet realTime))
                /\ (header_fits packet ->
                    header_fits (fst (attacks.applyTimeSpoofing env e1 packet realTime)))).
    { unfold attacks.applyTimeSpoofing. destruct (negb _); cbn [fst];
        [split; [exact Hwf | intros H; exact H] | apply setTimes_shape, Hwf]. }
    shape_of H. }
  destruct (String.eqb _ attacks.AttackTimeDrift).
  { unfold attacks.applyTimeDrift. destruct (negb _); cbn [fst snd].
    - split; [exact Hwf | intros H _; exact H].
    - match goal with
      | |- context [attacks.setTimes packet ?t] =>
          destruct (setTimes_shape packet t Hwf) as [Ha Hb]
      end.
      split; [exact Ha | intros Hfit _; exact (Hb Hfit)]. }
  destruct (String.eqb _ attacks.AttackKissOfDeath).
  { pose proof (applyKissOfDeath_shape e1 packet clientAddr
                  (int64 (default 0 (attacks.requestCount e !! clientAddr) + 1)) Hwf) as H.
    shape_of H. }
  destruct (String.eqb _ attacks.AttackStratumLie).
  { pose proof (applyStratumLie_shape e1 packet Hwf) as H. shape_of H. }
  destruct (String.eqb _ attacks.AttackLeapSecond) eqn:Eleap.
  { pose proof (applyLeapSecond_shape e1 packet Hwf) as Ha.
    destruct (attacks.applyLeapSecond e1 packet). cbn [fst snd] in *.
    split; [exact Ha|]. intros _ Hne. apply String.eqb_eq in Eleap. contradiction. }
  destruct (String.eqb _ attacks.AttackRollover).
  { assert (H : ntpcore.wf_packet (fst (attacks.applyRollover e1 packet))
                /\ (header_fits packet -> header_fits (fst (attacks.applyRollover e1 packet)))).
    { unfold attacks.applyRollover. destruct (negb _); cbn [fst];
        [split; [exact Hwf | intros H; exact H]|].
      destruct (String.eqb _ "y2k38");
        [|destruct (String.eqb _ "ntp_era"); [|destruct (String.eqb _ "custom")]];
        cbn [fst]; apply setTimes_shape, Hwf. }
    shape_of H. }
  destruct (String.eqb _ attacks.AttackClockStep).
  { assert (H : ntpcore.wf_packet
                  (fst (attacks.applyClockStep e1 packet realTime
                          (int64 (default 0 (attacks.requestCount e !! clientAddr) + 1))))
                /\ (header_fits packet ->
                    header_fits
                      (fst (attacks.applyClockStep e1 packet realTime
                              (int64 (default 0 (attacks.requestCount e !! clientAddr) + 1)))))).
    { unfold attacks.applyClockStep. destruct (negb _); cbn [fst];
        [split; [exact Hwf | intros H; exact H]|].
      destruct (_ && _); cbn [fst];
        [split; [exact Hwf | intros H; exact H] | apply setTimes_shape, Hwf]. }
    shape_of H. }
  destruct (String.eqb _ attacks.AttackFuzzing).
  { pose proof (applyFuzzing_shape env e1 packet Hwf) as H. shape_of H. }
  cbn [fst snd]. split; [exact Hwf | intros H _; exact H].
Qed.

Lemma ProcessPacket_shape_witness :
  let p' := snd (fst (attacks.ProcessPacket (sample_attack_env [0; 3; 3; 5])
                        (sample_engine (security true "fuzzing" true 1 "y2k38" "DENY"))
                        sample_packet sample_client sample_now)) in
  ntpcore.wf_packet p'
  /\ (header_fits sample_packet ->
      attacks.GetActiveAttack (sample_engine (security true "fuzzing" true 1 "y2k38" "DENY"))
      <> attacks.AttackLeapSecond ->
      header_fits p').
Proof.
  apply (ProcessPacket_shape (sample_attack_env [0; 3; 3; 5])
           (sample_engine (security true "fuzzing" true 1 "y2k38" "DENY"))
           sample_packet sample_client sample_now).
  exact wf_sample_packet.
Defined.

(** The leap-second attack with a configured indicator of 4: the packet
    returned carries 4, which does not fit two bits, and what is read
    from the datagram sent is 0. *)
Example leap_second_overflow :
  let p' := snd (fst (attacks.ProcessPacket (sample_attack_env [])
                        (sample_engine (leap_security 4))
                        sample_packet sample_client sample_now)) in
  ntpcore.LeapIndicator p' = 4
  /\ ~ header_fits p'
  /\ exists q, ntpcore.ParsePacket (ntpcore.Bytes p') = Ok q /\ ntpcore.LeapIndicator q = 0.
Proof.
  cbv zeta. split; [reflexivity|]. split.
  - unfold header_fits. intros [H _]. vm_compute in H. discriminate H.
  - eexists. split; [vm_compute; reflexivity | reflexivity].
Qed.

(** ** Presets and the panic button *)

Ltac other_switch b :=
  repeat match goal with
         | |- context [String.eqb b ?c] =>
             let E := fresh "E" in
             destruct (String.eqb b c) eqn:E;
             [try reflexivity; apply String.eqb_eq in E; congruence|]
         end;
  try reflexivity.


Ltac preset_case E :=
  apply String.eqb_eq in E; rewrite E in *;
  unfold attacks.IsEnabled, attacks.GetActiveAttack, attacks.with_security, attack_switch,
    preset_arms, is_number,
    attacks.AttackTimeSpoofing, attacks.AttackTimeDrift, attacks.AttackKissOfDeath,
    attacks.AttackStratumLie, attacks.AttackLeapSecond, attacks.AttackRollover,
    attacks.AttackClockStep, attacks.AttackFuzzing.

(** X29.  [ApplyPreset] never fails.  It turns security mode on and
    selects the preset's attack, keeps the request counters, and
    restarts the drift state only for a drift preset.  The switch of the
    selected attack is turned on for time_drift, kiss_of_death,
    rollover, clock_step and fuzzing; for time_spoofing only if the
    preset gives [offset_secs] as a number; and for any other name,
    among them stratum_attack and leap_second, it is left as it was.  No
    other attack's switch is touched. *)
Theorem ApplyPreset_arms (e : attacks.AttackEngine) (preset : config.AttackPreset)
    (now : time.Time) :
  let e' := fst (attacks.ApplyPreset e preset now) in
  let attack := config.Attack preset in
  let before := attack_switch (config.Security (attacks.cfg e)) in
  let after := attack_switch (config.Security (attacks.cfg e')) in
  snd (attacks.ApplyPreset e preset now) = None
  /\ attacks.IsEnabled e' = true
  /\ attacks.GetActiveAttack e' = attack
  /\ attacks.requestCount e' = attacks.requestCount e
  /\ attacks.driftState e'
     = (if String.eqb attack "time_drift" then attacks.mkDrift now 0 time.zero
        else attacks.driftState e)
  /\ after attack
     = (if preset_arms attack then true
        else if String.eqb attack "time_spoofing"
             then is_number (config.PresetConfig preset !! "offset_secs") || before attack
             else before attack)
  /\ (forall other, other <> attack -> after other = before other).
Proof.
  cbv zeta. unfold attacks.ApplyPreset.
  destruct (String.eqb (config.Attack preset) "time_spoofing") eqn:E1.
  { preset_case E1. cbn [fst snd]. eval_string_eqb.
    split; [reflexivity|]. split; [reflexivity|]. split; [reflexivity|].
    split; [reflexivity|]. split; [reflexivity|]. split.
    - cbn. destruct (config.PresetConfig preset !! "offset_secs") as [[z|f|s|b|]|];
        reflexivity.
    - intros other Hother. cbn. other_switch other. }
  destruct (String.eqb (config.Attack preset) "time_drift") eqn:E2.
  { preset_case E2. cbn [fst snd]. eval_string_eqb.
    split; [reflexivity|]. split; [reflexivity|]. split; [reflexivity|].
    split; [reflexivity|]. split; [reflexivity|]. split; [reflexivity|].
    intros other Hother. cbn. other_switch other. }
  destruct (String.eqb (config.Attack preset) "kiss_of_death") eqn:E3.
  { preset_case E3. cbn [fst snd]. eval_string_eqb.
    split; [reflexivity|]. split; [reflexivity|]. split; [reflexivity|].
    split; [reflexivity|]. split; [reflexivity|]. split; [reflexivity|].
    intros other Hother. cbn. other_switch other. }
  destruct (String.eqb (config.Attack preset) "rollover") eqn:E4.
  { preset_case E4. cbn [fst snd]. eval_string_eqb.
    split; [reflexivity|]. split; [reflexivity|]. split; [reflexivity|].
    split; [reflexivity|]. split; [reflexivity|]. split; [reflexivity|].
    intros other Hother. cbn. other_switch other. }
  destruct (String.eqb (config.Attack preset) "clock_step") eqn:E5.
  { preset_case E5. cbn [fst snd]. eval_string_eqb.
    split; [reflexivity|]. split; [reflexivity|]. split; [reflexivity|].
    split; [reflexivity|]. split; [reflexivity|]. split; [reflexivity|].
    intros other Hother. cbn. other_switch other. }
  destruct (String.eqb (config.Attack preset) "fuzzing") eqn:E6.
  { preset_case E6. cbn [fst snd]. eval_string_eqb.
    split; [reflexivity|]. split; [reflexivity|]. split; [reflexivity|].
    split; [reflexivity|]. split; [reflexivity|]. split; [reflexivity|].
    intros other Hother. cbn. other_switch other. }
  cbn [fst snd]. unfold preset_arms. rewrite E2, E3, E4, E5, E6. cbn [orb].
  split; [reflexivity|]. split; [reflexivity|]. split; [reflexivity|].
  split; [reflexivity|]. split; [reflexivity|]. split; [reflexivity|].
  intros other Hother. reflexivity.
Qed.

(** X30.  After [DisableAllAttacks], a preset whose attack
    [ApplyPreset] has no case for (stratum_attack, leap_second, an
    unknown name), or a time_spoofing preset without a numeric
    [offset_secs], selects the attack and turns security mode on but
    leaves its switch off: requests are counted, and every packet is
    returned unchanged with no attack name. *)
Theorem preset_without_switch (e : attacks.AttackEngine) (preset : config.AttackPreset)
    (now : time.Time) (env : attacks.Env) (packet : ntpcore.NTPPacket)
    (clientAddr : string) (realTime : time.Time) :
  preset_arms (config.Attack preset) = false ->
  (config.Attack preset = "time_spoofing" ->
   is_number (config.PresetConfig preset !! "offset_secs") = false) ->
  let e' := fst (attacks.ApplyPreset (attacks.DisableAllAttacks e) preset now) in
  attacks.IsEnabled e' = true
  /\ attacks.GetActiveAttack e' = config.Attack preset
  /\ attacks.ProcessPacket env e' packet clientAddr realTime
     = (counted e' clientAddr, packet, "").
Proof.
  intros Harm Hts. cbv zeta.
  assert (Hon : attacks.IsEnabled
                  (fst (attacks.ApplyPreset (attacks.DisableAllAttacks e) preset now)) = true).
  { unfold attacks.ApplyPreset.
    repeat match goal with
           | |- context [String.eqb (config.Attack preset) ?c] =>
               destruct (String.eqb (config.Attack preset) c)
           end; reflexivity. }
  assert (Hattack : attacks.GetActiveAttack
                      (fst (attacks.ApplyPreset (attacks.DisableAllAttacks e) preset now))
                    = config.Attack preset).
  { unfold attacks.ApplyPreset.
    repeat match goal with
           | |- context [String.eqb (config.Attack preset) ?c] =>
               destruct (String.eqb (config.Attack preset) c)
           end; reflexivity. }
  split; [exact Hon|]. split; [exact Hattack|].
  apply ProcessPacket_switch_off; [exact Hon|]. rewrite Hattack.
  unfold attacks.ApplyPreset.
  destruct (String.eqb (config.Attack preset) "time_spoofing") eqn:E1.
  { apply String.eqb_eq in E1. specialize (Hts E1). rewrite E1.
    unfold is_number in Hts.
    destruct (config.PresetConfig preset !! "offset_secs") as [[z|f|s|b|]|];
      try discriminate Hts; reflexivity. }
  unfold preset_arms in Harm.
  destruct (String.eqb (config.Attack preset) "time_drift"); [discriminate Harm|].
  destruct (String.eqb (config.Attack preset) "kiss_of_death"); [discriminate Harm|].
  destruct (String.eqb (config.Attack preset) "rollover"); [discriminate Harm|].
  destruct (String.eqb (config.Attack preset) "clock_step"); [discriminate Harm|].
  destruct (String.eqb (config.Attack preset) "fuzzing"); [discriminate Harm|].
  cbn [fst]. unfold attack_switch, attacks.DisableAllAttacks, attacks.with_security.
  cbn [attacks.cfg config.Security config.set_ActiveAttack config.set_Enabled
       config.TimeSpoofing config.TimeDrift config.KissOfDeath
       config.StratumAttack config.LeapSecond config.Rollover config.ClockStep
       config.Fuzzing config.TimeSpoofingConfig.Enabled config.TimeDriftConfig.Enabled
       config.KissOfDeathConfig.Enabled config.StratumAttackConfig.Enabled
       config.LeapSecondConfig.Enabled config.RolloverConfig.Enabled
       config.ClockStepConfig.Enabled config.FuzzingConfig.Enabled].
  repeat match goal with
         | |- context [String.eqb ?a ?c] => destruct (String.eqb a c)
         end; reflexivity.
Qed.

Lemma preset_without_switch_witness :
  let e' := fst (attacks.ApplyPreset
                   (attacks.DisableAllAttacks
                      (sample_engine (security true "stratum_attack" true 1 "y2k38" "DENY")))
                   preset_stratum sample_now) in
  attacks.IsEnabled e' = true
  /\ attacks.GetActiveAttack e' = config.Attack preset_stratum
  /\ attacks.ProcessPacket (sample_attack_env []) e' sample_packet sample_client sample_now
     = (counted e' sample_client, sample_packet, "").
Proof.
  apply (preset_without_switch
           (sample_engine (security true "stratum_attack" true 1 "y2k38" "DENY"))
           preset_stratum sample_now (sample_attack_env []) sample_packet sample_client
           sample_now).
  - reflexivity.
  - intros H. discriminate H.
Defined.

(** The preset "DoS via KoD" of the default configuration, applied to
    any engine: every request of every client is answered with a
    Kiss-of-Death carrying "DENY". *)
Example preset_dos_kod_denies (e : attacks.AttackEngine) (now : time.Time)
    (env : attacks.Env) (packet : ntpcore.NTPPacket) (clientAddr : string)
    (realTime : time.Time) :
  let r := attacks.ProcessPacket env (fst (attacks.ApplyPreset e preset_dos_kod now))
             packet clientAddr realTime in
  ntpcore.Stratum (snd (fst r)) = 0
  /\ ntpcore.LeapIndicator (snd (fst r)) = ntpcore.LeapAlarm
  /\ ntpcore.GetKissOfDeathCode (snd (fst r)) = "DENY"
  /\ snd r = "Kiss-of-Death (DENY)".
Proof.
  cbv zeta.
  set (e' := fst (attacks.ApplyPreset e preset_dos_kod now)).
  rewrite (ProcessPacket_kod env e' packet clientAddr realTime); [|reflexivity|reflexivity].
  cbn [fst snd].
  exact (applyKissOfDeath_cases (counted e' clientAddr) packet clientAddr
           (int64 (default 0 (attacks.requestCount e' !! clientAddr) + 1)) eq_refl).
Qed.
